(** * OctoFit Tracker: user profiles, storage and API views

    A shallow embedding of [octofit_tracker/models.py], [storage.py],
    [serializers.py] and [views.py], and the properties of the profile
    system proved over it.

    Python values are dynamically typed, and the code tests their type
    ([isinstance(age, int)], [isinstance(role, str)], [data.get(...)] on
    whatever the JSON file holds), so the embedding keeps values dynamic:
    [json] is the universe of JSON-representable Python values and [pyval]
    adds the members of the [UserRole] enumeration.  Floating-point numbers
    are left out of the universe.

    Effects are explicit: a [State] holds the storage object reachable from
    the views (its file name and its dict of profiles), the files on disk,
    the wall clock read by [datetime.now()] and the lines printed.  A
    computation is a function from a state to an outcome and a state; a
    raised exception keeps the state reached so far, as a Python exception
    keeps the mutations made before it. *)

From Stdlib Require Import ZArith List String Ascii Bool Lia.
From Stdlib Require Import DecimalString DecimalNat.
Import ListNotations.
Local Open Scope string_scope.
Local Open Scope Z_scope.

(** ** Insertion-ordered dictionaries with text keys

    A Python [dict] keeps its keys in insertion order; assigning to a key
    that is present replaces the value in place. *)

Section Dict.
Context {V : Type}.

Definition dict := list (string * V).

Fixpoint dict_get (k : string) (d : dict) : option V :=
  match d with
  | [] => None
  | (k', v) :: d' => if String.eqb k' k then Some v else dict_get k d'
  end.

Definition dict_mem (k : string) (d : dict) : bool :=
  match dict_get k d with Some _ => true | None => false end.

Fixpoint dict_set (k : string) (v : V) (d : dict) : dict :=
  match d with
  | [] => [(k, v)]
  | (k', v') :: d' =>
      if String.eqb k' k then (k', v) :: d' else (k', v') :: dict_set k v d'
  end.

Fixpoint dict_del (k : string) (d : dict) : dict :=
  match d with
  | [] => []
  | (k', v') :: d' =>
      if String.eqb k' k then d' else (k', v') :: dict_del k d'
  end.

Definition dict_keys (d : dict) : list string := map fst d.
Definition dict_values (d : dict) : list V := map snd d.

(** [{k: v for k, v in items}]: the dict built by assigning the items in
    order to an empty dict. *)
Definition dict_of_items (items : list (string * V)) : dict :=
  fold_left (fun acc kv => dict_set (fst kv) (snd kv) acc) items [].
End Dict.

Arguments dict V : clear implicits.

(** ** Values *)

(** [class UserRole(Enum)] *)
Inductive UserRole : Type :=
| STUDENT
| GYM_TEACHER.

(** [role.value] *)
Definition UserRole_value (r : UserRole) : string :=
  match r with
  | STUDENT => "student"
  | GYM_TEACHER => "gym_teacher"
  end.

(** [UserRole(text)]: the member whose value is [text]; [None] stands for
    the [ValueError] the enumeration raises otherwise. *)
Definition UserRole_of_value (s : string) : option UserRole :=
  if String.eqb s "student" then Some STUDENT
  else if String.eqb s "gym_teacher" then Some GYM_TEACHER
  else None.

(** JSON-representable Python values: [None], [bool], [int], [str], [list]
    and [dict] with text keys. *)
#[local] Set Warnings "-register-all".
Inductive json : Type :=
| JNull
| JBool (b : bool)
| JInt (n : Z)
| JStr (s : string)
| JList (l : list json)
| JObj (d : list (string * json)).

(** A Python value handed to the code: a JSON-representable value or a
    member of [UserRole]. *)
Inductive pyval : Type :=
| PJson (j : json)
| PEnum (r : UserRole).

(** [isinstance(v, int)] together with the number [v] then denotes; [bool]
    is a subclass of [int] in Python. *)
Definition json_int (j : json) : option Z :=
  match j with
  | JInt n => Some n
  | JBool true => Some 1
  | JBool false => Some 0
  | _ => None
  end.

Definition py_int (v : pyval) : option Z :=
  match v with
  | PJson j => json_int j
  | PEnum _ => None
  end.

(** Truth value of a Python object, as [if v:] and [not v] take it. *)
Definition str_truthy (s : string) : bool :=
  match s with EmptyString => false | _ => true end.

Definition json_truthy (j : json) : bool :=
  match j with
  | JNull => false
  | JBool b => b
  | JInt n => negb (n =? 0)
  | JStr s => str_truthy s
  | JList l => match l with [] => false | _ => true end
  | JObj d => match d with [] => false | _ => true end
  end.

Definition truthy (v : pyval) : bool :=
  match v with
  | PJson j => json_truthy j
  | PEnum _ => true
  end.

(** [v.value]: defined on the members of [UserRole] only; [None] stands for
    the [AttributeError] of any other object. *)
Definition role_value (v : pyval) : option string :=
  match v with
  | PEnum r => Some (UserRole_value r)
  | PJson _ => None
  end.

(** [v in ["student", "gym_teacher"]] *)
Definition in_role_names (v : pyval) : bool :=
  match v with
  | PJson (JStr s) => String.eqb s "student" || String.eqb s "gym_teacher"
  | _ => false
  end.

(** [data.get(key)] and [data.get(key, default)] on a dict. *)
Definition py_get (d : dict json) (k : string) : json :=
  match dict_get k d with Some v => v | None => JNull end.

Definition py_get_default (d : dict json) (k : string) (default : json) : json :=
  match dict_get k d with Some v => v | None => default end.

(** ** Exceptions and outcomes *)

Inductive exn : Type :=
| ValueError (msg : string)          (* [raise ValueError(msg)] in the repository *)
| EnumValueError (value : string)    (* the [ValueError] of [UserRole(value)] *)
| IsoformatValueError (text : string)(* the [ValueError] of [datetime.fromisoformat] *)
| JSONDecodeError                    (* [json.load] on text that is not JSON *)
| TypeError
| AttributeError.

(** [except ValueError]: [json.JSONDecodeError] is a subclass of
    [ValueError]. *)
Definition is_ValueError (e : exn) : bool :=
  match e with
  | ValueError _ | EnumValueError _ | IsoformatValueError _ | JSONDecodeError => true
  | TypeError | AttributeError => false
  end.

Inductive result (A : Type) : Type :=
| Ok (a : A)
| Raise (e : exn).

Arguments Ok {A} a.
Arguments Raise {A} e.

Definition rbind {A B : Type} (r : result A) (k : A -> result B) : result B :=
  match r with
  | Ok a => k a
  | Raise e => Raise e
  end.

Notation "x <-? r ;; k" := (rbind r (fun x => k))
  (at level 61, r at next level, right associativity).

(** [for x in v]: the items a JSON-representable value yields when iterated;
    a dict yields its keys, a text its characters, and [None], [bool] and
    [int] are not iterable. *)
Fixpoint str_chars (s : string) : list json :=
  match s with
  | EmptyString => []
  | String c s' => JStr (String c EmptyString) :: str_chars s'
  end.

Definition py_iter (j : json) : result (list json) :=
  match j with
  | JList l => Ok l
  | JObj d => Ok (map (fun kv => JStr (fst kv)) d)
  | JStr s => Ok (str_chars s)
  | JNull | JBool _ | JInt _ => Raise TypeError
  end.

(** [sum(...)]: starts from the integer 0 and adds the items from the left;
    adding a value that is not a number to an [int] raises [TypeError].  The
    numbers of the universe are the integers: a floating-point item, which
    Python would add, is outside it. *)
Fixpoint py_sum_from (acc : Z) (l : list json) : result Z :=
  match l with
  | [] => Ok acc
  | x :: l' =>
      match json_int x with
      | Some n => py_sum_from (acc + n) l'
      | None => Raise TypeError
      end
  end.

Definition py_sum (l : list json) : result Z := py_sum_from 0 l.

(** Messages the code builds. *)
Definition msg_age : string := "Age must be a valid integer between 0 and 150".

Definition msg_invalid_role (role : string) : string :=
  "Invalid role. Must be 'student' or 'gym_teacher', got '" ++ role ++ "'".

Definition msg_exists (user_id : string) : string :=
  "Profile with user_id '" ++ user_id ++ "' already exists".

Definition msg_not_found (user_id : string) : string :=
  "Profile with user_id '" ++ user_id ++ "' not found".

(** ** Files *)

(** The text of a file, as [json.load] sees it: text that is not JSON, or
    the text of a JSON document, identified with the value [json.load]
    returns for it.  [json.dump(data, f)] writes the text of [data]. *)
Inductive File : Type :=
| NotJson
| Json (j : json).

(** ** The date and time library

    [datetime] and its text format belong to the Python library and the
    wall clock to the machine: the code is modelled over any of them.
    [None] from [fromisoformat] stands for the [ValueError] raised on text
    that is not in ISO format; [time_at n] is what the [n]-th reading of the
    wall clock returns. *)
Class DatetimeLib : Type := {
  datetime : Type;
  isoformat : datetime -> string;
  fromisoformat : string -> option datetime;
  time_at : nat -> datetime
}.

Section Tracker.

Context {DT : DatetimeLib}.

(** *** Entities: [models.py] *)

Record ActivityEntry : Type := mkActivityEntry {
  activity_type : json;
  duration_minutes : json;
  calories_burned : json;
  timestamp : datetime;
  notes : json
}.

Record UserProfile : Type := mkUserProfile {
  user_id : json;
  name : json;
  age : json;
  role : pyval;
  activity_history : list ActivityEntry;
  created_at : datetime
}.

(** What [print] wrote. *)
Inductive line : Type :=
| ErrorLoadingProfiles (e : exn).   (* [print(f"Error loading profiles: {e}")] *)

(** *** The state of the process *)

Record State : Type := mkState {
  storage_file : string;            (* [storage.storage_file] *)
  profiles : dict UserProfile;      (* [storage.profiles] *)
  clock : nat;                      (* readings of [datetime.now()] so far *)
  disk : dict File;                 (* the files that exist, by path *)
  stdout : list line
}.

Definition M (A : Type) : Type := State -> result A * State.

Definition ret {A : Type} (a : A) : M A := fun st => (Ok a, st).

Definition bind {A B : Type} (m : M A) (k : A -> M B) : M B :=
  fun st =>
    match m st with
    | (Ok a, st') => k a st'
    | (Raise e, st') => (Raise e, st')
    end.

Definition raise {A : Type} (e : exn) : M A := fun st => (Raise e, st).

Definition lift {A : Type} (r : result A) : M A := fun st => (r, st).

(** [try: m  except <handles> as e: handler e] *)
Definition try_except {A : Type} (m : M A) (handles : exn -> bool)
    (handler : exn -> M A) : M A :=
  fun st =>
    match m st with
    | (Ok a, st') => (Ok a, st')
    | (Raise e, st') => if handles e then handler e st' else (Raise e, st')
    end.

Definition get_state : M State := fun st => (Ok st, st).

Definition set_profiles (ps : dict UserProfile) : M unit :=
  fun st => (Ok tt, mkState (storage_file st) ps (clock st) (disk st) (stdout st)).

Definition set_storage_file (path : string) : M unit :=
  fun st => (Ok tt, mkState path (profiles st) (clock st) (disk st) (stdout st)).

Definition write_file (path : string) (f : File) : M unit :=
  fun st => (Ok tt, mkState (storage_file st) (profiles st) (clock st)
                       (dict_set path f (disk st)) (stdout st)).

Definition print (l : line) : M unit :=
  fun st => (Ok tt, mkState (storage_file st) (profiles st) (clock st) (disk st)
                       (stdout st ++ [l])).

(** [datetime.now()] *)
Definition now : M datetime :=
  fun st => (Ok (time_at (clock st)),
             mkState (storage_file st) (profiles st) (S (clock st)) (disk st) (stdout st)).

Notation "x <- m ;; k" := (bind m (fun x => k))
  (at level 61, m at next level, right associativity).
Notation "m ;;; k" := (bind m (fun _ => k))
  (at level 61, right associativity).

(** [ActivityEntry.__init__] *)
Definition ActivityEntry_init (activity_type duration_minutes calories_burned
    notes : json) : M ActivityEntry :=
  t <- now ;;
  ret (mkActivityEntry activity_type duration_minutes calories_burned t notes).

(** [ActivityEntry.to_dict] *)
Definition ActivityEntry_to_dict (a : ActivityEntry) : json :=
  JObj [ ("activity_type", activity_type a);
         ("duration_minutes", duration_minutes a);
         ("calories_burned", calories_burned a);
         ("timestamp", JStr (isoformat (timestamp a)));
         ("notes", notes a) ].

(** [datetime.fromisoformat(v)]: [TypeError] when [v] is not text. *)
Definition datetime_fromisoformat (v : json) : M datetime :=
  match v with
  | JStr s =>
      match fromisoformat s with
      | Some t => ret t
      | None => raise (IsoformatValueError s)
      end
  | _ => raise TypeError
  end.

Definition set_timestamp (t : datetime) (a : ActivityEntry) : ActivityEntry :=
  mkActivityEntry (activity_type a) (duration_minutes a) (calories_burned a) t (notes a).

(** [ActivityEntry.from_dict]: [data.get] exists on a dict only. *)
Definition ActivityEntry_from_dict (data : json) : M ActivityEntry :=
  match data with
  | JObj d =>
      entry <- ActivityEntry_init (py_get d "activity_type")
                 (py_get d "duration_minutes") (py_get d "calories_burned")
                 (py_get_default d "notes" (JStr EmptyString)) ;;
      match dict_get "timestamp" d with
      | Some v =>
          t <- datetime_fromisoformat v ;;
          ret (set_timestamp t entry)
      | None => ret entry
      end
  | _ => raise AttributeError
  end.

(** The age test of [UserProfile.__init__], [ProfileStorage.update_profile]
    and [views.create_profile]:
    [isinstance(age, int) and not (age < 0 or age > 150)]. *)
Definition age_ok (age : pyval) : bool :=
  match py_int age with
  | Some n => (0 <=? n) && (n <=? 150)
  | None => false
  end.

(** An object that passed [isinstance(v, int)] is JSON-representable. *)
Definition as_json (v : pyval) : json :=
  match v with
  | PJson j => j
  | PEnum _ => JNull
  end.

(** [UserProfile.__init__] *)
Definition UserProfile_init (user_id name : json) (age role : pyval)
    : M UserProfile :=
  if negb (age_ok age) then raise (ValueError msg_age)
  else
    role' <- match role with
             | PJson (JStr s) =>
                 match UserRole_of_value s with
                 | Some r => ret (PEnum r)
                 | None => raise (ValueError (msg_invalid_role s))
                 end
             | _ => ret role
             end ;;
    t <- now ;;
    ret (mkUserProfile user_id name (as_json age) role' [] t).

Definition append_activity (a : ActivityEntry) (p : UserProfile) : UserProfile :=
  mkUserProfile (user_id p) (name p) (age p) (role p)
    (activity_history p ++ [a]) (created_at p).

(** [UserProfile.add_activity]: the profile after the append, and the new
    entry. *)
Definition UserProfile_add_activity (p : UserProfile) (activity_type
    duration_minutes calories_burned notes : json)
    : M (UserProfile * ActivityEntry) :=
  activity <- ActivityEntry_init activity_type duration_minutes calories_burned notes ;;
  ret (append_activity activity p, activity).

(** [get_total_activities], [get_total_activity_time],
    [get_total_calories_burned] *)
Definition get_total_activities (p : UserProfile) : Z :=
  Z.of_nat (List.length (activity_history p)).

Definition get_total_activity_time (p : UserProfile) : result Z :=
  py_sum (map duration_minutes (activity_history p)).

Definition get_total_calories_burned (p : UserProfile) : result Z :=
  py_sum (map calories_burned (activity_history p)).

(** [UserProfile.to_dict]: the entries are evaluated in the order of the
    dict display. *)
Definition UserProfile_to_dict (p : UserProfile) : result json :=
  match role_value (role p) with
  | None => Raise AttributeError
  | Some rv =>
      time <-? get_total_activity_time p ;;
      calories <-? get_total_calories_burned p ;;
      Ok (JObj [ ("user_id", user_id p);
                 ("name", name p);
                 ("age", age p);
                 ("role", JStr rv);
                 ("created_at", JStr (isoformat (created_at p)));
                 ("activity_history",
                    JList (map ActivityEntry_to_dict (activity_history p)));
                 ("stats",
                    JObj [ ("total_activities", JInt (get_total_activities p));
                           ("total_activity_time_minutes", JInt time);
                           ("total_calories_burned", JInt calories) ]) ])
  end.

Definition set_created_at (t : datetime) (p : UserProfile) : UserProfile :=
  mkUserProfile (user_id p) (name p) (age p) (role p) (activity_history p) t.

(** The loop of [UserProfile.from_dict] over [data["activity_history"]]. *)
Fixpoint restore_history (items : list json) (p : UserProfile) : M UserProfile :=
  match items with
  | [] => ret p
  | activity_data :: rest =>
      activity <- ActivityEntry_from_dict activity_data ;;
      restore_history rest (append_activity activity p)
  end.

(** [UserProfile.from_dict] *)
Definition UserProfile_from_dict (data : json) : M UserProfile :=
  match data with
  | JObj d =>
      p <- UserProfile_init (py_get d "user_id") (py_get d "name")
             (PJson (py_get d "age")) (PJson (py_get d "role")) ;;
      p <- match dict_get "created_at" d with
           | Some v =>
               t <- datetime_fromisoformat v ;;
               ret (set_created_at t p)
           | None => ret p
           end ;;
      match dict_get "activity_history" d with
      | Some v =>
          items <- lift (py_iter v) ;;
          restore_history items p
      | None => ret p
      end
  | _ => raise AttributeError
  end.

(** *** Storage: [storage.py] *)

(** Assignment to [self.profiles[user_id]], and mutation of the profile
    object stored under [user_id]: the dict holds the object itself, so a
    field assignment through a reference obtained from [get_profile] is
    seen in the dict at once. *)
Definition store_profile (uid : string) (p : UserProfile) : M unit :=
  fun st => (Ok tt, mkState (storage_file st) (dict_set uid p (profiles st))
                       (clock st) (disk st) (stdout st)).

(** The dict comprehension of [save_all]; the first profile whose
    [to_dict] raises ends it. *)
Fixpoint profiles_to_dicts (ps : list (string * UserProfile))
    : result (list (string * json)) :=
  match ps with
  | [] => Ok []
  | (uid, p) :: rest =>
      d <-? UserProfile_to_dict p ;;
      ds <-? profiles_to_dicts rest ;;
      Ok ((uid, d) :: ds)
  end.

(** [ProfileStorage.save_all]; creating the directory and writing the file
    are taken to succeed. *)
Definition save_all : M unit :=
  st <- get_state ;;
  items <- lift (profiles_to_dicts (profiles st)) ;;
  write_file (storage_file st) (Json (JObj (dict_of_items items))).

(** [json.load(f)] *)
Definition json_load (f : File) : M json :=
  match f with
  | Json j => ret j
  | NotJson => raise JSONDecodeError
  end.

(** [data.items()]: a method of dicts only. *)
Definition py_items (data : json) : M (list (string * json)) :=
  match data with
  | JObj d => ret d
  | _ => raise AttributeError
  end.

(** The loop of [load_all] over [data.items()]. *)
Fixpoint load_items (items : list (string * json)) : M unit :=
  match items with
  | [] => ret tt
  | (uid, profile_data) :: rest =>
      p <- UserProfile_from_dict profile_data ;;
      store_profile uid p ;;;
      load_items rest
  end.

(** [ProfileStorage.load_all]; a file that exists is taken to be
    readable. *)
Definition load_all : M unit :=
  st <- get_state ;;
  match dict_get (storage_file st) (disk st) with
  | Some f =>
      try_except
        (data <- json_load f ;;
         items <- py_items data ;;
         load_items items)
        is_ValueError
        (fun e => print (ErrorLoadingProfiles e) ;;; set_profiles [])
  | None => set_profiles []
  end.

(** [ProfileStorage.__init__] *)
Definition ProfileStorage_init (storage_file : string) : M unit :=
  set_storage_file storage_file ;;;
  set_profiles [] ;;;
  load_all.

(** [ProfileStorage.create_profile] *)
Definition ProfileStorage_create_profile (uid name : string) (age role : pyval)
    : M UserProfile :=
  st <- get_state ;;
  if dict_mem uid (profiles st) then raise (ValueError (msg_exists uid))
  else
    profile <- UserProfile_init (JStr uid) (JStr name) age role ;;
    store_profile uid profile ;;;
    save_all ;;;
    ret profile.

(** [ProfileStorage.get_profile] *)
Definition ProfileStorage_get_profile (uid : string) : M (option UserProfile) :=
  st <- get_state ;;
  ret (dict_get uid (profiles st)).

(** The keyword arguments [update_profile] looks at. *)
Record kwargs : Type := mkKwargs {
  kw_name : option json;
  kw_age : option pyval;
  kw_role : option pyval
}.

Definition set_name (n : json) (p : UserProfile) : UserProfile :=
  mkUserProfile (user_id p) n (age p) (role p) (activity_history p) (created_at p).

Definition set_age (a : json) (p : UserProfile) : UserProfile :=
  mkUserProfile (user_id p) (name p) a (role p) (activity_history p) (created_at p).

Definition set_role (r : pyval) (p : UserProfile) : UserProfile :=
  mkUserProfile (user_id p) (name p) (age p) r (activity_history p) (created_at p).

(** [ProfileStorage.update_profile]: each assignment reaches the stored
    object when it is made. *)
Definition ProfileStorage_update_profile (uid : string) (kw : kwargs)
    : M (option UserProfile) :=
  st <- get_state ;;
  match dict_get uid (profiles st) with
  | None => ret None
  | Some profile =>
      profile <- match kw_name kw with
                 | Some n =>
                     store_profile uid (set_name n profile) ;;;
                     ret (set_name n profile)
                 | None => ret profile
                 end ;;
      profile <- match kw_age kw with
                 | Some a =>
                     if negb (age_ok a) then raise (ValueError msg_age)
                     else
                       store_profile uid (set_age (as_json a) profile) ;;;
                       ret (set_age (as_json a) profile)
                 | None => ret profile
                 end ;;
      profile <- match kw_role kw with
                 | Some (PJson (JStr s)) =>
                     match UserRole_of_value s with
                     | Some r =>
                         store_profile uid (set_role (PEnum r) profile) ;;;
                         ret (set_role (PEnum r) profile)
                     | None => raise (EnumValueError s)
                     end
                 | Some r =>
                     store_profile uid (set_role r profile) ;;;
                     ret (set_role r profile)
                 | None => ret profile
                 end ;;
      save_all ;;;
      ret (Some profile)
  end.

(** [ProfileStorage.delete_profile] *)
Definition ProfileStorage_delete_profile (uid : string) : M bool :=
  st <- get_state ;;
  if dict_mem uid (profiles st) then
    set_profiles (dict_del uid (profiles st)) ;;;
    save_all ;;;
    ret true
  else ret false.

(** [ProfileStorage.get_all_profiles] *)
Definition ProfileStorage_get_all_profiles : M (list UserProfile) :=
  st <- get_state ;;
  ret (dict_values (profiles st)).

(** [text == v] for a text and any object. *)
Definition str_eq_py (text : string) (v : pyval) : bool :=
  match v with
  | PJson (JStr s) => String.eqb text s
  | _ => false
  end.

(** [[p for p in ps if p.role.value == role]] *)
Fixpoint filter_by_role (role_arg : pyval) (ps : list UserProfile)
    : result (list UserProfile) :=
  match ps with
  | [] => Ok []
  | p :: rest =>
      match role_value (role p) with
      | None => Raise AttributeError
      | Some v =>
          rest' <-? filter_by_role role_arg rest ;;
          Ok (if str_eq_py v role_arg then p :: rest' else rest')
      end
  end.

(** [ProfileStorage.get_profiles_by_role] *)
Definition ProfileStorage_get_profiles_by_role (role_arg : pyval)
    : M (list UserProfile) :=
  st <- get_state ;;
  lift (filter_by_role role_arg (dict_values (profiles st))).

(** [ProfileStorage.add_activity_to_profile] *)
Definition ProfileStorage_add_activity_to_profile (uid : string)
    (activity_type duration_minutes calories_burned notes : json) : M bool :=
  st <- get_state ;;
  match dict_get uid (profiles st) with
  | None => ret false
  | Some profile =>
      r <- UserProfile_add_activity profile activity_type duration_minutes
             calories_burned notes ;;
      store_profile uid (fst r) ;;;
      save_all ;;;
      ret true
  end.

(** [InMemoryProfileStorage.create_profile]: as the durable one, without
    the save. *)
Definition InMemoryProfileStorage_create_profile (uid name : string)
    (age role : pyval) : M UserProfile :=
  st <- get_state ;;
  if dict_mem uid (profiles st) then raise (ValueError (msg_exists uid))
  else
    profile <- UserProfile_init (JStr uid) (JStr name) age role ;;
    store_profile uid profile ;;;
    ret profile.

(** *** Serializers: [serializers.py] *)

(** [ActivitySerializer.serialize] *)
Definition ActivitySerializer_serialize (activity : ActivityEntry) : json :=
  JObj [ ("activity_type", activity_type activity);
         ("duration_minutes", duration_minutes activity);
         ("calories_burned", calories_burned activity);
         ("timestamp", JStr (isoformat (timestamp activity)));
         ("notes", notes activity) ].

(** [ActivitySerializer.serialize_many] *)
Definition ActivitySerializer_serialize_many (activities : list ActivityEntry)
    : list json :=
  map ActivitySerializer_serialize activities.

(** [UserProfileSerializer.serialize] *)
Definition UserProfileSerializer_serialize (p : UserProfile) : result json :=
  match role_value (role p) with
  | None => Raise AttributeError
  | Some rv =>
      time <-? get_total_activity_time p ;;
      calories <-? get_total_calories_burned p ;;
      Ok (JObj [ ("user_id", user_id p);
                 ("name", name p);
                 ("age", age p);
                 ("role", JStr rv);
                 ("created_at", JStr (isoformat (created_at p)));
                 ("activity_history",
                    JList (ActivitySerializer_serialize_many (activity_history p)));
                 ("stats",
                    JObj [ ("total_activities", JInt (get_total_activities p));
                           ("total_activity_time_minutes", JInt time);
                           ("total_calories_burned", JInt calories) ]) ])
  end.

(** One item of [UserProfileSerializer.serialize_list_view]. *)
Definition list_view_item (p : UserProfile) : result json :=
  match role_value (role p) with
  | None => Raise AttributeError
  | Some rv =>
      calories <-? get_total_calories_burned p ;;
      Ok (JObj [ ("user_id", user_id p);
                 ("name", name p);
                 ("age", age p);
                 ("role", JStr rv);
                 ("total_activities", JInt (get_total_activities p));
                 ("total_calories_burned", JInt calories) ])
  end.

(** [UserProfileSerializer.serialize_list_view] *)
Fixpoint UserProfileSerializer_serialize_list_view (ps : list UserProfile)
    : result (list json) :=
  match ps with
  | [] => Ok []
  | p :: rest =>
      item <-? list_view_item p ;;
      items <-? UserProfileSerializer_serialize_list_view rest ;;
      Ok (item :: items)
  end.

(** *** Views: [views.py] *)

(** The text of a response. *)
Inductive Message : Type :=
| Msg (text : string)
| MsgStr (e : exn)             (* [str(e)] of an exception of the library *)
| MsgInternal (e : exn)        (* [f"Internal server error: {str(e)}"] *)
| MsgRetrieved (n : nat).      (* [f"Retrieved {n} profile(s)"] *)

(** [str(e)] *)
Definition str_of_exn (e : exn) : Message :=
  match e with
  | ValueError m => Msg m
  | _ => MsgStr e
  end.

(** The dict of [APIResponse]; [data = None] is a response without the
    key, as [APIResponse.error] builds it.  No caller passes
    [error_details]. *)
Record Response : Type := mkResponse {
  success : bool;
  message : Message;
  data : option json;
  status_code : Z
}.

Definition APIResponse_success (data : json) (message : Message)
    (status_code : Z) : Response :=
  mkResponse true message (Some data) status_code.

Definition APIResponse_error (message : Message) (status_code : Z) : Response :=
  mkResponse false message None status_code.

(** [try: body  except ValueError as e: 400  except Exception as e: 500] *)
Definition except_ValueError_Exception (body : M Response) : M Response :=
  try_except body (fun _ => true)
    (fun e =>
       if is_ValueError e then ret (APIResponse_error (str_of_exn e) 400)
       else ret (APIResponse_error (MsgInternal e) 500)).

(** [try: body  except Exception as e: 500] *)
Definition except_Exception (body : M Response) : M Response :=
  try_except body (fun _ => true)
    (fun e => ret (APIResponse_error (MsgInternal e) 500)).

(** [views.create_profile] *)
Definition create_profile (user_id name : string) (age role : pyval) : M Response :=
  except_ValueError_Exception
    (if negb (str_truthy user_id) || negb (str_truthy name) then
       ret (APIResponse_error (Msg "user_id and name are required") 400)
     else if negb (age_ok age) then
       ret (APIResponse_error
              (Msg "age must be a valid integer between 0 and 150") 400)
     else if negb (in_role_names role) then
       ret (APIResponse_error (Msg "role must be 'student' or 'gym_teacher'") 400)
     else
       profile <- ProfileStorage_create_profile user_id name age role ;;
       serialized <- lift (UserProfileSerializer_serialize profile) ;;
       ret (APIResponse_success serialized (Msg "Profile created successfully") 201)).

(** [views.get_profile] *)
Definition get_profile (user_id : string) : M Response :=
  except_Exception
    (profile <- ProfileStorage_get_profile user_id ;;
     match profile with
     | None => ret (APIResponse_error (Msg (msg_not_found user_id)) 404)
     | Some p =>
         serialized <- lift (UserProfileSerializer_serialize p) ;;
         ret (APIResponse_success serialized
                (Msg "Profile retrieved successfully") 200)
     end).

(** [views.update_profile] *)
Definition update_profile (user_id : string) (kw : kwargs) : M Response :=
  except_ValueError_Exception
    (profile <- ProfileStorage_update_profile user_id kw ;;
     match profile with
     | None => ret (APIResponse_error (Msg (msg_not_found user_id)) 404)
     | Some p =>
         serialized <- lift (UserProfileSerializer_serialize p) ;;
         ret (APIResponse_success serialized
                (Msg "Profile updated successfully") 200)
     end).

(** [views.delete_profile] *)
Definition delete_profile (user_id : string) : M Response :=
  except_Exception
    (deleted <- ProfileStorage_delete_profile user_id ;;
     if negb deleted then
       ret (APIResponse_error (Msg (msg_not_found user_id)) 404)
     else
       ret (APIResponse_success JNull (Msg "Profile deleted successfully") 200)).

(** [views.list_profiles] *)
Definition list_profiles (role_arg : pyval) : M Response :=
  except_Exception
    (if truthy role_arg then
       if negb (in_role_names role_arg) then
         ret (APIResponse_error
                (Msg "Invalid role. Must be 'student' or 'gym_teacher'") 400)
       else
         ps <- ProfileStorage_get_profiles_by_role role_arg ;;
         serialized <- lift (UserProfileSerializer_serialize_list_view ps) ;;
         ret (APIResponse_success (JList serialized)
                (MsgRetrieved (List.length ps)) 200)
     else
       ps <- ProfileStorage_get_all_profiles ;;
       serialized <- lift (UserProfileSerializer_serialize_list_view ps) ;;
       ret (APIResponse_success (JList serialized)
              (MsgRetrieved (List.length ps)) 200)).

(** The tests of [views.add_activity] on its numbers:
    [isinstance(v, int) and v > 0], [isinstance(v, int) and v >= 0]. *)
Definition duration_ok (v : pyval) : bool :=
  match py_int v with
  | Some n => 0 <? n
  | None => false
  end.

Definition calories_ok (v : pyval) : bool :=
  match py_int v with
  | Some n => 0 <=? n
  | None => false
  end.

(** [views.add_activity] *)
Definition add_activity (user_id activity_type : string)
    (duration_minutes calories_burned : pyval) (notes : string) : M Response :=
  except_ValueError_Exception
    (if negb (str_truthy activity_type) then
       ret (APIResponse_error (Msg "activity_type is required") 400)
     else if negb (duration_ok duration_minutes) then
       ret (APIResponse_error
              (Msg "duration_minutes must be a positive integer") 400)
     else if negb (calories_ok calories_burned) then
       ret (APIResponse_error
              (Msg "calories_burned must be a non-negative integer") 400)
     else
       added <- ProfileStorage_add_activity_to_profile user_id (JStr activity_type)
                  (as_json duration_minutes) (as_json calories_burned) (JStr notes) ;;
       if negb added then
         ret (APIResponse_error (Msg (msg_not_found user_id)) 404)
       else
         profile <- ProfileStorage_get_profile user_id ;;
         match profile with
         | None => raise AttributeError
         | Some p =>
             serialized <- lift (UserProfileSerializer_serialize p) ;;
             ret (APIResponse_success serialized
                    (Msg "Activity added successfully") 201)
         end).

(** The average of [views.get_user_statistics]:
    [total // count if count > 0 else 0]; [//] rounds toward minus
    infinity, as [Z.div] does. *)
Definition average_calories (total count : Z) : Z :=
  if 0 <? count then total / count else 0.

(** [views.get_user_statistics] *)
Definition get_user_statistics (uid : string) : M Response :=
  except_Exception
    (profile <- ProfileStorage_get_profile uid ;;
     match profile with
     | None => ret (APIResponse_error (Msg (msg_not_found uid)) 404)
     | Some p =>
         rv <- lift (match role_value (role p) with
                     | Some rv => Ok rv
                     | None => Raise AttributeError
                     end) ;;
         time <- lift (get_total_activity_time p) ;;
         calories <- lift (get_total_calories_burned p) ;;
         ret (APIResponse_success
                (JObj [ ("user_id", JStr uid);
                        ("name", name p);
                        ("role", JStr rv);
                        ("total_activities", JInt (get_total_activities p));
                        ("total_activity_time_minutes", JInt time);
                        ("total_calories_burned", JInt calories);
                        ("average_calories_per_activity",
                           JInt (average_calories calories
                                   (get_total_activities p))) ])
                (Msg "Statistics retrieved successfully") 200)
     end).

(** [InMemoryProfileStorage.__init__] *)
Definition InMemoryProfileStorage_init : M unit := set_profiles [].

(** [InMemoryProfileStorage.get_profile] *)
Definition InMemoryProfileStorage_get_profile (uid : string)
    : M (option UserProfile) :=
  st <- get_state ;;
  ret (dict_get uid (profiles st)).

(** [InMemoryProfileStorage.get_all_profiles] *)
Definition InMemoryProfileStorage_get_all_profiles : M (list UserProfile) :=
  st <- get_state ;;
  ret (dict_values (profiles st)).

(** [InMemoryProfileStorage.delete_profile] *)
Definition InMemoryProfileStorage_delete_profile (uid : string) : M bool :=
  st <- get_state ;;
  if dict_mem uid (profiles st) then
    set_profiles (dict_del uid (profiles st)) ;;;
    ret true
  else ret false.

(** [InMemoryProfileStorage.add_activity_to_profile] *)
Definition InMemoryProfileStorage_add_activity_to_profile (uid : string)
    (activity_type duration_minutes calories_burned notes : json) : M bool :=
  st <- get_state ;;
  match dict_get uid (profiles st) with
  | None => ret false
  | Some profile =>
      r <- UserProfile_add_activity profile activity_type duration_minutes
             calories_burned notes ;;
      store_profile uid (fst r) ;;;
      ret true
  end.

End Tracker.

(** ** Well-formed profiles and storage states *)

Section WellFormed.

Context {DT : DatetimeLib}.

Definition is_int (j : json) : bool :=
  match json_int j with Some _ => true | None => false end.

Definition is_member (v : pyval) : bool :=
  match v with PEnum _ => true | PJson _ => false end.

(** An activity whose duration and calories are integers. *)
Definition valid_activity (a : ActivityEntry) : bool :=
  is_int (duration_minutes a) && is_int (calories_burned a).

(** A profile as the data model describes it: the age is an integer
    between 0 and 150, the role is a member of [UserRole] and the
    activities carry integers. *)
Definition valid_profile (p : UserProfile) : bool :=
  age_ok (PJson (age p)) && is_member (role p)
  && forallb valid_activity (activity_history p).

Fixpoint unique_keys (ks : list string) : bool :=
  match ks with
  | [] => true
  | k :: ks' => negb (existsb (String.eqb k) ks') && unique_keys ks'
  end.

(** A storage state whose dict has each key once, as every Python dict,
    and holds valid profiles. *)
Definition wf_storage (st : State) : bool :=
  unique_keys (dict_keys (profiles st))
  && forallb (fun kv => valid_profile (snd kv)) (profiles st).

(** The state after [n] more readings of the clock. *)
Definition advance (n : nat) (st : State) : State :=
  mkState (storage_file st) (profiles st) (n + clock st) (disk st) (stdout st).

(** The numbers a list of values denotes, when all are integers. *)
Fixpoint ints_of (l : list json) : option (list Z) :=
  match l with
  | [] => Some []
  | x :: l' =>
      match json_int x, ints_of l' with
      | Some n, Some ns => Some (n :: ns)
      | _, _ => None
      end
  end.

Definition total (ns : list Z) : Z := fold_right Z.add 0 ns.

(** The library's contract used by the round trips:
    [datetime.fromisoformat(t.isoformat())] is [t]. *)
Definition iso_round_trip : Prop :=
  forall t : datetime, fromisoformat (isoformat t) = Some t.

(** The clock readings that decoding the profiles of a dict takes: one
    per profile and one per activity. *)
Definition readings (ps : dict UserProfile) : nat :=
  fold_right (fun kv n => S (List.length (activity_history (snd kv)) + n)) O ps.

(** A record with its [stats] entry replaced by [v], and a file with the
    [stats] entry of the record of each user [uid] replaced by [f uid]. *)
Definition with_stats (v : json) (record : json) : json :=
  match record with
  | JObj d => JObj (dict_set "stats" v d)
  | _ => record
  end.

Definition tamper_stats (f : string -> json) (file : File) : File :=
  match file with
  | Json (JObj items) =>
      Json (JObj (map (fun kv => (fst kv, with_stats (f (fst kv)) (snd kv))) items))
  | _ => file
  end.

(** The entry [key] of the payload of a response. *)
Definition response_field (r : Response) (key : string) : json :=
  match data r with
  | Some (JObj d) => py_get d key
  | _ => JNull
  end.

(** A role argument of the documented type: a text or a member of
    [UserRole]. *)
Definition role_typed (role_arg : pyval) : bool :=
  match role_arg with
  | PJson (JStr _) | PEnum _ => true
  | PJson _ => false
  end.

(** The role arguments [UserProfile.__init__] lets through: any object
    that is not a text other than the value of a member. *)
Definition role_accepted (role_arg : pyval) : bool :=
  match role_arg with
  | PJson (JStr s) =>
      match UserRole_of_value s with Some _ => true | None => false end
  | _ => true
  end.

(** The role stored for an accepted argument. *)
Definition role_stored (role_arg : pyval) : pyval :=
  match role_arg with
  | PJson (JStr s) =>
      match UserRole_of_value s with Some r => PEnum r | None => role_arg end
  | _ => role_arg
  end.

(** [v] is a positive integer; [v] is a non-negative integer. *)
Definition positive_integer (v : pyval) : Prop :=
  exists n, py_int v = Some n /\ 0 < n.

Definition non_negative_integer (v : pyval) : Prop :=
  exists n, py_int v = Some n /\ 0 <= n.

(** The state with the profile stored under [uid] replaced by [p]. *)
Definition with_profile (uid : string) (p : UserProfile) (st : State) : State :=
  mkState (storage_file st) (dict_set uid p (profiles st)) (clock st) (disk st)
    (stdout st).

(** The state after [save_all] has written the records [items]. *)
Definition saved (items : dict json) (st : State) : State :=
  mkState (storage_file st) (profiles st) (clock st)
    (dict_set (storage_file st) (Json (JObj items)) (disk st)) (stdout st).

(** [item] is a record of the file that decodes to the dict entry [kv]. *)
Definition decodes_to (item : string * json) (kv : string * UserProfile) : Prop :=
  fst item = fst kv
  /\ forall st, UserProfile_from_dict (snd item) st
                = (Ok (snd kv),
                   advance (S (List.length (activity_history (snd kv)))) st).

(** The tests [update_profile] makes on the fields supplied. *)
Definition kw_age_ok (kw : kwargs) : bool :=
  match kw_age kw with Some a => age_ok a | None => true end.

Definition kw_role_ok (kw : kwargs) : bool :=
  match kw_role kw with Some r => role_accepted r | None => true end.

Definition kw_role_typed (kw : kwargs) : bool :=
  match kw_role kw with Some r => role_typed r | None => true end.

(** A profile with the supplied name, age, role put in place of its
    own. *)
Definition apply_name (kw : kwargs) (p : UserProfile) : UserProfile :=
  match kw_name kw with Some n => set_name n p | None => p end.

Definition apply_age (kw : kwargs) (p : UserProfile) : UserProfile :=
  match kw_age kw with Some a => set_age (as_json a) p | None => p end.

Definition apply_role (kw : kwargs) (p : UserProfile) : UserProfile :=
  match kw_role kw with Some r => set_role (role_stored r) p | None => p end.

Definition UserRole_eqb (r r' : UserRole) : bool :=
  match r, r' with
  | STUDENT, STUDENT | GYM_TEACHER, GYM_TEACHER => true
  | _, _ => false
  end.

(** The profile has the role [r]; the item of a list view shows the role
    [r]. *)
Definition has_role (r : UserRole) (p : UserProfile) : bool :=
  match role p with
  | PEnum r' => UserRole_eqb r r'
  | PJson _ => false
  end.

Definition item_has_role (r : UserRole) (item : json) : bool :=
  match item with
  | JObj d =>
      match py_get d "role" with
      | JStr s => String.eqb s (UserRole_value r)
      | _ => false
      end
  | _ => false
  end.

(** A computation that reads the clock and does nothing else to the
    state. *)
Definition only_clock {A : Type} (m : M A) : Prop :=
  forall st, exists n, snd (m st) = advance n st.

(** The storage file holds the records of the profiles in memory. *)
Definition synced (st : State) : Prop :=
  exists items,
    profiles_to_dicts (profiles st) = Ok items
    /\ dict_get (storage_file st) (disk st) = Some (Json (JObj items)).

(** The shape of an answer of the views: one of the five status codes,
    success with 200 and 201 only, and a payload exactly on success. *)
Definition response_shape (r : Response) : bool :=
  match success r, data r with
  | true, Some _ => (status_code r =? 200) || (status_code r =? 201)
  | false, None =>
      (status_code r =? 400) || (status_code r =? 404) || (status_code r =? 500)
  | _, _ => false
  end.

(** Every answer that [m] returns satisfies [P]. *)
Definition answers (P : Response -> Prop) (m : M Response) : Prop :=
  forall st r st', m st = (Ok r, st') -> P r.

(** [m] raises no exception. *)
Definition never_raises {A : Type} (m : M A) : Prop :=
  forall st, exists a st', m st = (Ok a, st').

(** The states agree on everything but the files. *)
Definition same_but_disk (st st' : State) : Prop :=
  storage_file st' = storage_file st
  /\ profiles st' = profiles st
  /\ clock st' = clock st
  /\ stdout st' = stdout st.

(** The state after [create_profile] has stored the new profile [p] under
    [uid], before the save. *)
Definition with_new_profile (uid : string) (p : UserProfile) (st : State) : State :=
  mkState (storage_file st) ((profiles st ++ [(uid, p)])%list) (S (clock st)) (disk st)
    (stdout st).

(** The state after [delete_profile] has removed [uid], before the save. *)
Definition without_profile (uid : string) (st : State) : State :=
  mkState (storage_file st) (dict_del uid (profiles st)) (clock st) (disk st)
    (stdout st).

(** [m] leaves the state as it finds it. *)
Definition read_only {A : Type} (m : M A) : Prop :=
  forall st, snd (m st) = st.

(** The entry [key] of a JSON object. *)
Definition json_field (j : json) (key : string) : json :=
  match j with
  | JObj d => py_get d key
  | _ => JNull
  end.

(** The creation time that decoding the record [d] gives: the time of the
    clock when the record has no [created_at], the time its text denotes
    when it has one in ISO format. *)
Definition decoded_created_at (d : dict json) (st : State) : option datetime :=
  match dict_get "created_at" d with
  | None => Some (time_at (clock st))
  | Some (JStr s) => fromisoformat s
  | Some _ => None
  end.

(** The profile has a role that is no member of [UserRole]. *)
Definition role_unchecked (p : UserProfile) : bool := negb (is_member (role p)).

End WellFormed.

(** ** A sample platform and sample states

    Time is a count of ticks, written in decimal; the clock shows the number
    of readings made so far. *)

Definition sample_isoformat (t : nat) : string :=
  NilEmpty.string_of_uint (Nat.to_uint t).

Definition sample_fromisoformat (s : string) : option nat :=
  option_map Nat.of_uint (NilEmpty.uint_of_string s).

Definition sample_lib : DatetimeLib :=
  {| datetime := nat;
     isoformat := sample_isoformat;
     fromisoformat := sample_fromisoformat;
     time_at := fun n => n |}.

Section SampleData.

#[local] Existing Instance sample_lib.

(** The profiles of [test_user_profile_model]. *)
Definition alice : UserProfile :=
  mkUserProfile (JStr "student_001") (JStr "Alice Johnson") (JInt 16)
    (PEnum STUDENT)
    [ mkActivityEntry (JStr "running") (JInt 30) (JInt 300) 2%nat
        (JStr "Evening jog in the park");
      mkActivityEntry (JStr "strength_training") (JInt 45) (JInt 350) 3%nat
        (JStr "Upper body workout") ]
    0%nat.

Definition paul : UserProfile :=
  mkUserProfile (JStr "teacher_001") (JStr "Mr. Paul Smith") (JInt 45)
    (PEnum GYM_TEACHER) [] 1%nat.

Definition emma : UserProfile :=
  mkUserProfile (JStr "student_101") (JStr "Emma Wilson") (JInt 15)
    (PEnum STUDENT) [] 4%nat.

Definition sample_state : State :=
  mkState "profiles.json"
    [ ("student_001", alice); ("teacher_001", paul); ("student_101", emma) ]
    5 [] [].

(** A profile with an activity of negative calories, as
    [ProfileStorage.add_activity_to_profile] accepts it. *)
Definition debtor : UserProfile :=
  mkUserProfile (JStr "student_002") (JStr "Bob Stone") (JInt 17)
    (PEnum STUDENT)
    [ mkActivityEntry (JStr "resting") (JInt 10) (JInt (-3)) 1%nat (JStr EmptyString);
      mkActivityEntry (JStr "walking") (JInt 20) (JInt 0) 2%nat (JStr EmptyString) ]
    0%nat.

Definition debtor_state : State :=
  mkState "profiles.json" [ ("student_002", debtor) ] 3 [] [].

(** A state whose storage file holds [file]. *)
Definition state_with_file (file : File) : State :=
  mkState "profiles.json" [] 0 [ ("profiles.json", file) ] [].

(** A record without a role, a record in order, and a record with an age
    out of range. *)
Definition record_without_role : json :=
  JObj [ ("user_id", JStr "u1"); ("name", JStr "Ann"); ("age", JInt 16) ].

Definition record_of_ann : json :=
  JObj [ ("user_id", JStr "u1"); ("name", JStr "Ann"); ("age", JInt 16);
         ("role", JStr "student") ].

Definition record_with_age_200 : json :=
  JObj [ ("user_id", JStr "u2"); ("name", JStr "Old"); ("age", JInt 200);
         ("role", JStr "student") ].

End SampleData.

(** ** Properties *)

Local Open Scope list_scope.

(** *** Dictionaries *)

Section DictFacts.

Context {V : Type}.
Implicit Types (d : dict V) (k : string) (v : V).

Lemma dict_get_set_eq k v d : dict_get k (dict_set k v d) = Some v.
Proof.
  induction d as [|[k' v'] d IH]; simpl.
  - now rewrite String.eqb_refl.
  - destruct (String.eqb k' k) eqn:E; simpl; rewrite E; auto.
Qed.

Lemma dict_get_set_neq k k' v d :
  k <> k' -> dict_get k (dict_set k' v d) = dict_get k d.
Proof.
  intros Hne. induction d as [|[k0 v0] d IH]; simpl.
  - destruct (String.eqb_spec k' k); congruence.
  - destruct (String.eqb_spec k0 k'); simpl.
    + subst. destruct (String.eqb_spec k' k); congruence.
    + now rewrite IH.
Qed.

Lemma dict_mem_existsb k d :
  dict_mem k d = existsb (String.eqb k) (dict_keys d).
Proof.
  unfold dict_mem. induction d as [|[k' v'] d IH]; simpl; auto.
  rewrite (String.eqb_sym k k'). destruct (String.eqb k' k); auto.
Qed.

Lemma dict_set_fresh k v d :
  dict_mem k d = false -> dict_set k v d = d ++ [(k, v)].
Proof.
  unfold dict_mem. induction d as [|[k' v'] d IH]; simpl; auto.
  destruct (String.eqb k' k); [discriminate|].
  intros H. now rewrite IH.
Qed.

Lemma dict_keys_set_present k v d :
  dict_mem k d = true -> dict_keys (dict_set k v d) = dict_keys d.
Proof.
  unfold dict_mem. induction d as [|[k' v'] d IH]; simpl; [discriminate|].
  destruct (String.eqb k' k); simpl; auto.
  intros H. now rewrite IH.
Qed.

Lemma unique_keys_app_fresh (ks : list string) k :
  unique_keys (ks ++ [k]) = unique_keys ks && negb (existsb (String.eqb k) ks).
Proof.
  induction ks as [|k0 ks IH]; simpl; auto.
  rewrite IH, existsb_app. simpl. rewrite (String.eqb_sym k k0).
  destruct (existsb (String.eqb k0) ks), (String.eqb k0 k),
    (unique_keys ks), (existsb (String.eqb k) ks); reflexivity.
Qed.

(** Assigning items with fresh, distinct keys to a dict appends them. *)
Lemma fold_dict_set_fresh (items acc : list (string * V)) :
  unique_keys (dict_keys acc ++ dict_keys items) = true ->
  fold_left (fun a kv => dict_set (fst kv) (snd kv) a) items acc = acc ++ items.
Proof.
  revert acc. induction items as [|[k v] items IH]; intros acc Hu; simpl.
  - now rewrite app_nil_r.
  - assert (Hk : dict_mem k acc = false /\
                 unique_keys (dict_keys (acc ++ [(k, v)]) ++ dict_keys items) = true).
    { unfold dict_keys in *. simpl in Hu. rewrite map_app. simpl.
      rewrite <- app_assoc. simpl. split; [|exact Hu].
      rewrite dict_mem_existsb. unfold dict_keys.
      clear IH. induction acc as [|[k0 v0] acc IHa]; simpl in *; auto.
      apply andb_prop in Hu. destruct Hu as [Hn Hu].
      rewrite existsb_app in Hn. simpl in Hn.
      rewrite (String.eqb_sym k k0).
      destruct (String.eqb k0 k); simpl.
      - rewrite orb_true_r in Hn. discriminate.
      - auto. }
    destruct Hk as [Hfresh Hu'].
    rewrite dict_set_fresh by exact Hfresh.
    rewrite IH by exact Hu'. now rewrite <- app_assoc.
Qed.

Lemma dict_of_items_unique (items : list (string * V)) :
  unique_keys (dict_keys items) = true -> dict_of_items items = items.
Proof.
  intros Hu. unfold dict_of_items. now rewrite fold_dict_set_fresh.
Qed.

End DictFacts.

Section Properties.

Context {DT : DatetimeLib}.

(** Unfolding of the plumbing of the state monad. *)
Ltac run :=
  unfold bind, ret, raise, lift, get_state, set_profiles, set_storage_file,
    write_file, print, store_profile, now; simpl.

(** *** Sums *)

Lemma py_sum_from_ints (l : list json) (ns : list Z) (acc : Z) :
  ints_of l = Some ns -> py_sum_from acc l = Ok (acc + total ns).
Proof.
  revert ns acc. induction l as [|x l IH]; intros ns acc; simpl.
  - intros [= <-]. simpl. f_equal. lia.
  - destruct (json_int x) as [n|]; [|discriminate].
    destruct (ints_of l) as [ns'|]; [|discriminate].
    intros [= <-]. rewrite (IH ns') by reflexivity. simpl. f_equal. lia.
Qed.

Lemma py_sum_ints (l : list json) (ns : list Z) :
  ints_of l = Some ns -> py_sum l = Ok (total ns).
Proof.
  intros H. unfold py_sum. now rewrite (py_sum_from_ints _ _ _ H).
Qed.

Lemma ints_of_valid (f : ActivityEntry -> json) (h : list ActivityEntry) :
  forallb (fun a => is_int (f a)) h = true ->
  exists ns, ints_of (map f h) = Some ns.
Proof.
  induction h as [|a h IH]; simpl.
  - now exists [].
  - intros H. apply andb_prop in H. destruct H as [Ha Hh].
    destruct (IH Hh) as [ns Hns]. unfold is_int in Ha.
    destruct (json_int (f a)) as [n|]; [|discriminate].
    rewrite Hns. now exists (n :: ns).
Qed.

Lemma valid_history_ints (h : list ActivityEntry) :
  forallb valid_activity h = true ->
  exists ds cs, ints_of (map duration_minutes h) = Some ds
             /\ ints_of (map calories_burned h) = Some cs.
Proof.
  intros H.
  assert (Hd : forallb (fun a => is_int (duration_minutes a)) h = true).
  { rewrite forallb_forall in *. intros a Ha. specialize (H a Ha).
    unfold valid_activity in H. now apply andb_prop in H. }
  assert (Hc : forallb (fun a => is_int (calories_burned a)) h = true).
  { rewrite forallb_forall in *. intros a Ha. specialize (H a Ha).
    unfold valid_activity in H. now apply andb_prop in H. }
  destruct (ints_of_valid _ _ Hd) as [ds Hds].
  destruct (ints_of_valid _ _ Hc) as [cs Hcs].
  now exists ds, cs.
Qed.

(** *** Encoding and decoding *)

Lemma UserRole_of_value_value (r : UserRole) :
  UserRole_of_value (UserRole_value r) = Some r.
Proof. destruct r; reflexivity. Qed.

Lemma UserRole_of_value_inv (s : string) (r : UserRole) :
  UserRole_of_value s = Some r -> s = UserRole_value r.
Proof.
  unfold UserRole_of_value.
  destruct (String.eqb_spec s "student"); [intros [= <-]; now subst|].
  destruct (String.eqb_spec s "gym_teacher"); [intros [= <-]; now subst|].
  discriminate.
Qed.

Lemma ActivityEntry_from_to_dict (a : ActivityEntry) (st : State) :
  iso_round_trip ->
  ActivityEntry_from_dict (ActivityEntry_to_dict a) st = (Ok a, advance 1 st).
Proof.
  intros Hiso. unfold ActivityEntry_from_dict, ActivityEntry_to_dict,
    ActivityEntry_init, datetime_fromisoformat. run.
  rewrite Hiso. destruct a; reflexivity.
Qed.

Lemma advance_advance (n m : nat) (st : State) :
  advance n (advance m st) = advance (n + m) st.
Proof. unfold advance; simpl. f_equal. lia. Qed.

Lemma restore_history_to_dicts (h : list ActivityEntry) (p : UserProfile)
    (st : State) :
  iso_round_trip ->
  restore_history (map ActivityEntry_to_dict h) p st
  = (Ok (mkUserProfile (user_id p) (name p) (age p) (role p)
           (activity_history p ++ h) (created_at p)),
     advance (List.length h) st).
Proof.
  intros Hiso. revert p st. induction h as [|a h IH]; intros p st.
  - simpl. unfold ret, advance. rewrite app_nil_r. destruct p, st; reflexivity.
  - cbn [map restore_history]. unfold bind at 1.
    rewrite ActivityEntry_from_to_dict by assumption.
    rewrite IH. cbn [append_activity user_id name age role activity_history created_at].
    rewrite <- app_assoc. rewrite advance_advance. simpl.
    do 2 f_equal. f_equal. lia.
Qed.

Lemma to_dict_valid (p : UserProfile) :
  valid_profile p = true ->
  exists r ds cs,
    role p = PEnum r
    /\ ints_of (map duration_minutes (activity_history p)) = Some ds
    /\ ints_of (map calories_burned (activity_history p)) = Some cs
    /\ UserProfile_to_dict p
       = Ok (JObj [ ("user_id", user_id p);
                    ("name", name p);
                    ("age", age p);
                    ("role", JStr (UserRole_value r));
                    ("created_at", JStr (isoformat (created_at p)));
                    ("activity_history",
                       JList (map ActivityEntry_to_dict (activity_history p)));
                    ("stats",
                       JObj [ ("total_activities", JInt (get_total_activities p));
                              ("total_activity_time_minutes", JInt (total ds));
                              ("total_calories_burned", JInt (total cs)) ]) ]).
Proof.
  unfold valid_profile. intros H.
  apply andb_prop in H. destruct H as [H Hh].
  apply andb_prop in H. destruct H as [Hage Hrole].
  destruct (valid_history_ints _ Hh) as (ds & cs & Hds & Hcs).
  destruct (role p) as [j|r] eqn:Er; [discriminate|].
  exists r, ds, cs. repeat split; auto.
  unfold UserProfile_to_dict, get_total_activity_time, get_total_calories_burned.
  rewrite Er. simpl. rewrite (py_sum_ints _ _ Hds), (py_sum_ints _ _ Hcs).
  reflexivity.
Qed.

Lemma UserProfile_from_to_dict (p : UserProfile) (d : json) (st : State) :
  iso_round_trip ->
  valid_profile p = true ->
  UserProfile_to_dict p = Ok d ->
  UserProfile_from_dict d st
  = (Ok p, advance (S (List.length (activity_history p))) st).
Proof.
  intros Hiso Hv Hd.
  destruct (to_dict_valid p Hv) as (r & ds & cs & Er & _ & _ & Hto).
  rewrite Hto in Hd. injection Hd as <-.
  unfold valid_profile in Hv.
  apply andb_prop in Hv. destruct Hv as [Hv _].
  apply andb_prop in Hv. destruct Hv as [Hage _].
  unfold UserProfile_from_dict, UserProfile_init. cbn [py_get dict_get String.eqb Ascii.eqb Bool.eqb].
  simpl. rewrite Hage. simpl.
  rewrite UserRole_of_value_value.
  unfold datetime_fromisoformat. run. rewrite Hiso.
  rewrite restore_history_to_dicts by assumption. simpl.
  unfold advance. simpl.
  destruct p; simpl in *. subst. repeat f_equal. lia.
Qed.

(** C3: for a valid profile with any number of activities, decoding its
    encoding succeeds and gives back the profile itself: the same user_id,
    name, age, role and created_at, and the same activities with their
    type, duration, calories, notes and original timestamps.  The clock is
    read once per object built, and what it showed is overwritten by the
    decoded timestamps. *)
Theorem profile_round_trip (p : UserProfile) (st : State) :
  iso_round_trip ->
  valid_profile p = true ->
  exists d,
    UserProfile_to_dict p = Ok d
    /\ UserProfile_from_dict d st
       = (Ok p, advance (S (List.length (activity_history p))) st)
    /\ (forall (a : ActivityEntry) (st0 : State),
          ActivityEntry_from_dict (ActivityEntry_to_dict a) st0
          = (Ok a, advance 1 st0)).
Proof.
  intros Hiso Hv.
  destruct (to_dict_valid p Hv) as (r & ds & cs & _ & _ & _ & Hto).
  eexists. split; [exact Hto|]. split.
  - now apply UserProfile_from_to_dict.
  - intros a st0. now apply ActivityEntry_from_to_dict.
Qed.

(** *** Saving and loading *)

Lemma profiles_to_dicts_valid (ps : dict UserProfile) :
  forallb (fun kv => valid_profile (snd kv)) ps = true ->
  exists items,
    profiles_to_dicts ps = Ok items
    /\ dict_keys items = dict_keys ps
    /\ Forall2 (fun item kv =>
                  fst item = fst kv
                  /\ UserProfile_to_dict (snd kv) = Ok (snd item)) items ps.
Proof.
  induction ps as [|[uid p] ps IH]; simpl.
  - intros _. exists []. repeat split; constructor.
  - intros H. apply andb_prop in H. destruct H as [Hp Hps].
    destruct (IH Hps) as (items & Hitems & Hkeys & Hall).
    destruct (to_dict_valid p Hp) as (r & ds & cs & _ & _ & _ & Hto).
    rewrite Hto, Hitems. simpl. eexists. split; [reflexivity|]. split.
    + simpl. now rewrite Hkeys.
    + constructor; [split; [reflexivity|exact Hto]|exact Hall].
Qed.

Lemma load_items_decodes (items : dict json) (ps : dict UserProfile) :
  Forall2 decodes_to items ps ->
  forall st,
    load_items items st
    = (Ok tt,
       mkState (storage_file st)
         (fold_left (fun a kv => dict_set (fst kv) (snd kv) a) ps (profiles st))
         (readings ps + clock st) (disk st) (stdout st)).
Proof.
  induction 1 as [|[uid d] [uid' p] items ps [Hk Hd] _ IH]; intros st.
  - destruct st; reflexivity.
  - simpl in Hk, Hd. subst uid'. cbn [load_items]. unfold bind at 1.
    rewrite Hd. unfold bind at 1. unfold store_profile at 1.
    rewrite IH. simpl. do 2 f_equal. lia.
Qed.

Lemma from_dict_ignores_stats (d : dict json) (v : json) (st : State) :
  UserProfile_from_dict (JObj (dict_set "stats" v d)) st
  = UserProfile_from_dict (JObj d) st.
Proof.
  unfold UserProfile_from_dict, py_get.
  rewrite !dict_get_set_neq by discriminate. reflexivity.
Qed.

Lemma load_all_decodes (items : dict json) (ps : dict UserProfile) (st : State) :
  Forall2 decodes_to items ps ->
  unique_keys (dict_keys ps) = true ->
  dict_get (storage_file st) (disk st) = Some (Json (JObj items)) ->
  ProfileStorage_init (storage_file st) st
  = (Ok tt, mkState (storage_file st) ps (readings ps + clock st) (disk st)
              (stdout st)).
Proof.
  intros Hdec Hu Hfile.
  unfold ProfileStorage_init, load_all, try_except, json_load, py_items. run.
  rewrite Hfile. run.
  rewrite (load_items_decodes _ _ Hdec). simpl.
  now rewrite fold_dict_set_fresh by exact Hu.
Qed.

Lemma wf_storage_inv (st : State) :
  wf_storage st = true ->
  unique_keys (dict_keys (profiles st)) = true
  /\ forallb (fun kv => valid_profile (snd kv)) (profiles st) = true.
Proof. unfold wf_storage. intros H. now apply andb_prop in H. Qed.

Lemma save_all_valid (st : State) :
  wf_storage st = true ->
  exists items,
    profiles_to_dicts (profiles st) = Ok items
    /\ dict_keys items = dict_keys (profiles st)
    /\ save_all st = (Ok tt, saved items st).
Proof.
  intros Hwf. destruct (wf_storage_inv st Hwf) as [Hu Hv].
  destruct (profiles_to_dicts_valid _ Hv) as (items & Hitems & Hkeys & _).
  exists items. repeat split; auto.
  unfold save_all. run. rewrite Hitems.
  rewrite dict_of_items_unique by now rewrite Hkeys.
  reflexivity.
Qed.

Lemma encoded_decodes (items : dict json) (ps : dict UserProfile) :
  iso_round_trip ->
  forallb (fun kv => valid_profile (snd kv)) ps = true ->
  Forall2 (fun item kv =>
             fst item = fst kv
             /\ UserProfile_to_dict (snd kv) = Ok (snd item)) items ps ->
  forall f : string -> json,
    Forall2 decodes_to items ps
    /\ Forall2 decodes_to
         (map (fun kv => (fst kv, with_stats (f (fst kv)) (snd kv))) items) ps.
Proof.
  intros Hiso Hv Hall f. revert Hv.
  induction Hall as [|[uid d] [uid' p] items ps [Hk Hd] _ IH]; simpl; intros Hv.
  - split; constructor.
  - apply andb_prop in Hv. destruct Hv as [Hp Hps].
    destruct (IH Hps) as [IH1 IH2]. simpl in Hk, Hd. subst uid'.
    split; constructor; auto; split; simpl; auto; intros st.
    + now apply UserProfile_from_to_dict.
    + destruct (to_dict_valid p Hp) as (r & ds & cs & _ & _ & _ & Hto).
      rewrite Hto in Hd. injection Hd as <-. unfold with_stats.
      rewrite from_dict_ignores_stats.
      now apply UserProfile_from_to_dict.
Qed.

Lemma get_profile_reads_profiles (uid : string) (st st' : State) :
  profiles st' = profiles st ->
  fst (get_profile uid st') = fst (get_profile uid st).
Proof.
  intros Hp. unfold get_profile, except_Exception, try_except,
    ProfileStorage_get_profile. run. rewrite Hp.
  destruct (dict_get uid (profiles st)) as [p|]; simpl; [|reflexivity].
  destruct (UserProfileSerializer_serialize p); reflexivity.
Qed.

(** Saving a well-formed storage (distinct keys, valid profiles) and
    loading it again: [save_all] writes the storage file, and a storage
    object then constructed on that file holds the same dict of profiles,
    in the same order, nothing being printed; so
    [get_profile] answers with the same fields, history and statistics.
    The [stats] records of the file are not read: with each of them
    replaced by any value the same profiles are loaded. *)
Theorem save_all_then_load (st : State) :
  iso_round_trip ->
  wf_storage st = true ->
  exists file st1,
    save_all st = (Ok tt, st1)
    /\ dict_get (storage_file st) (disk st1) = Some file
    /\ (exists st2,
          ProfileStorage_init (storage_file st) st1 = (Ok tt, st2)
          /\ profiles st2 = profiles st
          /\ stdout st2 = stdout st
          /\ forall uid, fst (get_profile uid st2) = fst (get_profile uid st))
    /\ (forall f : string -> json, exists st2,
          ProfileStorage_init (storage_file st)
            (snd (write_file (storage_file st) (tamper_stats f file) st1))
          = (Ok tt, st2)
          /\ profiles st2 = profiles st
          /\ forall uid, fst (get_profile uid st2) = fst (get_profile uid st)).
Proof.
  intros Hiso Hwf.
  destruct (save_all_valid st Hwf) as (items & Hitems & Hkeys & Hsave).
  destruct (wf_storage_inv st Hwf) as [Hu Hv].
  destruct (profiles_to_dicts_valid _ Hv) as (items' & Hitems' & _ & Hall).
  rewrite Hitems in Hitems'. injection Hitems' as <-.
  eexists. eexists. split; [exact Hsave|]. split.
  { simpl. apply dict_get_set_eq. }
  split.
  - destruct (encoded_decodes items (profiles st) Hiso Hv Hall (fun _ => JNull))
      as [Hdec _].
    eexists. split; [|split; [|split]].
    + match goal with |- ProfileStorage_init _ ?s = _ =>
        apply (load_all_decodes items (profiles st) s Hdec Hu) end.
      simpl. apply dict_get_set_eq.
    + reflexivity.
    + reflexivity.
    + intros uid. now apply get_profile_reads_profiles.
  - intros f.
    destruct (encoded_decodes items (profiles st) Hiso Hv Hall f) as [_ Hdec].
    eexists. split; [|split].
    + match goal with |- ProfileStorage_init _ ?s = _ =>
        apply (load_all_decodes _ (profiles st) s Hdec Hu) end.
      simpl. apply dict_get_set_eq.
    + reflexivity.
    + intros uid. now apply get_profile_reads_profiles.
Qed.

(** *** Construction *)

(** [UserProfile.__init__] on any arguments: it succeeds exactly when the
    age is an integer between 0 and 150 and the role is accepted; the new
    profile then has no activity and the clock has been read once; it
    raises [ValueError] otherwise, the state untouched. *)
Lemma UserProfile_init_spec (uid nm : json) (age_arg role_arg : pyval) (st : State) :
  (age_ok age_arg && role_accepted role_arg = true ->
     UserProfile_init uid nm age_arg role_arg st
     = (Ok (mkUserProfile uid nm (as_json age_arg) (role_stored role_arg) []
              (time_at (clock st))),
        advance 1 st))
  /\ (age_ok age_arg && role_accepted role_arg = false ->
      exists msg, UserProfile_init uid nm age_arg role_arg st
                  = (Raise (ValueError msg), st)).
Proof.
  unfold UserProfile_init, role_accepted, role_stored.
  destruct (age_ok age_arg); simpl.
  - destruct role_arg as [[| | |s| |]|r]; run;
      try (split; [reflexivity|discriminate]).
    destruct (UserRole_of_value s); run.
    + split; [reflexivity|discriminate].
    + split; [discriminate|]. intros _. eexists. reflexivity.
  - split; [discriminate|]. intros _. eexists. reflexivity.
Qed.

(** For a role argument of the documented type, text or member, the
    construction succeeds if and only if the age is an integer between 0
    and 150 and the role is [student] or [gym_teacher] or a member; the
    new profile has no activity. *)
Lemma UserProfile_init_typed (uid nm : json) (age_arg role_arg : pyval) (st : State) :
  role_typed role_arg = true ->
  ((exists p st', UserProfile_init uid nm age_arg role_arg st = (Ok p, st'))
   <-> (exists n, py_int age_arg = Some n /\ 0 <= n <= 150)
       /\ (in_role_names role_arg = true \/ exists r, role_arg = PEnum r))
  /\ (forall p st', UserProfile_init uid nm age_arg role_arg st = (Ok p, st') ->
        get_total_activities p = 0 /\ exists r, role p = PEnum r)
  /\ (forall e st', UserProfile_init uid nm age_arg role_arg st = (Raise e, st') ->
        is_ValueError e = true /\ st' = st).
Proof.
  intros Hty.
  destruct (UserProfile_init_spec uid nm age_arg role_arg st) as [Hok Hko].
  assert (Hage : age_ok age_arg = true <->
                 exists n, py_int age_arg = Some n /\ 0 <= n <= 150).
  { unfold age_ok. destruct (py_int age_arg) as [n|].
    - split.
      + intros H. apply andb_prop in H. exists n. split; auto. lia.
      + intros (m & [= <-] & Hm). apply andb_true_intro. split; lia.
    - split; [discriminate|]. intros (m & Hm & _). discriminate. }
  assert (Hrole : role_accepted role_arg = true <->
                  in_role_names role_arg = true \/ exists r, role_arg = PEnum r).
  { destruct role_arg as [[| | |s| |]|r]; try discriminate; simpl.
    - unfold UserRole_of_value.
      destruct (String.eqb s "student"), (String.eqb s "gym_teacher"); simpl;
        split; auto; intros [H|[r H]]; discriminate.
    - split; eauto. }
  destruct (age_ok age_arg && role_accepted role_arg) eqn:E.
  - rewrite (Hok eq_refl). apply andb_prop in E. destruct E as [Ea Er].
    split; [|split].
    + split; [intros _|intros _; eauto]. split; [now apply Hage|now apply Hrole].
    + intros p st' [= <- <-]. split; [reflexivity|]. simpl.
      destruct role_arg as [[| | |s| |]|r]; try discriminate; simpl in *; eauto.
      destruct (UserRole_of_value s); [eauto|discriminate].
    + intros e st' [=].
  - destruct (Hko eq_refl) as [msg Hmsg]. rewrite Hmsg. split; [|split].
    + split; [intros (p & st' & [=])|]. intros [Ha Hr].
      apply Hage in Ha. apply Hrole in Hr. rewrite Ha, Hr in E. discriminate.
    + intros p st' [=].
    + intros e st' [= <- <-]. split; reflexivity.
Qed.

(** C1: a role that is neither a text nor a member is stored as it is.
    [UserProfile(user_id, name, 16, None)] succeeds, and so does decoding
    a record that has no [role] entry; the profile built has the role
    [None], and encoding it raises [AttributeError]. *)
Theorem UserProfile_init_role_None (st : State) :
  let p := mkUserProfile (JStr "u1") (JStr "Ann") (JInt 16) (PJson JNull) []
             (time_at (clock st)) in
  UserProfile_init (JStr "u1") (JStr "Ann") (PJson (JInt 16)) (PJson JNull) st
  = (Ok p, advance 1 st)
  /\ UserProfile_from_dict record_without_role st = (Ok p, advance 1 st)
  /\ in_role_names (role p) = false
  /\ (forall r, role p <> PEnum r)
  /\ UserProfile_to_dict p = Raise AttributeError.
Proof.
  simpl. repeat split. intros r. discriminate.
Qed.

(** *** Creation *)

(** C2: when [user_id] is a key of the storage dict, [create_profile] of
    the storage, durable or in memory, raises the [ValueError] of the
    duplicate key and the view answers 400; the state after the call is the
    state before it, so the profile stored under [user_id] is unchanged. *)
Theorem create_profile_duplicate (st : State) (uid nm : string)
    (age_arg role_arg : pyval) :
  dict_mem uid (profiles st) = true ->
  ProfileStorage_create_profile uid nm age_arg role_arg st
  = (Raise (ValueError (msg_exists uid)), st)
  /\ InMemoryProfileStorage_create_profile uid nm age_arg role_arg st
     = (Raise (ValueError (msg_exists uid)), st)
  /\ exists resp,
       create_profile uid nm age_arg role_arg st = (Ok resp, st)
       /\ status_code resp = 400
       /\ success resp = false
       /\ data resp = None
       /\ (str_truthy uid = true -> str_truthy nm = true ->
           age_ok age_arg = true -> in_role_names role_arg = true ->
           message resp = Msg (msg_exists uid)).
Proof.
  intros Hmem.
  assert (Hs : ProfileStorage_create_profile uid nm age_arg role_arg st
               = (Raise (ValueError (msg_exists uid)), st)).
  { unfold ProfileStorage_create_profile. run. now rewrite Hmem. }
  split; [exact Hs|]. split.
  { unfold InMemoryProfileStorage_create_profile. run. now rewrite Hmem. }
  unfold create_profile, except_ValueError_Exception, try_except.
  destruct (str_truthy uid) eqn:Eu; simpl;
    [|run; eexists; repeat split; discriminate].
  destruct (str_truthy nm) eqn:En; simpl;
    [|run; eexists; repeat split; discriminate].
  destruct (age_ok age_arg) eqn:Ea; simpl;
    [|run; eexists; repeat split; discriminate].
  destruct (in_role_names role_arg) eqn:Er; simpl;
    [|run; eexists; repeat split; discriminate].
  unfold bind at 1. rewrite Hs. simpl. run. eexists. repeat split.
Qed.

(** *** Statistics *)

(** C5, as the code has it: for a stored profile whose role is a member
    and whose activities carry integers, [get_user_statistics] answers 200
    without touching the state, with the number of activities, the sum of
    the durations, the sum of the calories and their average; the average
    is 0 for a profile without activity and otherwise the quotient of the
    sum of calories by the number of activities rounded toward minus
    infinity, which is the truncated quotient when the sum is not
    negative. *)
Theorem get_user_statistics_spec (st : State) (uid : string) (p : UserProfile)
    (r : UserRole) (ds cs : list Z) :
  dict_get uid (profiles st) = Some p ->
  role p = PEnum r ->
  ints_of (map duration_minutes (activity_history p)) = Some ds ->
  ints_of (map calories_burned (activity_history p)) = Some cs ->
  exists (resp : Response) (avg : Z),
    get_user_statistics uid st = (Ok resp, st)
    /\ status_code resp = 200
    /\ success resp = true
    /\ response_field resp "total_activities" = JInt (get_total_activities p)
    /\ response_field resp "total_activity_time_minutes" = JInt (total ds)
    /\ response_field resp "total_calories_burned" = JInt (total cs)
    /\ response_field resp "average_calories_per_activity" = JInt avg
    /\ (get_total_activities p = 0 -> avg = 0)
    /\ (0 < get_total_activities p ->
          avg = total cs / get_total_activities p
          /\ get_total_activities p * avg <= total cs
              < get_total_activities p * avg + get_total_activities p)
    /\ (0 < get_total_activities p -> 0 <= total cs ->
          avg = Z.quot (total cs) (get_total_activities p)).
Proof.
  intros Hget Hrole Hds Hcs.
  exists (APIResponse_success
            (JObj [ ("user_id", JStr uid);
                    ("name", name p);
                    ("role", JStr (UserRole_value r));
                    ("total_activities", JInt (get_total_activities p));
                    ("total_activity_time_minutes", JInt (total ds));
                    ("total_calories_burned", JInt (total cs));
                    ("average_calories_per_activity",
                       JInt (average_calories (total cs)
                               (get_total_activities p))) ])
            (Msg "Statistics retrieved successfully") 200).
  exists (average_calories (total cs) (get_total_activities p)).
  split.
  { unfold get_user_statistics, except_Exception, try_except,
      ProfileStorage_get_profile, get_total_activity_time,
      get_total_calories_burned. run.
    rewrite Hget. run. rewrite Hrole. simpl.
    rewrite (py_sum_ints _ _ Hds), (py_sum_ints _ _ Hcs). reflexivity. }
  repeat split; try reflexivity; unfold average_calories.
  - intros ->. reflexivity.
  - destruct (Z.ltb_spec 0 (get_total_activities p)); [reflexivity|lia].
  - destruct (Z.ltb_spec 0 (get_total_activities p)); [|lia].
    pose proof (Z.mul_div_le (total cs) (get_total_activities p)). lia.
  - destruct (Z.ltb_spec 0 (get_total_activities p)); [|lia].
    pose proof (Z.mul_succ_div_gt (total cs) (get_total_activities p)). lia.
  - intros Hn Hc. destruct (Z.ltb_spec 0 (get_total_activities p)); [|lia].
    symmetry. now apply Z.quot_div_nonneg.
Qed.

(** *** Mutation of a stored profile *)

Lemma dict_get_mem {V : Type} (k : string) (d : dict V) (v : V) :
  dict_get k d = Some v -> dict_mem k d = true.
Proof. unfold dict_mem. now intros ->. Qed.

Lemma forallb_dict_set {V : Type} (Q : V -> bool) (k : string) (v : V) (d : dict V) :
  Q v = true ->
  forallb (fun kv => Q (snd kv)) d = true ->
  forallb (fun kv => Q (snd kv)) (dict_set k v d) = true.
Proof.
  intros Hv. induction d as [|[k' v'] d IH]; simpl.
  - now rewrite Hv.
  - intros H. apply andb_prop in H. destruct H as [H1 H2].
    destruct (String.eqb k' k); simpl.
    + now rewrite Hv, H2.
    + now rewrite H1, IH.
Qed.

Lemma dict_get_forallb {V : Type} (Q : V -> bool) (k : string) (v : V) (d : dict V) :
  forallb (fun kv => Q (snd kv)) d = true -> dict_get k d = Some v -> Q v = true.
Proof.
  induction d as [|[k' v'] d IH]; simpl; [discriminate|].
  intros H. apply andb_prop in H. destruct H as [H1 H2].
  destruct (String.eqb k' k); [now intros [= <-]|auto].
Qed.

Lemma wf_with_profile (st : State) (uid : string) (p p' : UserProfile) :
  wf_storage st = true ->
  dict_get uid (profiles st) = Some p ->
  valid_profile p' = true ->
  wf_storage (with_profile uid p' st) = true.
Proof.
  intros Hwf Hget Hv. destruct (wf_storage_inv st Hwf) as [Hu Hall].
  unfold wf_storage, with_profile. simpl.
  rewrite dict_keys_set_present by now apply (dict_get_mem _ _ p).
  rewrite Hu. simpl. now apply forallb_dict_set.
Qed.

Lemma wf_stored_valid (st : State) (uid : string) (p : UserProfile) :
  wf_storage st = true -> dict_get uid (profiles st) = Some p ->
  valid_profile p = true.
Proof.
  intros Hwf Hget. destruct (wf_storage_inv st Hwf) as [_ Hall].
  exact (dict_get_forallb valid_profile uid p _ Hall Hget).
Qed.

Lemma serialize_is_to_dict (p : UserProfile) :
  UserProfileSerializer_serialize p = UserProfile_to_dict p.
Proof. reflexivity. Qed.

Lemma ints_of_app (l : list json) (x : json) (ns : list Z) (n : Z) :
  ints_of l = Some ns -> json_int x = Some n ->
  ints_of (l ++ [x]) = Some (ns ++ [n]).
Proof.
  revert ns. induction l as [|y l IH]; intros ns; simpl.
  - intros [= <-] ->. reflexivity.
  - destruct (json_int y) as [m|]; [|discriminate].
    destruct (ints_of l) as [ms|]; [|discriminate].
    intros [= <-] Hx. now rewrite (IH ms eq_refl Hx).
Qed.

Lemma total_app (ns : list Z) (n : Z) : total (ns ++ [n]) = total ns + n.
Proof. induction ns as [|m ns IH]; simpl; lia. Qed.

Lemma duration_ok_iff (v : pyval) : duration_ok v = true <-> positive_integer v.
Proof.
  unfold duration_ok, positive_integer. destruct (py_int v) as [n|].
  - split.
    + intros H. exists n. split; auto. lia.
    + intros (m & [= <-] & Hm). lia.
  - split; [discriminate|]. intros (m & Hm & _). discriminate.
Qed.

Lemma calories_ok_iff (v : pyval) : calories_ok v = true <-> non_negative_integer v.
Proof.
  unfold calories_ok, non_negative_integer. destruct (py_int v) as [n|].
  - split.
    + intros H. exists n. split; auto. lia.
    + intros (m & [= <-] & Hm). lia.
  - split; [discriminate|]. intros (m & Hm & _). discriminate.
Qed.

Lemma py_int_as_json (v : pyval) (n : Z) :
  py_int v = Some n -> json_int (as_json v) = Some n.
Proof. destruct v; simpl; [auto|discriminate]. Qed.

(** *** Adding an activity *)

Lemma valid_append_activity (p : UserProfile) (a : ActivityEntry) :
  valid_profile p = true -> valid_activity a = true ->
  valid_profile (append_activity a p) = true.
Proof.
  unfold valid_profile. simpl. intros H Ha.
  apply andb_prop in H. destruct H as [H Hh]. rewrite H. simpl.
  rewrite forallb_app, Hh. simpl. now rewrite Ha.
Qed.

Lemma add_activity_to_profile_found (st : State) (uid : string) (p : UserProfile)
    (aty d c nts : json) :
  wf_storage st = true ->
  dict_get uid (profiles st) = Some p ->
  is_int d = true -> is_int c = true ->
  exists items,
    profiles_to_dicts
      (dict_set uid
         (append_activity (mkActivityEntry aty d c (time_at (clock st)) nts) p)
         (profiles st)) = Ok items
    /\ ProfileStorage_add_activity_to_profile uid aty d c nts st
       = (Ok true,
          saved items
            (with_profile uid
               (append_activity (mkActivityEntry aty d c (time_at (clock st)) nts) p)
               (advance 1 st))).
Proof.
  intros Hwf Hget Hd Hc.
  set (a := mkActivityEntry aty d c (time_at (clock st)) nts).
  assert (Hva : valid_activity a = true).
  { unfold valid_activity. simpl. now rewrite Hd, Hc. }
  assert (Hwf' : wf_storage (with_profile uid (append_activity a p) (advance 1 st))
                 = true).
  { apply (wf_with_profile _ _ p); auto.
    apply valid_append_activity; auto. now apply (wf_stored_valid st uid). }
  destruct (save_all_valid _ Hwf') as (items & Hitems & _ & Hsave).
  exists items. split; [exact Hitems|].
  unfold ProfileStorage_add_activity_to_profile, UserProfile_add_activity,
    ActivityEntry_init. run. rewrite Hget. run.
  unfold with_profile, advance in Hsave. simpl in Hsave. fold a.
  rewrite Hsave. reflexivity.
Qed.

Lemma add_activity_to_profile_missing (st : State) (uid : string)
    (aty d c nts : json) :
  dict_get uid (profiles st) = None ->
  ProfileStorage_add_activity_to_profile uid aty d c nts st = (Ok false, st).
Proof.
  intros Hget. unfold ProfileStorage_add_activity_to_profile. run.
  now rewrite Hget.
Qed.

(** [add_activity] in a well-formed storage.  It answers 400, the state
    untouched, when the activity type is empty, the duration is not a
    positive integer or the calories are not a non-negative integer
    (negative calories among them); 404,
    the state untouched, when these are in order and [user_id] is not in
    storage; and otherwise, in a well-formed storage, it appends the
    activity, stamped with the time of the clock, to the stored profile,
    saves, and answers 201 with the serialized profile, whose statistics
    count the new activity. *)
Theorem add_activity_spec (st : State) (uid aty : string) (d c : pyval)
    (nts : string) :
  (aty = EmptyString \/ ~ positive_integer d \/ ~ non_negative_integer c ->
     exists resp,
       add_activity uid aty d c nts st = (Ok resp, st)
       /\ status_code resp = 400)
  /\ (aty <> EmptyString -> positive_integer d -> non_negative_integer c ->
      dict_get uid (profiles st) = None ->
      exists resp,
        add_activity uid aty d c nts st = (Ok resp, st)
        /\ status_code resp = 404)
  /\ (aty <> EmptyString -> positive_integer d -> non_negative_integer c ->
      forall (p : UserProfile) (ds cs : list Z) (dn cn : Z),
        wf_storage st = true ->
        dict_get uid (profiles st) = Some p ->
        ints_of (map duration_minutes (activity_history p)) = Some ds ->
        ints_of (map calories_burned (activity_history p)) = Some cs ->
        py_int d = Some dn -> py_int c = Some cn ->
        exists (resp : Response) (st' : State) (payload : json) (items : dict json),
          add_activity uid aty d c nts st = (Ok resp, st')
          /\ status_code resp = 201
          /\ data resp = Some payload
          /\ dict_get uid (profiles st')
             = Some (append_activity
                       (mkActivityEntry (JStr aty) (as_json d) (as_json c)
                          (time_at (clock st)) (JStr nts)) p)
          /\ profiles st'
             = dict_set uid
                 (append_activity
                    (mkActivityEntry (JStr aty) (as_json d) (as_json c)
                       (time_at (clock st)) (JStr nts)) p)
                 (profiles st)
          /\ UserProfileSerializer_serialize
               (append_activity
                  (mkActivityEntry (JStr aty) (as_json d) (as_json c)
                     (time_at (clock st)) (JStr nts)) p) = Ok payload
          /\ response_field resp "stats"
             = JObj [ ("total_activities", JInt (get_total_activities p + 1));
                      ("total_activity_time_minutes", JInt (total ds + dn));
                      ("total_calories_burned", JInt (total cs + cn)) ]
          /\ profiles_to_dicts (profiles st') = Ok items
          /\ dict_get (storage_file st') (disk st') = Some (Json (JObj items))).
Proof.
  split; [|split].
  - intros H. unfold add_activity, except_ValueError_Exception, try_except.
    destruct (str_truthy aty) eqn:Ea; simpl; [|run; eexists; split; reflexivity].
    destruct (duration_ok d) eqn:Ed; simpl; [|run; eexists; split; reflexivity].
    destruct (calories_ok c) eqn:Ec; simpl; [|run; eexists; split; reflexivity].
    exfalso. destruct H as [H|[H|H]].
    + subst aty. discriminate.
    + now apply H, duration_ok_iff.
    + now apply H, calories_ok_iff.
  - intros Ha Hd Hc Hget.
    apply duration_ok_iff in Hd. apply calories_ok_iff in Hc.
    unfold add_activity, except_ValueError_Exception, try_except.
    destruct aty as [|ch aty]; [congruence|]. simpl. rewrite Hd, Hc. simpl.
    unfold bind at 1. rewrite add_activity_to_profile_missing by exact Hget.
    run. eexists. split; reflexivity.
  - intros Ha Hd Hc p ds cs dn cn Hwf Hget Hds Hcs Hdn Hcn.
    apply duration_ok_iff in Hd. apply calories_ok_iff in Hc.
    pose proof (py_int_as_json _ _ Hdn) as Hdj.
    pose proof (py_int_as_json _ _ Hcn) as Hcj.
    set (a := mkActivityEntry (JStr aty) (as_json d) (as_json c)
                (time_at (clock st)) (JStr nts)).
    destruct (add_activity_to_profile_found st uid p (JStr aty) (as_json d)
                (as_json c) (JStr nts) Hwf Hget)
      as (items & Hitems & Hadd).
    { unfold is_int. now rewrite Hdj. }
    { unfold is_int. now rewrite Hcj. }
    fold a in Hitems, Hadd.
    assert (Hp : valid_profile p = true) by now apply (wf_stored_valid st uid).
    destruct (to_dict_valid p Hp) as (r & _ & _ & Hr & _).
    assert (Hser : UserProfileSerializer_serialize (append_activity a p)
              = Ok (JObj [ ("user_id", user_id p);
                    ("name", name p);
                    ("age", age p);
                    ("role", JStr (UserRole_value r));
                    ("created_at", JStr (isoformat (created_at p)));
                    ("activity_history",
                       JList (ActivitySerializer_serialize_many
                                (activity_history p ++ [a])));
                    ("stats",
                       JObj [ ("total_activities", JInt (get_total_activities p + 1));
                              ("total_activity_time_minutes", JInt (total ds + dn));
                              ("total_calories_burned", JInt (total cs + cn)) ]) ])).
    { unfold UserProfileSerializer_serialize, get_total_activity_time,
        get_total_calories_burned, get_total_activities. simpl.
      rewrite Hr. simpl. rewrite !map_app. simpl.
      rewrite (py_sum_ints _ _ (ints_of_app _ _ _ _ Hds Hdj)).
      rewrite (py_sum_ints _ _ (ints_of_app _ _ _ _ Hcs Hcj)).
      simpl. rewrite !total_app, length_app. simpl.
      replace (Z.of_nat (List.length (activity_history p) + 1))
        with (Z.of_nat (List.length (activity_history p)) + 1) by lia.
      reflexivity. }
    unfold add_activity, except_ValueError_Exception, try_except.
    destruct aty as [|ch aty]; [congruence|]. cbn [str_truthy negb].
    rewrite Hd, Hc. cbn [negb].
    unfold bind at 1. rewrite Hadd. cbn [negb].
    unfold ProfileStorage_get_profile. run.
    rewrite dict_get_set_eq. run. fold a. rewrite Hser. simpl.
    eexists. eexists. eexists. exists items.
    split; [reflexivity|]. simpl.
    repeat split; auto.
    + apply dict_get_set_eq.
    + apply dict_get_set_eq.
Qed.

(** *** Updating a profile *)

Lemma dict_set_set {V : Type} (k : string) (v v' : V) (d : dict V) :
  dict_set k v (dict_set k v' d) = dict_set k v d.
Proof.
  induction d as [|[k0 v0] d IH]; simpl.
  - now rewrite String.eqb_refl.
  - destruct (String.eqb k0 k) eqn:E; simpl; rewrite E; [reflexivity|].
    now rewrite IH.
Qed.

Lemma dict_set_same {V : Type} (k : string) (v : V) (d : dict V) :
  dict_get k d = Some v -> dict_set k v d = d.
Proof.
  induction d as [|[k0 v0] d IH]; simpl; [discriminate|].
  destruct (String.eqb k0 k); [now intros [= <-]|].
  intros H. now rewrite IH.
Qed.

Lemma with_profile_same (uid : string) (p : UserProfile) (st : State) :
  dict_get uid (profiles st) = Some p -> with_profile uid p st = st.
Proof.
  intros H. unfold with_profile. rewrite dict_set_same by exact H.
  destruct st; reflexivity.
Qed.

Lemma update_profile_missing (st : State) (uid : string) (kw : kwargs) :
  dict_get uid (profiles st) = None ->
  ProfileStorage_update_profile uid kw st = (Ok None, st).
Proof.
  intros H. unfold ProfileStorage_update_profile. run. now rewrite H.
Qed.

(** The outcome of [update_profile] on a stored profile, by the first
    test that fails. *)
Lemma update_profile_age_fails (st : State) (uid : string) (kw : kwargs)
    (p : UserProfile) :
  dict_get uid (profiles st) = Some p ->
  kw_age_ok kw = false ->
  ProfileStorage_update_profile uid kw st
  = (Raise (ValueError msg_age), with_profile uid (apply_name kw p) st).
Proof.
  intros Hget Hage. unfold ProfileStorage_update_profile, kw_age_ok, apply_name in *.
  destruct kw as [[n|] [a|] r]; simpl in *; try discriminate;
    run; rewrite Hget; run; rewrite Hage; simpl.
  - reflexivity.
  - now rewrite with_profile_same.
Qed.

Lemma update_profile_role_fails (st : State) (uid : string) (kw : kwargs)
    (p : UserProfile) :
  dict_get uid (profiles st) = Some p ->
  kw_age_ok kw = true ->
  kw_role_ok kw = false ->
  exists s,
    kw_role kw = Some (PJson (JStr s))
    /\ ProfileStorage_update_profile uid kw st
       = (Raise (EnumValueError s),
          with_profile uid (apply_age kw (apply_name kw p)) st).
Proof.
  intros Hget Hage Hrole.
  unfold ProfileStorage_update_profile, kw_age_ok, kw_role_ok, apply_name,
    apply_age in *.
  destruct kw as [n a [[[| | |s| |]|r]|]]; simpl in *; try discriminate.
  exists s. split; [reflexivity|].
  destruct (UserRole_of_value s); [discriminate|].
  destruct n as [n|], a as [a|]; simpl in *;
    run; rewrite Hget; run; rewrite ?Hage; simpl;
    try (unfold with_profile; rewrite ?dict_set_set; reflexivity).
  now rewrite with_profile_same.
Qed.

Lemma update_profile_stores (st : State) (uid : string) (kw : kwargs)
    (p : UserProfile) (items : dict json) :
  dict_get uid (profiles st) = Some p ->
  kw_age_ok kw = true ->
  kw_role_ok kw = true ->
  save_all (with_profile uid (apply_role kw (apply_age kw (apply_name kw p))) st)
  = (Ok tt,
     saved items
       (with_profile uid (apply_role kw (apply_age kw (apply_name kw p))) st)) ->
  ProfileStorage_update_profile uid kw st
  = (Ok (Some (apply_role kw (apply_age kw (apply_name kw p)))),
     saved items
       (with_profile uid (apply_role kw (apply_age kw (apply_name kw p))) st)).
Proof.
  intros Hget Hage Hrole.
  unfold ProfileStorage_update_profile, kw_age_ok, kw_role_ok, apply_name,
    apply_age, apply_role in *.
  destruct kw as [n a r]; simpl in *.
  intros Hsave.
  destruct n as [n|], a as [a|], r as [[[| | |s| |]|r]|]; simpl in *;
    try (destruct (UserRole_of_value s) eqn:Es; [|discriminate Hrole]);
    run; rewrite Hget; run; rewrite ?Hage; simpl; rewrite ?Es; run;
    unfold with_profile in Hsave; simpl in Hsave;
    rewrite ?dict_set_set;
    try (rewrite Hsave; reflexivity).
  all: rewrite (dict_set_same _ _ _ Hget) in Hsave;
    replace (mkState (storage_file st) (profiles st) (clock st) (disk st)
               (stdout st)) with st in Hsave by (destruct st; reflexivity);
    rewrite Hsave; unfold saved, with_profile; simpl;
    rewrite (dict_set_same _ _ _ Hget); destruct st; reflexivity.
Qed.

Lemma age_ok_as_json (a : pyval) :
  age_ok a = true -> age_ok (PJson (as_json a)) = true.
Proof. destruct a; simpl; [auto|discriminate]. Qed.

Lemma valid_updated (kw : kwargs) (p : UserProfile) :
  valid_profile p = true ->
  kw_age_ok kw = true -> kw_role_ok kw = true -> kw_role_typed kw = true ->
  valid_profile (apply_role kw (apply_age kw (apply_name kw p))) = true.
Proof.
  unfold valid_profile, kw_age_ok, kw_role_ok, kw_role_typed, apply_role,
    apply_age, apply_name.
  intros H Ha Hr Ht.
  apply andb_prop in H. destruct H as [H Hh].
  apply andb_prop in H. destruct H as [Hage Hmem].
  destruct kw as [n a r]; simpl in *.
  assert (H1 : age_ok (PJson (age (match a with
                                   | Some a0 => set_age (as_json a0)
                                                  (match n with
                                                   | Some n0 => set_name n0 p
                                                   | None => p
                                                   end)
                                   | None => match n with
                                             | Some n0 => set_name n0 p
                                             | None => p
                                             end
                                   end))) = true).
  { destruct a as [a|], n as [n|]; simpl; auto using age_ok_as_json. }
  destruct r as [[[| | |s| |]|r]|]; simpl in *; try discriminate;
    try (destruct (UserRole_of_value s); [|discriminate]);
    destruct a as [a|], n as [n|]; simpl in *;
    rewrite ?H1, ?Hage, ?Hmem, ?Hh; reflexivity.
Qed.

(** [update_profile] with a role given as a text or a member.  On an
    unknown [user_id] it returns nothing and answers 404, the state
    untouched.  On a stored profile it answers 400 when a supplied age or
    role fails the test that construction makes.
    Otherwise, in a well-formed storage and for a role given as a text or
    a member, it puts the supplied name, age and role in place of the
    stored ones, leaves the fields not supplied, the user_id, created_at
    and the activities as they were, and the other profiles too, saves the
    storage file, and returns the updated profile, which the view
    serializes in a 200 answer. *)
Theorem update_profile_spec (st : State) (uid : string) (kw : kwargs) :
  (dict_get uid (profiles st) = None ->
     ProfileStorage_update_profile uid kw st = (Ok None, st)
     /\ exists resp,
          update_profile uid kw st = (Ok resp, st) /\ status_code resp = 404)
  /\ (forall p : UserProfile,
        dict_get uid (profiles st) = Some p ->
        kw_age_ok kw && kw_role_ok kw = false ->
        exists resp st',
          update_profile uid kw st = (Ok resp, st') /\ status_code resp = 400)
  /\ (forall p : UserProfile,
        dict_get uid (profiles st) = Some p ->
        wf_storage st = true ->
        kw_role_typed kw = true ->
        kw_age_ok kw && kw_role_ok kw = true ->
        exists (p' : UserProfile) (resp : Response) (items : dict json)
               (payload : json),
          ProfileStorage_update_profile uid kw st
          = (Ok (Some p'), saved items (with_profile uid p' st))
          /\ update_profile uid kw st
             = (Ok resp, saved items (with_profile uid p' st))
          /\ status_code resp = 200
          /\ data resp = Some payload
          /\ UserProfileSerializer_serialize p' = Ok payload
          /\ profiles_to_dicts (dict_set uid p' (profiles st)) = Ok items
          /\ name p' = match kw_name kw with Some n => n | None => name p end
          /\ age p' = match kw_age kw with Some a => as_json a | None => age p end
          /\ role p' = match kw_role kw with
                       | Some r => role_stored r
                       | None => role p
                       end
          /\ user_id p' = user_id p
          /\ created_at p' = created_at p
          /\ activity_history p' = activity_history p)
  /\ (forall (a r : pyval) (uid' nm : json) (st0 : State),
        kw_age kw = Some a -> kw_role kw = Some r ->
        (kw_age_ok kw && kw_role_ok kw = true
         <-> exists p0 st1, UserProfile_init uid' nm a r st0 = (Ok p0, st1))).
Proof.
  split; [|split; [|split]].
  - intros Hget. pose proof (update_profile_missing st uid kw Hget) as Hs.
    split; [exact Hs|].
    unfold update_profile, except_ValueError_Exception, try_except.
    unfold bind at 1. rewrite Hs. run. eexists. split; reflexivity.
  - intros p Hget Hbad.
    unfold update_profile, except_ValueError_Exception, try_except.
    destruct (kw_age_ok kw) eqn:Ea; simpl in Hbad.
    + destruct (update_profile_role_fails st uid kw p Hget Ea Hbad)
        as (s & _ & Hs).
      unfold bind at 1. rewrite Hs. run. eexists. eexists. split; reflexivity.
    + pose proof (update_profile_age_fails st uid kw p Hget Ea) as Hs.
      unfold bind at 1. rewrite Hs. run. eexists. eexists. split; reflexivity.
  - intros p Hget Hwf Hty Hok.
    apply andb_prop in Hok. destruct Hok as [Ha Hr].
    set (p' := apply_role kw (apply_age kw (apply_name kw p))).
    assert (Hv : valid_profile p' = true).
    { apply valid_updated; auto. now apply (wf_stored_valid st uid). }
    assert (Hwf' : wf_storage (with_profile uid p' st) = true)
      by now apply (wf_with_profile st uid p).
    destruct (save_all_valid _ Hwf') as (items & Hitems & _ & Hsave).
    pose proof (update_profile_stores st uid kw p items Hget Ha Hr Hsave) as Hs.
    fold p' in Hs.
    destruct (to_dict_valid p' Hv) as (r & ds & cs & _ & _ & _ & Hto).
    exists p'. eexists. exists items. eexists.
    split; [exact Hs|]. split.
    { unfold update_profile, except_ValueError_Exception, try_except.
      unfold bind at 1. rewrite Hs. run.
      rewrite serialize_is_to_dict, Hto. simpl. reflexivity. }
    split; [reflexivity|]. split; [reflexivity|].
    split; [now rewrite serialize_is_to_dict|].
    split; [exact Hitems|].
    unfold p', apply_role, apply_age, apply_name.
    destruct kw as [[n|] [a|] [r0|]]; simpl; repeat split.
  - intros a r uid' nm st0 Hka Hkr. unfold kw_age_ok, kw_role_ok.
    rewrite Hka, Hkr.
    destruct (UserProfile_init_spec uid' nm a r st0) as [Hok Hko].
    destruct (age_ok a && role_accepted r).
    + split; [intros _|reflexivity]. rewrite (Hok eq_refl). eauto.
    + split; [discriminate|]. destruct (Hko eq_refl) as [msg Hmsg].
      rewrite Hmsg. intros (p0 & st1 & [=]).
Qed.

(** C10, as the code has it: when [update_profile] answers 400 on a
    stored profile, the storage file is as before and the field that
    failed its test and the fields after it, in the order name, age, role,
    are not applied; the fields before it are: a supplied name is stored
    when the age fails, a supplied name and age when the role fails.  The
    user_id, created_at and activities of the profile and the other
    profiles are as before. *)
Theorem update_profile_failure_state (st : State) (uid : string) (kw : kwargs)
    (p : UserProfile) :
  dict_get uid (profiles st) = Some p ->
  (kw_age_ok kw = false ->
     exists resp,
       update_profile uid kw st
       = (Ok resp, with_profile uid (apply_name kw p) st)
       /\ status_code resp = 400
       /\ dict_get uid (profiles (with_profile uid (apply_name kw p) st))
          = Some (mkUserProfile (user_id p)
                    (match kw_name kw with Some n => n | None => name p end)
                    (age p) (role p) (activity_history p) (created_at p)))
  /\ (kw_age_ok kw = true -> kw_role_ok kw = false ->
      exists resp,
        update_profile uid kw st
        = (Ok resp, with_profile uid (apply_age kw (apply_name kw p)) st)
        /\ status_code resp = 400
        /\ dict_get uid
             (profiles (with_profile uid (apply_age kw (apply_name kw p)) st))
           = Some (mkUserProfile (user_id p)
                     (match kw_name kw with Some n => n | None => name p end)
                     (match kw_age kw with
                      | Some a => as_json a
                      | None => age p
                      end)
                     (role p) (activity_history p) (created_at p)))
  /\ (forall q : UserProfile,
        disk (with_profile uid q st) = disk st
        /\ forall uid', uid' <> uid ->
             dict_get uid' (profiles (with_profile uid q st))
             = dict_get uid' (profiles st)).
Proof.
  intros Hget. split; [|split].
  - intros Ha. pose proof (update_profile_age_fails st uid kw p Hget Ha) as Hs.
    unfold update_profile, except_ValueError_Exception, try_except.
    unfold bind at 1. rewrite Hs. run. eexists.
    split; [reflexivity|]. split; [reflexivity|].
    rewrite dict_get_set_eq. unfold apply_name.
    destruct (kw_name kw); destruct p; reflexivity.
  - intros Ha Hr.
    destruct (update_profile_role_fails st uid kw p Hget Ha Hr) as (s & _ & Hs).
    unfold update_profile, except_ValueError_Exception, try_except.
    unfold bind at 1. rewrite Hs. run. eexists.
    split; [reflexivity|]. split; [reflexivity|].
    rewrite dict_get_set_eq. unfold apply_age, apply_name.
    destruct (kw_age kw), (kw_name kw); destruct p; reflexivity.
  - intros q. split; [reflexivity|]. intros uid' Hne. simpl.
    now apply dict_get_set_neq.
Qed.

(** *** Listing *)

Lemma list_view_valid (ps : list UserProfile) (r : UserRole) :
  forallb valid_profile ps = true ->
  exists all,
    UserProfileSerializer_serialize_list_view ps = Ok all
    /\ List.length all = List.length ps
    /\ filter_by_role (PJson (JStr (UserRole_value r))) ps
       = Ok (filter (has_role r) ps)
    /\ UserProfileSerializer_serialize_list_view (filter (has_role r) ps)
       = Ok (filter (item_has_role r) all).
Proof.
  induction ps as [|p ps IH]; simpl.
  - intros _. exists []. repeat split.
  - intros H. apply andb_prop in H. destruct H as [Hp Hps].
    destruct (IH Hps) as (all & Hall & Hlen & Hfil & Hview).
    destruct (to_dict_valid p Hp) as (r' & ds & cs & Hr & _ & Hcs & _).
    assert (Hitem : list_view_item p
                    = Ok (JObj [ ("user_id", user_id p);
                                 ("name", name p);
                                 ("age", age p);
                                 ("role", JStr (UserRole_value r'));
                                 ("total_activities", JInt (get_total_activities p));
                                 ("total_calories_burned", JInt (total cs)) ])).
    { unfold list_view_item, get_total_calories_burned. rewrite Hr. simpl.
      now rewrite (py_sum_ints _ _ Hcs). }
    rewrite Hitem, Hall. simpl. eexists. split; [reflexivity|].
    split; [simpl; now rewrite Hlen|].
    assert (Hh : has_role r p = UserRole_eqb r r')
      by (unfold has_role; now rewrite Hr).
    rewrite Hr, Hfil, Hh. simpl.
    split.
    + destruct r, r'; reflexivity.
    + destruct r, r'; simpl; rewrite ?Hitem, ?Hview; reflexivity.
Qed.

Lemma wf_values_valid (st : State) :
  wf_storage st = true -> forallb valid_profile (dict_values (profiles st)) = true.
Proof.
  intros Hwf. destruct (wf_storage_inv st Hwf) as [_ H].
  unfold dict_values. induction (profiles st) as [|[k v] d IH]; simpl in *; auto.
  apply andb_prop in H. destruct H as [H1 H2]. now rewrite H1, IH.
Qed.

(** C8, as the code has it: in a well-formed storage, [list_profiles]
    with the text of a role answers 200 with the list view of the stored
    profiles that have this role, which is the list that [list_profiles]
    without a role answers, restricted to the items of this role, in the
    same order; the answer is 200 also when no profile has the role.  A
    role argument that is true as a condition and is not one of the two
    texts gets 400.  A role argument that is false as a condition, the
    empty text among them, is no filter at all. *)
Theorem list_profiles_spec (st : State) :
  wf_storage st = true ->
  exists all : list json,
    list_profiles (PJson JNull) st
    = (Ok (APIResponse_success (JList all)
             (MsgRetrieved (List.length (dict_values (profiles st)))) 200), st)
    /\ UserProfileSerializer_serialize_list_view (dict_values (profiles st))
       = Ok all
    /\ (forall r : UserRole,
          list_profiles (PJson (JStr (UserRole_value r))) st
          = (Ok (APIResponse_success (JList (filter (item_has_role r) all))
                   (MsgRetrieved
                      (List.length (filter (has_role r) (dict_values (profiles st)))))
                   200), st)
          /\ UserProfileSerializer_serialize_list_view
               (filter (has_role r) (dict_values (profiles st)))
             = Ok (filter (item_has_role r) all))
    /\ (forall role_arg : pyval,
          truthy role_arg = true -> in_role_names role_arg = false ->
          exists resp,
            list_profiles role_arg st = (Ok resp, st) /\ status_code resp = 400)
    /\ (forall role_arg : pyval,
          truthy role_arg = false ->
          list_profiles role_arg st = list_profiles (PJson JNull) st).
Proof.
  intros Hwf. pose proof (wf_values_valid st Hwf) as Hv.
  destruct (list_view_valid _ STUDENT Hv) as (all & Hall & _ & _ & _).
  exists all. split; [|split; [|split; [|split]]].
  - unfold list_profiles, except_Exception, try_except,
      ProfileStorage_get_all_profiles. run. now rewrite Hall.
  - exact Hall.
  - intros r. destruct (list_view_valid _ r Hv) as (all' & Hall' & _ & Hfil & Hview).
    rewrite Hall in Hall'. injection Hall' as <-.
    split; [|exact Hview].
    unfold list_profiles, except_Exception, try_except,
      ProfileStorage_get_profiles_by_role.
    assert (Ht : truthy (PJson (JStr (UserRole_value r))) = true)
      by now destruct r.
    assert (Hn : in_role_names (PJson (JStr (UserRole_value r))) = true)
      by now destruct r.
    rewrite Ht, Hn. run. rewrite Hfil. simpl. now rewrite Hview.
  - intros role_arg Ht Hn.
    unfold list_profiles, except_Exception, try_except.
    rewrite Ht, Hn. run. eexists. split; reflexivity.
  - intros role_arg Ht. unfold list_profiles. now rewrite Ht.
Qed.

(** *** Loading a file of any content *)

Lemma advance_0 (st : State) : advance 0 st = st.
Proof. destruct st; reflexivity. Qed.

Lemma only_clock_ret {A : Type} (a : A) : only_clock (ret a).
Proof. intros st. exists O. simpl. now rewrite advance_0. Qed.

Lemma only_clock_raise {A : Type} (e : exn) : only_clock (@raise _ A e).
Proof. intros st. exists O. simpl. now rewrite advance_0. Qed.

Lemma only_clock_lift {A : Type} (r : result A) : only_clock (lift r).
Proof. intros st. exists O. simpl. now rewrite advance_0. Qed.

Lemma only_clock_now : only_clock now.
Proof. intros st. exists 1%nat. reflexivity. Qed.

Lemma only_clock_bind {A B : Type} (m : M A) (k : A -> M B) :
  only_clock m -> (forall a, only_clock (k a)) -> only_clock (bind m k).
Proof.
  intros Hm Hk st. unfold bind. specialize (Hm st).
  destruct (m st) as [[a|e] st1]; simpl in Hm; destruct Hm as [n ->].
  - destruct (Hk a (advance n st)) as [n' Hn']. exists (n' + n)%nat.
    now rewrite Hn', advance_advance.
  - now exists n.
Qed.

Create HintDb clock.

#[local] Hint Resolve only_clock_ret only_clock_raise only_clock_lift
  only_clock_now : clock.

Lemma only_clock_fromisoformat (v : json) : only_clock (datetime_fromisoformat v).
Proof.
  unfold datetime_fromisoformat.
  destruct v; auto with clock. destruct (fromisoformat s); auto with clock.
Qed.

Lemma only_clock_ActivityEntry_from_dict (data : json) :
  only_clock (ActivityEntry_from_dict data).
Proof.
  unfold ActivityEntry_from_dict, ActivityEntry_init.
  destruct data; auto with clock.
  apply only_clock_bind.
  - apply only_clock_bind; auto with clock.
  - intros entry. destruct (dict_get "timestamp" d); auto with clock.
    apply only_clock_bind; [apply only_clock_fromisoformat|auto with clock].
Qed.

Lemma only_clock_UserProfile_init (uid nm : json) (a r : pyval) :
  only_clock (UserProfile_init uid nm a r).
Proof.
  unfold UserProfile_init. destruct (negb (age_ok a)); auto with clock.
  apply only_clock_bind.
  - destruct r as [[| | |s| |]|r]; auto with clock.
    destruct (UserRole_of_value s); auto with clock.
  - intros r'. apply only_clock_bind; auto with clock.
Qed.

Lemma only_clock_restore_history (items : list json) (p : UserProfile) :
  only_clock (restore_history items p).
Proof.
  revert p. induction items as [|x items IH]; intros p; simpl; auto with clock.
  apply only_clock_bind; [apply only_clock_ActivityEntry_from_dict|auto].
Qed.

Lemma only_clock_UserProfile_from_dict (data : json) :
  only_clock (UserProfile_from_dict data).
Proof.
  unfold UserProfile_from_dict. destruct data; auto with clock.
  apply only_clock_bind; [apply only_clock_UserProfile_init|].
  intros p. apply only_clock_bind.
  - destruct (dict_get "created_at" d); auto with clock.
    apply only_clock_bind; [apply only_clock_fromisoformat|auto with clock].
  - intros p'. destruct (dict_get "activity_history" d); auto with clock.
    apply only_clock_bind; [auto with clock|].
    intros items. apply only_clock_restore_history.
Qed.

(** The loop of [load_all] leaves the file name, the disk and the output
    as they are, whatever its outcome. *)
Lemma load_items_frame (items : dict json) (st st' : State) (r : result unit) :
  load_items items st = (r, st') ->
  storage_file st' = storage_file st
  /\ disk st' = disk st
  /\ stdout st' = stdout st.
Proof.
  revert st. induction items as [|[uid d] items IH]; intros st; simpl.
  - intros [= _ <-]. repeat split.
  - unfold bind at 1.
    destruct (only_clock_UserProfile_from_dict d st) as [n Hn].
    destruct (UserProfile_from_dict d st) as [[p|e] st1]; simpl in Hn; subst st1.
    + unfold bind at 1. unfold store_profile at 1. cbn beta iota.
      intros H. apply IH in H. exact H.
    + intros [= _ <-]. repeat split.
Qed.

Lemma from_dict_bad_age (d : dict json) (st : State) :
  age_ok (PJson (py_get d "age")) = false ->
  UserProfile_from_dict (JObj d) st = (Raise (ValueError msg_age), st).
Proof.
  intros H. unfold UserProfile_from_dict, UserProfile_init. rewrite H.
  reflexivity.
Qed.

Lemma from_dict_bad_role (d : dict json) (s : string) (st : State) :
  age_ok (PJson (py_get d "age")) = true ->
  py_get d "role" = JStr s ->
  UserRole_of_value s = None ->
  UserProfile_from_dict (JObj d) st = (Raise (ValueError (msg_invalid_role s)), st).
Proof.
  intros Ha Hr Hs. unfold UserProfile_from_dict, UserProfile_init.
  rewrite Ha, Hr. simpl. run. rewrite Hs. reflexivity.
Qed.

(** The errors that [load_all] catches.  Constructing the storage on a
    path that has no file gives an empty dict.  When the file is not
    JSON, or is a JSON object and decoding one of its records raises a
    [ValueError], as a
    record whose age is not an integer between 0 and 150 or whose role is
    an unknown text does, the error is printed and the dict is reset to
    empty.  No [ValueError] leaves the constructor. *)
Theorem ProfileStorage_init_spec (st : State) (path : string) :
  (dict_get path (disk st) = None ->
     ProfileStorage_init path st
     = (Ok tt, mkState path [] (clock st) (disk st) (stdout st)))
  /\ (dict_get path (disk st) = Some NotJson ->
      ProfileStorage_init path st
      = (Ok tt, mkState path [] (clock st) (disk st)
                  (stdout st ++ [ErrorLoadingProfiles JSONDecodeError])))
  /\ (forall (items : dict json) (e : exn) (st' : State),
        dict_get path (disk st) = Some (Json (JObj items)) ->
        load_items items (mkState path [] (clock st) (disk st) (stdout st))
        = (Raise e, st') ->
        is_ValueError e = true ->
        ProfileStorage_init path st
        = (Ok tt, mkState path [] (clock st') (disk st)
                    (stdout st ++ [ErrorLoadingProfiles e])))
  /\ (forall (e : exn) (st' : State),
        ProfileStorage_init path st = (Raise e, st') -> is_ValueError e = false)
  /\ (forall (d : dict json) (st0 : State),
        age_ok (PJson (py_get d "age")) = false ->
        UserProfile_from_dict (JObj d) st0 = (Raise (ValueError msg_age), st0))
  /\ (forall (d : dict json) (s : string) (st0 : State),
        age_ok (PJson (py_get d "age")) = true ->
        py_get d "role" = JStr s ->
        UserRole_of_value s = None ->
        UserProfile_from_dict (JObj d) st0
        = (Raise (ValueError (msg_invalid_role s)), st0)).
Proof.
  split; [|split; [|split; [|split; [|split]]]].
  - intros H. unfold ProfileStorage_init, load_all. run. now rewrite H.
  - intros H. unfold ProfileStorage_init, load_all, try_except, json_load.
    run. rewrite H. reflexivity.
  - intros items e st' H Hload He.
    destruct (load_items_frame _ _ _ _ Hload) as (H1 & H2 & H3).
    simpl in H1, H2, H3.
    unfold ProfileStorage_init, load_all, try_except, json_load, py_items.
    run. rewrite H. run. rewrite Hload, He. simpl.
    now rewrite H1, H2, H3.
  - intros e st'. unfold ProfileStorage_init, load_all, try_except. run.
    destruct (dict_get path (disk st)) as [f|]; [|discriminate].
    match goal with |- context [match ?m with _ => _ end] =>
      destruct m as [[u|e0] st1] end; [discriminate|].
    destruct (is_ValueError e0) eqn:E; [discriminate|].
    now intros [= <- _].
  - intros d st0. apply from_dict_bad_age.
  - intros d s st0. apply from_dict_bad_role.
Qed.

End Properties.

(** ** The theorems at work on the sample platform *)

Section Samples.

#[local] Existing Instance sample_lib.

Lemma sample_iso_round_trip : iso_round_trip.
Proof.
  intros t. simpl. unfold sample_fromisoformat, sample_isoformat.
  rewrite NilEmpty.usu. simpl. now rewrite Unsigned.of_to.
Qed.

(** C2 on the sample state: the teacher is stored already. *)
Lemma create_profile_duplicate_witness :
  dict_mem "teacher_001" (profiles sample_state) = true
  /\ ProfileStorage_create_profile "teacher_001" "Dr. Lisa Chen"
       (PJson (JInt 40)) (PJson (JStr "gym_teacher")) sample_state
     = (Raise (ValueError (msg_exists "teacher_001")), sample_state)
  /\ exists resp,
       create_profile "teacher_001" "Dr. Lisa Chen" (PJson (JInt 40))
         (PJson (JStr "gym_teacher")) sample_state = (Ok resp, sample_state)
       /\ status_code resp = 400.
Proof.
  split; [reflexivity|].
  destruct (create_profile_duplicate sample_state "teacher_001" "Dr. Lisa Chen"
              (PJson (JInt 40)) (PJson (JStr "gym_teacher")) eq_refl)
    as (H1 & _ & resp & H2 & H3 & _).
  split; [exact H1|]. exists resp. split; [exact H2|exact H3].
Defined.

(** C3 on the profile with two activities. *)
Lemma profile_round_trip_witness :
  valid_profile alice = true
  /\ exists d,
       UserProfile_to_dict alice = Ok d
       /\ UserProfile_from_dict d sample_state
          = (Ok alice, advance 3 sample_state).
Proof.
  split; [reflexivity|].
  destruct (profile_round_trip alice sample_state sample_iso_round_trip eq_refl)
    as (d & H1 & H2 & _).
  exists d. split; [exact H1|exact H2].
Defined.

(** Saving and reloading the sample state. *)
Lemma save_all_then_load_witness :
  wf_storage sample_state = true
  /\ exists file st1 st2,
       save_all sample_state = (Ok tt, st1)
       /\ dict_get "profiles.json" (disk st1) = Some file
       /\ ProfileStorage_init "profiles.json" st1 = (Ok tt, st2)
       /\ profiles st2 = profiles sample_state.
Proof.
  split; [reflexivity|].
  destruct (save_all_then_load sample_state sample_iso_round_trip eq_refl)
    as (file & st1 & H1 & H2 & (st2 & H3 & H4 & _) & _).
  exists file, st1, st2. repeat split; assumption.
Defined.

(** C5 on the durations 30, 45 and the calories 300, 350. *)
Lemma get_user_statistics_spec_witness :
  dict_get "student_001" (profiles sample_state) = Some alice
  /\ ints_of (map duration_minutes (activity_history alice)) = Some [30; 45]
  /\ ints_of (map calories_burned (activity_history alice)) = Some [300; 350]
  /\ exists resp,
    get_user_statistics "student_001" sample_state = (Ok resp, sample_state)
    /\ response_field resp "total_activity_time_minutes" = JInt 75
    /\ response_field resp "total_calories_burned" = JInt 650
    /\ response_field resp "average_calories_per_activity" = JInt 325.
Proof.
  destruct (get_user_statistics_spec sample_state "student_001" alice STUDENT
              [30; 45] [300; 350] eq_refl eq_refl eq_refl eq_refl)
    as (resp & avg & H1 & _ & _ & _ & H2 & H3 & H4 & _ & H5 & _).
  do 3 (split; [reflexivity|]).
  exists resp. repeat split; try assumption.
  rewrite H4. f_equal. destruct (H5 eq_refl) as [-> _]. reflexivity.
Defined.

(** C5 as stated fails on a profile with negative calories: the average of
    -3 calories over 2 activities is answered as -2, and the truncated
    quotient is -1. *)
Lemma get_user_statistics_floor_counterexample :
  exists resp,
    get_user_statistics "student_002" debtor_state = (Ok resp, debtor_state)
    /\ response_field resp "total_activities" = JInt 2
    /\ response_field resp "total_calories_burned" = JInt (-3)
    /\ response_field resp "average_calories_per_activity" = JInt (-2)
    /\ response_field resp "average_calories_per_activity"
       <> JInt (Z.quot (-3) 2).
Proof.
  eexists. split; [reflexivity|]. repeat split. discriminate.
Defined.

(** An unknown user, an age out of range, and the update of
    [test_api_views], which sets the age to 17. *)
Lemma update_profile_spec_witness :
  (dict_get "ghost" (profiles sample_state) = None
   /\ exists resp,
        update_profile "ghost" (mkKwargs None (Some (PJson (JInt 17))) None)
          sample_state = (Ok resp, sample_state)
        /\ status_code resp = 404)
  /\ (exists resp st',
        update_profile "student_001"
          (mkKwargs None (Some (PJson (JInt 200))) None) sample_state
        = (Ok resp, st')
        /\ status_code resp = 400)
  /\ (wf_storage sample_state = true
      /\ exists p' resp st',
           update_profile "student_001"
             (mkKwargs None (Some (PJson (JInt 17))) None) sample_state
           = (Ok resp, st')
           /\ status_code resp = 200
           /\ dict_get "student_001" (profiles st') = Some p'
           /\ age p' = JInt 17
           /\ name p' = name alice
           /\ role p' = role alice
           /\ activity_history p' = activity_history alice).
Proof.
  split; [|split].
  - split; [reflexivity|].
    destruct (update_profile_spec sample_state "ghost"
                (mkKwargs None (Some (PJson (JInt 17))) None)) as (H & _).
    destruct (H eq_refl) as (_ & resp & H1 & H2). now exists resp.
  - destruct (update_profile_spec sample_state "student_001"
                (mkKwargs None (Some (PJson (JInt 200))) None)) as (_ & H & _).
    exact (H alice eq_refl eq_refl).
  - split; [reflexivity|].
    destruct (update_profile_spec sample_state "student_001"
                (mkKwargs None (Some (PJson (JInt 17))) None)) as (_ & _ & H & _).
    destruct (H alice eq_refl eq_refl eq_refl eq_refl)
      as (p' & resp & items & payload & _ & H1 & H2 & _ & _ & _ & H3 & H4 & H5
          & _ & _ & H6).
    exists p', resp. eexists. split; [exact H1|]. split; [exact H2|].
    split; [apply dict_get_set_eq|]. repeat split; assumption.
Defined.

(** An empty activity type, an unknown user, and an activity added to
    a stored profile. *)
Lemma add_activity_spec_witness :
  (exists resp,
     add_activity "student_001" EmptyString (PJson (JInt 30)) (PJson (JInt 300))
       "Morning run" sample_state = (Ok resp, sample_state)
     /\ status_code resp = 400)
  /\ (exists resp,
        add_activity "student_001" "running" (PJson (JInt 30)) (PJson (JInt (-1)))
          "Morning run" sample_state = (Ok resp, sample_state)
        /\ status_code resp = 400)
  /\ (dict_get "ghost" (profiles sample_state) = None
      /\ exists resp,
           add_activity "ghost" "running" (PJson (JInt 30)) (PJson (JInt 300))
             "Morning run" sample_state = (Ok resp, sample_state)
           /\ status_code resp = 404)
  /\ (wf_storage sample_state = true
      /\ exists resp st',
           add_activity "student_001" "running" (PJson (JInt 30))
             (PJson (JInt 300)) "Morning run" sample_state = (Ok resp, st')
           /\ status_code resp = 201
           /\ response_field resp "stats"
              = JObj [ ("total_activities", JInt 3);
                       ("total_activity_time_minutes", JInt 105);
                       ("total_calories_burned", JInt 950) ]).
Proof.
  assert (Hd : positive_integer (PJson (JInt 30)))
    by (exists 30; split; [reflexivity|lia]).
  assert (Hc : non_negative_integer (PJson (JInt 300)))
    by (exists 300; split; [reflexivity|lia]).
  assert (Ha : "running" <> EmptyString) by discriminate.
  split; [|split; [|split]].
  - destruct (add_activity_spec sample_state "student_001" EmptyString
                (PJson (JInt 30)) (PJson (JInt 300)) "Morning run") as (H & _).
    exact (H (or_introl eq_refl)).
  - destruct (add_activity_spec sample_state "student_001" "running"
                (PJson (JInt 30)) (PJson (JInt (-1))) "Morning run") as (H & _).
    apply H. right. right. intros (n & [= <-] & Hn). lia.
  - split; [reflexivity|].
    destruct (add_activity_spec sample_state "ghost" "running"
                (PJson (JInt 30)) (PJson (JInt 300)) "Morning run")
      as (_ & H & _).
    exact (H Ha Hd Hc eq_refl).
  - split; [reflexivity|].
    destruct (add_activity_spec sample_state "student_001" "running"
                (PJson (JInt 30)) (PJson (JInt 300)) "Morning run")
      as (_ & _ & H).
    destruct (H Ha Hd Hc alice [30; 45] [300; 350] 30 300 eq_refl eq_refl
                eq_refl eq_refl eq_refl eq_refl)
      as (resp & st' & payload & items & H1 & H2 & _ & _ & _ & _ & H3 & _).
    exists resp, st'. repeat split; assumption.
Defined.

(** C8 on the sample state: the two students, in the order of the full
    list. *)
Lemma list_profiles_spec_witness :
  wf_storage sample_state = true
  /\ exists all,
       fst (list_profiles (PJson JNull) sample_state)
       = Ok (APIResponse_success (JList all) (MsgRetrieved 3) 200)
       /\ fst (list_profiles (PJson (JStr "student")) sample_state)
          = Ok (APIResponse_success (JList (filter (item_has_role STUDENT) all))
                  (MsgRetrieved 2) 200)
       /\ exists resp,
            list_profiles (PJson (JStr "teacher")) sample_state
            = (Ok resp, sample_state)
            /\ status_code resp = 400.
Proof.
  split; [reflexivity|].
  destruct (list_profiles_spec sample_state eq_refl)
    as (all & H1 & _ & H2 & H3 & _).
  exists all. split; [now rewrite H1|].
  split; [exact (f_equal fst (proj1 (H2 STUDENT)))|].
  exact (H3 (PJson (JStr "teacher")) eq_refl eq_refl).
Defined.

(** C8 as stated fails on the empty text: it is not the text of a role,
    and the answer is 200 with all the profiles. *)
Lemma list_profiles_empty_role_counterexample :
  in_role_names (PJson (JStr EmptyString)) = false
  /\ exists resp,
       list_profiles (PJson (JStr EmptyString)) sample_state
       = (Ok resp, sample_state)
       /\ status_code resp = 200
       /\ status_code resp <> 400
       /\ message resp = MsgRetrieved 3.
Proof.
  split; [reflexivity|]. eexists. split; [reflexivity|].
  repeat split. discriminate.
Defined.

(** No file; a file that is not JSON; a file whose second record has
    the age 200. *)
Lemma ProfileStorage_init_spec_witness :
  (dict_get "profiles.json" (disk sample_state) = None
   /\ ProfileStorage_init "profiles.json" sample_state
      = (Ok tt, mkState "profiles.json" [] 5 [] []))
  /\ (ProfileStorage_init "profiles.json" (state_with_file NotJson)
      = (Ok tt, mkState "profiles.json" [] 0 [ ("profiles.json", NotJson) ]
                  [ ErrorLoadingProfiles JSONDecodeError ]))
  /\ (age_ok (PJson (JInt 200)) = false
      /\ ProfileStorage_init "profiles.json"
           (state_with_file
              (Json (JObj [ ("u1", record_of_ann); ("u2", record_with_age_200) ])))
         = (Ok tt,
            mkState "profiles.json" [] 1
              [ ("profiles.json",
                 Json (JObj [ ("u1", record_of_ann);
                              ("u2", record_with_age_200) ])) ]
              [ ErrorLoadingProfiles (ValueError msg_age) ])).
Proof.
  split; [|split].
  - split; [reflexivity|].
    exact (proj1 (ProfileStorage_init_spec sample_state "profiles.json") eq_refl).
  - destruct (ProfileStorage_init_spec (state_with_file NotJson) "profiles.json")
      as (_ & H & _).
    exact (H eq_refl).
  - split; [reflexivity|].
    destruct (ProfileStorage_init_spec
                (state_with_file
                   (Json (JObj [ ("u1", record_of_ann);
                                 ("u2", record_with_age_200) ])))
                "profiles.json") as (_ & _ & H & _).
    exact (H _ _ _ eq_refl eq_refl eq_refl).
Defined.

(** C10: a name supplied with an age of 200, and a name and an age
    supplied with an unknown role. *)
Lemma update_profile_failure_state_witness :
  dict_get "student_001" (profiles sample_state) = Some alice
  /\ (exists resp st',
        update_profile "student_001"
          (mkKwargs (Some (JStr "Bob")) (Some (PJson (JInt 200))) None)
          sample_state = (Ok resp, st')
        /\ status_code resp = 400
        /\ disk st' = disk sample_state
        /\ dict_get "student_001" (profiles st')
           = Some (mkUserProfile (user_id alice) (JStr "Bob") (age alice)
                     (role alice) (activity_history alice) (created_at alice)))
  /\ (exists resp st',
        update_profile "student_001"
          (mkKwargs (Some (JStr "Bob")) (Some (PJson (JInt 17)))
             (Some (PJson (JStr "teacher"))))
          sample_state = (Ok resp, st')
        /\ status_code resp = 400
        /\ dict_get "student_001" (profiles st')
           = Some (mkUserProfile (user_id alice) (JStr "Bob") (JInt 17)
                     (role alice) (activity_history alice) (created_at alice))).
Proof.
  split; [reflexivity|]. split.
  - destruct (update_profile_failure_state sample_state "student_001"
                (mkKwargs (Some (JStr "Bob")) (Some (PJson (JInt 200))) None)
                alice eq_refl) as (H & _ & _).
    destruct (H eq_refl) as (resp & H1 & H2 & H3).
    exists resp. eexists. split; [exact H1|]. split; [exact H2|].
    split; [reflexivity|exact H3].
  - destruct (update_profile_failure_state sample_state "student_001"
                (mkKwargs (Some (JStr "Bob")) (Some (PJson (JInt 17)))
                   (Some (PJson (JStr "teacher"))))
                alice eq_refl) as (_ & H & _).
    destruct (H eq_refl eq_refl) as (resp & H1 & H2 & H3).
    exists resp. eexists. split; [exact H1|]. split; [exact H2|exact H3].
Defined.

(** C10 as stated fails: the update of a name together with an age of 200
    is answered 400, and the stored profile has the new name. *)
Lemma update_profile_not_atomic_counterexample :
  exists resp st',
    update_profile "student_001"
      (mkKwargs (Some (JStr "Bob")) (Some (PJson (JInt 200))) None)
      sample_state = (Ok resp, st')
    /\ status_code resp = 400
    /\ option_map name (dict_get "student_001" (profiles sample_state))
       = Some (JStr "Alice Johnson")
    /\ option_map name (dict_get "student_001" (profiles st'))
       = Some (JStr "Bob")
    /\ dict_get "student_001" (profiles st')
       <> dict_get "student_001" (profiles sample_state).
Proof.
  eexists. eexists. split; [reflexivity|]. repeat split. discriminate.
Defined.

End Samples.

(** ** Further properties of the storage and the views *)

Section MoreDictFacts.

Context {V : Type}.
Implicit Types (d : dict V) (k : string) (v : V).

Lemma dict_get_del_neq k k' d :
  k <> k' -> dict_get k (dict_del k' d) = dict_get k d.
Proof.
  intros Hne. induction d as [|[k0 v0] d IH]; simpl; [reflexivity|].
  destruct (String.eqb_spec k0 k'); simpl.
  - subst. destruct (String.eqb_spec k' k); congruence.
  - now rewrite IH.
Qed.

Lemma dict_keys_del_incl k k0 d :
  existsb (String.eqb k0) (dict_keys (dict_del k d)) = true ->
  existsb (String.eqb k0) (dict_keys d) = true.
Proof.
  induction d as [|[k1 v1] d IH]; simpl; [auto|].
  destruct (String.eqb k1 k); simpl.
  - intros ->. apply orb_true_r.
  - destruct (String.eqb k0 k1); simpl; auto.
Qed.

Lemma unique_keys_del k d :
  unique_keys (dict_keys d) = true -> unique_keys (dict_keys (dict_del k d)) = true.
Proof.
  induction d as [|[k1 v1] d IH]; simpl; [auto|].
  intros H. apply andb_prop in H. destruct H as [Hn Hu].
  destruct (String.eqb k1 k); simpl; [exact Hu|].
  rewrite IH by exact Hu. rewrite andb_true_r.
  destruct (existsb (String.eqb k1) (dict_keys (dict_del k d))) eqn:E; [|reflexivity].
  apply dict_keys_del_incl in E. unfold dict_keys in *. simpl in *.
  rewrite E in Hn. discriminate.
Qed.

Lemma dict_get_del_eq k d :
  unique_keys (dict_keys d) = true -> dict_get k (dict_del k d) = None.
Proof.
  induction d as [|[k1 v1] d IH]; simpl; [reflexivity|].
  intros H. apply andb_prop in H. destruct H as [Hn Hu].
  destruct (String.eqb_spec k1 k); simpl.
  - subst k1. pose proof (dict_mem_existsb k d) as Hm. unfold dict_mem in Hm.
    unfold dict_keys in *. simpl in *. destruct (dict_get k d); [|reflexivity].
    rewrite <- Hm in Hn. discriminate.
  - destruct (String.eqb_spec k1 k); [congruence|]. now apply IH.
Qed.

Lemma forallb_dict_del (Q : V -> bool) k d :
  forallb (fun kv => Q (snd kv)) d = true ->
  forallb (fun kv => Q (snd kv)) (dict_del k d) = true.
Proof.
  induction d as [|[k1 v1] d IH]; simpl; [auto|].
  intros H. apply andb_prop in H. destruct H as [H1 H2].
  destruct (String.eqb k1 k); simpl; [exact H2|]. now rewrite H1, IH.
Qed.

Lemma dict_values_del_length k d :
  dict_mem k d = true ->
  S (List.length (dict_values (dict_del k d))) = List.length (dict_values d).
Proof.
  unfold dict_mem. induction d as [|[k1 v1] d IH]; simpl; [discriminate|].
  destruct (String.eqb k1 k); simpl; [reflexivity|].
  intros H. now rewrite IH.
Qed.

End MoreDictFacts.

Section MoreProperties.

Context {DT : DatetimeLib}.

Ltac run :=
  unfold bind, ret, raise, lift, get_state, set_profiles, set_storage_file,
    write_file, print, store_profile, now; simpl.

(** *** Creating a profile through the view *)

Lemma wf_with_new_profile (st : State) (uid : string) (p : UserProfile) :
  wf_storage st = true ->
  dict_mem uid (profiles st) = false ->
  valid_profile p = true ->
  wf_storage (with_new_profile uid p st) = true.
Proof.
  intros Hwf Hmem Hv. destruct (wf_storage_inv st Hwf) as [Hu Hall].
  unfold wf_storage, with_new_profile. simpl.
  unfold dict_keys. rewrite map_app. simpl.
  rewrite unique_keys_app_fresh. fold (dict_keys (profiles st)).
  rewrite Hu, <- dict_mem_existsb, Hmem. simpl.
  rewrite forallb_app, Hall. simpl. now rewrite Hv.
Qed.

Lemma in_role_names_inv (role_arg : pyval) :
  in_role_names role_arg = true ->
  exists r, role_arg = PJson (JStr (UserRole_value r)).
Proof.
  destruct role_arg as [[| | |s| |]|r]; simpl; try discriminate.
  destruct (String.eqb_spec s "student"); [subst; now exists STUDENT|].
  destruct (String.eqb_spec s "gym_teacher"); [subst; now exists GYM_TEACHER|].
  discriminate.
Qed.

Lemma create_profile_stored (st : State) (uid nm : string) (age_arg : pyval)
    (r : UserRole) :
  wf_storage st = true ->
  dict_mem uid (profiles st) = false ->
  age_ok age_arg = true ->
  exists items,
    profiles_to_dicts
      (profiles st
       ++ [(uid, mkUserProfile (JStr uid) (JStr nm) (as_json age_arg) (PEnum r) []
                   (time_at (clock st)))]) = Ok items
    /\ ProfileStorage_create_profile uid nm age_arg
         (PJson (JStr (UserRole_value r))) st
       = (Ok (mkUserProfile (JStr uid) (JStr nm) (as_json age_arg) (PEnum r) []
                (time_at (clock st))),
          saved items
            (with_new_profile uid
               (mkUserProfile (JStr uid) (JStr nm) (as_json age_arg) (PEnum r) []
                  (time_at (clock st))) st)).
Proof.
  intros Hwf Hmem Hage.
  set (p := mkUserProfile (JStr uid) (JStr nm) (as_json age_arg) (PEnum r) []
              (time_at (clock st))).
  assert (Hv : valid_profile p = true).
  { unfold valid_profile. simpl. now rewrite (age_ok_as_json _ Hage). }
  pose proof (wf_with_new_profile st uid p Hwf Hmem Hv) as Hwf'.
  destruct (save_all_valid _ Hwf') as (items & Hitems & _ & Hsave).
  exists items. split; [exact Hitems|].
  unfold ProfileStorage_create_profile, UserProfile_init. run.
  rewrite Hmem, Hage. run. rewrite UserRole_of_value_value. run.
  rewrite dict_set_fresh by exact Hmem. fold p.
  unfold with_new_profile in Hsave. rewrite Hsave. reflexivity.
Qed.

Lemma saved_synced (items : dict json) (st : State) :
  profiles_to_dicts (profiles st) = Ok items -> synced (saved items st).
Proof.
  intros H. exists items. split; [exact H|]. simpl. apply dict_get_set_eq.
Qed.

(** X1: [create_profile] of the views.  It answers 400, the state
    untouched, when the user_id or the name is empty, the age is not an
    integer between 0 and 150, the role is not one of the two texts, or the
    user_id is stored already.  Otherwise, in a well-formed storage, it
    answers 201 with the serialized new profile: the profile has the given
    user_id, name and age, the member of the role text, no activity and the
    time of the clock; it is stored after the profiles already there, the
    file is saved, the storage stays well formed, and [get_profile] then
    answers with the same payload. *)
Theorem create_profile_view_spec (st : State) (uid nm : string)
    (age_arg role_arg : pyval) :
  (str_truthy uid && str_truthy nm && age_ok age_arg && in_role_names role_arg
   && negb (dict_mem uid (profiles st)) = false ->
     exists resp,
       create_profile uid nm age_arg role_arg st = (Ok resp, st)
       /\ status_code resp = 400)
  /\ (str_truthy uid && str_truthy nm && age_ok age_arg && in_role_names role_arg
      && negb (dict_mem uid (profiles st)) = true ->
      wf_storage st = true ->
      exists (r : UserRole) (resp : Response) (st' : State) (payload : json),
        role_arg = PJson (JStr (UserRole_value r))
        /\ create_profile uid nm age_arg role_arg st = (Ok resp, st')
        /\ status_code resp = 201
        /\ data resp = Some payload
        /\ UserProfileSerializer_serialize
             (mkUserProfile (JStr uid) (JStr nm) (as_json age_arg) (PEnum r) []
                (time_at (clock st))) = Ok payload
        /\ profiles st'
           = profiles st
             ++ [(uid, mkUserProfile (JStr uid) (JStr nm) (as_json age_arg)
                         (PEnum r) [] (time_at (clock st)))]
        /\ wf_storage st' = true
        /\ synced st'
        /\ get_profile uid st'
           = (Ok (APIResponse_success payload
                    (Msg "Profile retrieved successfully") 200), st')).
Proof.
  split.
  - intros H. unfold create_profile, except_ValueError_Exception, try_except.
    destruct (str_truthy uid); simpl in *; [|run; eexists; split; reflexivity].
    destruct (str_truthy nm); simpl in *; [|run; eexists; split; reflexivity].
    destruct (age_ok age_arg); simpl in *; [|run; eexists; split; reflexivity].
    destruct (in_role_names role_arg); simpl in *;
      [|run; eexists; split; reflexivity].
    destruct (dict_mem uid (profiles st)) eqn:Hm; [|discriminate].
    unfold ProfileStorage_create_profile. run. rewrite Hm. simpl.
    eexists. split; reflexivity.
  - intros H Hwf.
    apply andb_prop in H. destruct H as [H Hm].
    apply andb_prop in H. destruct H as [H Hr].
    apply andb_prop in H. destruct H as [H Ha].
    apply andb_prop in H. destruct H as [Hu Hn].
    apply negb_true_iff in Hm.
    destruct (in_role_names_inv _ Hr) as [r ->].
    set (p := mkUserProfile (JStr uid) (JStr nm) (as_json age_arg) (PEnum r) []
                (time_at (clock st))).
    assert (Hv : valid_profile p = true).
    { unfold valid_profile. simpl. now rewrite (age_ok_as_json _ Ha). }
    destruct (create_profile_stored st uid nm age_arg r Hwf Hm Ha)
      as (items & Hitems & Hcreate).
    fold p in Hitems, Hcreate.
    exists r. eexists. exists (saved items (with_new_profile uid p st)). eexists.
    split; [reflexivity|]. split.
    { unfold create_profile, except_ValueError_Exception, try_except.
      rewrite Hu, Hn, Ha, Hr. cbn [negb orb].
      unfold bind at 1. rewrite Hcreate. run. reflexivity. }
    split; [reflexivity|]. split; [reflexivity|].
    split; [reflexivity|].
    split; [reflexivity|].
    split; [now apply wf_with_new_profile|].
    split; [now apply saved_synced|].
    unfold get_profile, except_Exception, try_except, ProfileStorage_get_profile.
    run.
    assert (Hg : dict_get uid (profiles st ++ [(uid, p)]) = Some p).
    { rewrite <- (dict_set_fresh uid p (profiles st) Hm). apply dict_get_set_eq. }
    rewrite Hg. reflexivity.
Qed.

(** *** Deleting a profile *)

Lemma wf_without_profile (st : State) (uid : string) :
  wf_storage st = true -> wf_storage (without_profile uid st) = true.
Proof.
  intros Hwf. destruct (wf_storage_inv st Hwf) as [Hu Hall].
  unfold wf_storage, without_profile. simpl.
  rewrite unique_keys_del by exact Hu. simpl.
  now apply forallb_dict_del.
Qed.

Lemma delete_profile_missing (st : State) (uid : string) :
  dict_mem uid (profiles st) = false ->
  ProfileStorage_delete_profile uid st = (Ok false, st).
Proof.
  intros H. unfold ProfileStorage_delete_profile. run. now rewrite H.
Qed.

Lemma delete_profile_found (st : State) (uid : string) :
  wf_storage st = true ->
  dict_mem uid (profiles st) = true ->
  exists items,
    profiles_to_dicts (dict_del uid (profiles st)) = Ok items
    /\ ProfileStorage_delete_profile uid st
       = (Ok true, saved items (without_profile uid st)).
Proof.
  intros Hwf Hmem.
  destruct (save_all_valid _ (wf_without_profile st uid Hwf))
    as (items & Hitems & _ & Hsave).
  exists items. split; [exact Hitems|].
  unfold ProfileStorage_delete_profile. run. rewrite Hmem. run.
  unfold without_profile in Hsave. rewrite Hsave. reflexivity.
Qed.

(** X2: [delete_profile].  For a user_id that is not stored the storage
    returns [False] and the view answers 404, the state untouched.  For a
    stored user_id, in a well-formed storage, the storage returns [True] and
    the view answers 200 with the payload [None]; the profile is gone, so
    [get_profile] then answers 404, one profile less is listed, the other
    profiles are found as before, the file is saved and the storage stays
    well formed. *)
Theorem delete_profile_spec (st : State) (uid : string) :
  (dict_mem uid (profiles st) = false ->
     ProfileStorage_delete_profile uid st = (Ok false, st)
     /\ delete_profile uid st
        = (Ok (APIResponse_error (Msg (msg_not_found uid)) 404), st))
  /\ (dict_mem uid (profiles st) = true ->
      wf_storage st = true ->
      exists st',
        fst (ProfileStorage_delete_profile uid st) = Ok true
        /\ delete_profile uid st
           = (Ok (APIResponse_success JNull (Msg "Profile deleted successfully")
                    200), st')
        /\ profiles st' = dict_del uid (profiles st)
        /\ dict_get uid (profiles st') = None
        /\ (forall uid', uid' <> uid ->
              dict_get uid' (profiles st') = dict_get uid' (profiles st))
        /\ S (List.length (dict_values (profiles st')))
           = List.length (dict_values (profiles st))
        /\ wf_storage st' = true
        /\ synced st'
        /\ get_profile uid st'
           = (Ok (APIResponse_error (Msg (msg_not_found uid)) 404), st')).
Proof.
  split.
  - intros Hmem. pose proof (delete_profile_missing st uid Hmem) as Hs.
    split; [exact Hs|].
    unfold delete_profile, except_Exception, try_except.
    unfold bind at 1. now rewrite Hs.
  - intros Hmem Hwf.
    destruct (delete_profile_found st uid Hwf Hmem) as (items & Hitems & Hs).
    destruct (wf_storage_inv st Hwf) as [Hu _].
    exists (saved items (without_profile uid st)).
    split; [now rewrite Hs|]. split.
    { unfold delete_profile, except_Exception, try_except.
      unfold bind at 1. now rewrite Hs. }
    split; [reflexivity|].
    split; [simpl; now apply dict_get_del_eq|].
    split; [intros uid' Hne; simpl; now apply dict_get_del_neq|].
    split; [simpl; now apply dict_values_del_length|].
    split; [now apply wf_without_profile|].
    split; [now apply saved_synced|].
    unfold get_profile, except_Exception, try_except, ProfileStorage_get_profile.
    run. now rewrite dict_get_del_eq.
Qed.

(** *** Answers of the views *)

Lemma answers_ret (P : Response -> Prop) (r : Response) : P r -> answers P (ret r).
Proof. intros H st r' st' [= <- _]. exact H. Qed.

Lemma answers_bind {A : Type} (P : Response -> Prop) (m : M A) (k : A -> M Response) :
  (forall a, answers P (k a)) -> answers P (bind m k).
Proof.
  intros Hk st r st'. unfold bind.
  destruct (m st) as [[a|e] st1]; [apply Hk|discriminate].
Qed.

Lemma answers_try (P : Response -> Prop) (m : M Response) (handles : exn -> bool)
    (handler : exn -> M Response) :
  answers P m -> (forall e, answers P (handler e)) ->
  answers P (try_except m handles handler).
Proof.
  intros Hm Hh st r st'. unfold try_except.
  destruct (m st) as [[a|e] st1] eqn:E.
  - intros [= <- <-]. exact (Hm _ _ _ E).
  - destruct (handles e); [apply Hh|discriminate].
Qed.

Lemma never_raises_try (m : M Response) (handler : exn -> M Response) :
  (forall e, never_raises (handler e)) ->
  never_raises (try_except m (fun _ => true) handler).
Proof.
  intros Hh st. unfold try_except.
  destruct (m st) as [[a|e] st1]; [eauto|apply Hh].
Qed.

Lemma never_raises_ret {A : Type} (a : A) : never_raises (ret a).
Proof. intros st. now exists a, st. Qed.

Lemma except_ValueError_Exception_shape (m : M Response) :
  answers (fun r => response_shape r = true) m ->
  never_raises (except_ValueError_Exception m)
  /\ answers (fun r => response_shape r = true) (except_ValueError_Exception m).
Proof.
  intros Hm. unfold except_ValueError_Exception. split.
  - apply never_raises_try. intros e.
    destruct (is_ValueError e); apply never_raises_ret.
  - apply answers_try; [exact Hm|]. intros e.
    destruct (is_ValueError e); now apply answers_ret.
Qed.

Lemma except_Exception_shape (m : M Response) :
  answers (fun r => response_shape r = true) m ->
  never_raises (except_Exception m)
  /\ answers (fun r => response_shape r = true) (except_Exception m).
Proof.
  intros Hm. unfold except_Exception. split.
  - apply never_raises_try. intros e. apply never_raises_ret.
  - apply answers_try; [exact Hm|]. intros e. now apply answers_ret.
Qed.

Lemma answers_raise (P : Response -> Prop) (e : exn) : answers P (raise e).
Proof. intros st r st'. discriminate. Qed.

Ltac shape :=
  repeat first
    [ apply answers_ret; reflexivity
    | apply answers_raise
    | apply answers_bind; intros ?
    | match goal with
      | |- answers _ (if ?b then _ else _) => destruct b
      | |- answers _ (match ?x with _ => _ end) => destruct x
      end ].

(** X3: the views raise no exception, whatever the state and the
    arguments: each of the seven returns an answer, and the answer has one
    of the status codes 200, 201, 400, 404 and 500, is a success exactly
    with 200 and 201, and carries a payload exactly when it is a success. *)
Theorem views_always_answer :
  (forall uid nm age_arg role_arg,
     never_raises (create_profile uid nm age_arg role_arg)
     /\ answers (fun r => response_shape r = true)
          (create_profile uid nm age_arg role_arg))
  /\ (forall uid,
        never_raises (get_profile uid)
        /\ answers (fun r => response_shape r = true) (get_profile uid))
  /\ (forall uid kw,
        never_raises (update_profile uid kw)
        /\ answers (fun r => response_shape r = true) (update_profile uid kw))
  /\ (forall uid,
        never_raises (delete_profile uid)
        /\ answers (fun r => response_shape r = true) (delete_profile uid))
  /\ (forall role_arg,
        never_raises (list_profiles role_arg)
        /\ answers (fun r => response_shape r = true) (list_profiles role_arg))
  /\ (forall uid aty d c nts,
        never_raises (add_activity uid aty d c nts)
        /\ answers (fun r => response_shape r = true)
             (add_activity uid aty d c nts))
  /\ (forall uid,
        never_raises (get_user_statistics uid)
        /\ answers (fun r => response_shape r = true) (get_user_statistics uid)).
Proof.
  unfold create_profile, get_profile, update_profile, delete_profile,
    list_profiles, add_activity, get_user_statistics.
  do 6 (split;
        [intros;
         first [apply except_ValueError_Exception_shape
               |apply except_Exception_shape]; shape|]).
  intros. apply except_Exception_shape. shape.
Qed.

(** *** Reading *)

Lemma read_only_ret {A : Type} (a : A) : read_only (ret a).
Proof. intros st. reflexivity. Qed.

Lemma read_only_raise {A : Type} (e : exn) : read_only (@raise _ A e).
Proof. intros st. reflexivity. Qed.

Lemma read_only_lift {A : Type} (r : result A) : read_only (lift r).
Proof. intros st. reflexivity. Qed.

Lemma read_only_get_state : read_only get_state.
Proof. intros st. reflexivity. Qed.

Lemma read_only_bind {A B : Type} (m : M A) (k : A -> M B) :
  read_only m -> (forall a, read_only (k a)) -> read_only (bind m k).
Proof.
  intros Hm Hk st. unfold bind. specialize (Hm st).
  destruct (m st) as [[a|e] st1]; simpl in Hm; subst st1; [apply Hk|reflexivity].
Qed.

Lemma read_only_try {A : Type} (m : M A) (handles : exn -> bool)
    (handler : exn -> M A) :
  read_only m -> (forall e, read_only (handler e)) ->
  read_only (try_except m handles handler).
Proof.
  intros Hm Hh st. unfold try_except. specialize (Hm st).
  destruct (m st) as [[a|e] st1]; simpl in Hm; subst st1; [reflexivity|].
  destruct (handles e); [apply Hh|reflexivity].
Qed.

Ltac reading :=
  repeat first
    [ apply read_only_ret
    | apply read_only_raise
    | apply read_only_lift
    | apply read_only_get_state
    | apply read_only_bind; [|intros ?]
    | apply read_only_try; [|intros ?]
    | match goal with
      | |- read_only (if ?b then _ else _) => destruct b
      | |- read_only (match ?x with _ => _ end) => destruct x
      end ].

(** X4: reading does not write.  [get_profile], [list_profiles] and
    [get_user_statistics] of the views, and [get_profile],
    [get_all_profiles] and [get_profiles_by_role] of the storage, return the
    state they were given, whatever it holds and whatever they answer; a
    read repeated at once gives the same answer. *)
Theorem reads_leave_state :
  (forall uid, read_only (get_profile uid))
  /\ (forall role_arg, read_only (list_profiles role_arg))
  /\ (forall uid, read_only (get_user_statistics uid))
  /\ (forall uid, read_only (ProfileStorage_get_profile uid))
  /\ read_only ProfileStorage_get_all_profiles
  /\ (forall role_arg, read_only (ProfileStorage_get_profiles_by_role role_arg))
  /\ (forall uid st, get_profile uid (snd (get_profile uid st)) = get_profile uid st)
  /\ (forall role_arg st,
        list_profiles role_arg (snd (list_profiles role_arg st))
        = list_profiles role_arg st)
  /\ (forall uid st,
        get_user_statistics uid (snd (get_user_statistics uid st))
        = get_user_statistics uid st).
Proof.
  assert (H1 : forall uid, read_only (get_profile uid)).
  { intros uid. unfold get_profile, except_Exception, ProfileStorage_get_profile.
    reading. }
  assert (H2 : forall role_arg, read_only (list_profiles role_arg)).
  { intros role_arg. unfold list_profiles, except_Exception,
      ProfileStorage_get_profiles_by_role, ProfileStorage_get_all_profiles.
    reading. }
  assert (H3 : forall uid, read_only (get_user_statistics uid)).
  { intros uid. unfold get_user_statistics, except_Exception,
      ProfileStorage_get_profile. reading. }
  split; [exact H1|]. split; [exact H2|]. split; [exact H3|].
  split; [intros uid; unfold ProfileStorage_get_profile; reading|].
  split; [unfold ProfileStorage_get_all_profiles; reading|].
  split; [intros r; unfold ProfileStorage_get_profiles_by_role; reading|].
  split; [intros uid st; now rewrite H1|].
  split; [intros r st; now rewrite H2|].
  intros uid st. now rewrite H3.
Qed.

(** *** Restarting *)

Lemma synced_decodes (st : State) (items : dict json) :
  iso_round_trip ->
  wf_storage st = true ->
  profiles_to_dicts (profiles st) = Ok items ->
  Forall2 decodes_to items (profiles st).
Proof.
  intros Hiso Hwf Hitems. destruct (wf_storage_inv st Hwf) as [_ Hv].
  destruct (profiles_to_dicts_valid _ Hv) as (items' & Hitems' & _ & Hall).
  rewrite Hitems in Hitems'. injection Hitems' as <-.
  exact (proj1 (encoded_decodes items (profiles st) Hiso Hv Hall (fun _ => JNull))).
Qed.

Lemma init_ignores_profiles (path : string) (st : State) (ps : dict UserProfile) :
  ProfileStorage_init path
    (mkState (storage_file st) ps (clock st) (disk st) (stdout st))
  = ProfileStorage_init path st.
Proof. reflexivity. Qed.

Lemma reload_synced (st : State) (ps : dict UserProfile) :
  iso_round_trip ->
  wf_storage st = true ->
  synced st ->
  ProfileStorage_init (storage_file st)
    (mkState (storage_file st) ps (clock st) (disk st) (stdout st))
  = (Ok tt,
     mkState (storage_file st) (profiles st) (readings (profiles st) + clock st)
       (disk st) (stdout st)).
Proof.
  intros Hiso Hwf (items & Hitems & Hfile).
  destruct (wf_storage_inv st Hwf) as [Hu _].
  pose proof (synced_decodes st items Hiso Hwf Hitems) as Hdec.
  rewrite init_ignores_profiles.
  exact (load_all_decodes items (profiles st) st Hdec Hu Hfile).
Qed.

(** X5: a restart brings back what was saved.  When the storage is well
    formed and its file holds the records of its profiles, a storage object
    constructed on the same file holds the same profiles in the same order,
    and prints nothing; what the dict of the process held before the
    construction plays no part. *)
Theorem restart_restores_profiles (st : State) (ps : dict UserProfile) :
  iso_round_trip ->
  wf_storage st = true ->
  synced st ->
  exists st2,
    ProfileStorage_init (storage_file st)
      (mkState (storage_file st) ps (clock st) (disk st) (stdout st))
    = (Ok tt, st2)
    /\ profiles st2 = profiles st
    /\ storage_file st2 = storage_file st
    /\ disk st2 = disk st
    /\ stdout st2 = stdout st.
Proof.
  intros Hiso Hwf Hsync.
  rewrite (reload_synced st ps Hiso Hwf Hsync).
  eexists. repeat split.
Qed.

(** *** What the mutating views keep *)

Lemma valid_apply_name (kw : kwargs) (p : UserProfile) :
  valid_profile p = true -> valid_profile (apply_name kw p) = true.
Proof. unfold apply_name. now destruct (kw_name kw). Qed.

Lemma valid_apply_age (kw : kwargs) (p : UserProfile) :
  kw_age_ok kw = true ->
  valid_profile p = true -> valid_profile (apply_age kw p) = true.
Proof.
  unfold apply_age, kw_age_ok. destruct (kw_age kw) as [a|]; [|auto].
  intros Ha. unfold valid_profile. simpl. intros H.
  apply andb_prop in H. destruct H as [H Hh].
  apply andb_prop in H. destruct H as [_ Hm].
  now rewrite (age_ok_as_json _ Ha), Hm, Hh.
Qed.

Lemma duration_ok_is_int (v : pyval) : duration_ok v = true -> is_int (as_json v) = true.
Proof.
  unfold duration_ok, is_int. destruct v as [j|r]; simpl; [|discriminate].
  now destruct (json_int j).
Qed.

Lemma calories_ok_is_int (v : pyval) : calories_ok v = true -> is_int (as_json v) = true.
Proof.
  unfold calories_ok, is_int. destruct v as [j|r]; simpl; [|discriminate].
  now destruct (json_int j).
Qed.

(** X6: [add_activity] keeps the storage in order.  In a well-formed
    storage every call leaves the storage well formed; an answer other than
    201 leaves the state untouched, and an answer 201 leaves the file holding
    the records of the profiles in memory. *)
Theorem add_activity_keeps_storage (st st' : State) (uid aty : string)
    (d c : pyval) (nts : string) (resp : Response) :
  wf_storage st = true ->
  add_activity uid aty d c nts st = (Ok resp, st') ->
  wf_storage st' = true
  /\ (status_code resp <> 201 -> st' = st)
  /\ (status_code resp = 201 -> synced st').
Proof.
  intros Hwf. unfold add_activity, except_ValueError_Exception, try_except.
  destruct (str_truthy aty); simpl;
    [|run; intros [= <- <-]; repeat split; auto; discriminate].
  destruct (duration_ok d) eqn:Ed; simpl;
    [|run; intros [= <- <-]; repeat split; auto; discriminate].
  destruct (calories_ok c) eqn:Ec; simpl;
    [|run; intros [= <- <-]; repeat split; auto; discriminate].
  unfold bind at 1.
  destruct (dict_get uid (profiles st)) as [p|] eqn:Hget.
  - destruct (add_activity_to_profile_found st uid p (JStr aty) (as_json d)
                (as_json c) (JStr nts) Hwf Hget (duration_ok_is_int _ Ed)
                (calories_ok_is_int _ Ec)) as (items & Hitems & Hadd).
    rewrite Hadd. cbn [negb].
    set (p' := append_activity
                 (mkActivityEntry (JStr aty) (as_json d) (as_json c)
                    (time_at (clock st)) (JStr nts)) p) in *.
    assert (Hv : valid_profile p' = true).
    { apply valid_append_activity; [now apply (wf_stored_valid st uid)|].
      unfold valid_activity. simpl.
      now rewrite (duration_ok_is_int _ Ed), (calories_ok_is_int _ Ec). }
    destruct (to_dict_valid p' Hv) as (r & ds & cs & _ & _ & _ & Hto).
    unfold ProfileStorage_get_profile. run. rewrite dict_get_set_eq. run.
    fold p'. rewrite serialize_is_to_dict, Hto. simpl.
    intros [= <- <-]. split; [|split].
    + apply (wf_with_profile (advance 1 st) uid p); auto.
    + intros H. now contradiction H.
    + intros _. apply (saved_synced items (with_profile uid p' (advance 1 st))).
      exact Hitems.
  - rewrite add_activity_to_profile_missing by exact Hget. run.
    intros [= <- <-]. repeat split; auto; discriminate.
Qed.

(** X7: [update_profile] keeps the profiles valid.  In a well-formed
    storage, for a role given as a text or a member, every call leaves the
    storage well formed, also when it answers 400 after applying some of the
    fields; an answer 404 leaves the state untouched, and an answer 200
    leaves the file holding the records of the profiles in memory. *)
Theorem update_profile_keeps_valid (st st' : State) (uid : string) (kw : kwargs)
    (resp : Response) :
  wf_storage st = true ->
  kw_role_typed kw = true ->
  update_profile uid kw st = (Ok resp, st') ->
  wf_storage st' = true
  /\ (status_code resp = 404 -> st' = st)
  /\ (status_code resp = 200 -> synced st').
Proof.
  intros Hwf Hty. unfold update_profile, except_ValueError_Exception, try_except.
  unfold bind at 1.
  destruct (dict_get uid (profiles st)) as [p|] eqn:Hget.
  - pose proof (wf_stored_valid st uid p Hwf Hget) as Hp.
    destruct (kw_age_ok kw) eqn:Ea.
    + destruct (kw_role_ok kw) eqn:Er.
      * set (p' := apply_role kw (apply_age kw (apply_name kw p))).
        assert (Hv : valid_profile p' = true) by now apply valid_updated.
        assert (Hwf' : wf_storage (with_profile uid p' st) = true)
          by now apply (wf_with_profile st uid p).
        destruct (save_all_valid _ Hwf') as (items & Hitems & _ & Hsave).
        rewrite (update_profile_stores st uid kw p items Hget Ea Er Hsave).
        fold p'. destruct (to_dict_valid p' Hv) as (r & ds & cs & _ & _ & _ & Hto).
        run. rewrite serialize_is_to_dict, Hto. simpl.
        intros [= <- <-]. split; [exact Hwf'|]. split; [discriminate|].
        intros _. now apply saved_synced.
      * destruct (update_profile_role_fails st uid kw p Hget Ea Er)
          as (s & _ & Hs).
        rewrite Hs. run. intros [= <- <-].
        split; [|split; discriminate].
        apply (wf_with_profile st uid p); auto.
        apply valid_apply_age; auto. now apply valid_apply_name.
    + rewrite (update_profile_age_fails st uid kw p Hget Ea). run.
      intros [= <- <-]. split; [|split; discriminate].
      apply (wf_with_profile st uid p); auto. now apply valid_apply_name.
  - rewrite (update_profile_missing st uid kw Hget). run.
    intros [= <- <-]. repeat split; auto; discriminate.
Qed.

(** X8: an update that fails is undone by a restart.  When the storage is
    well formed and its file holds the records of its profiles, an update
    that answers 400 leaves the file as it was, whatever it applied to the
    profile in memory: a storage object then constructed on the file holds
    the profiles as they were before the update. *)
Theorem failed_update_reverts_on_restart (st : State) (uid : string)
    (kw : kwargs) (p : UserProfile) :
  iso_round_trip ->
  wf_storage st = true ->
  synced st ->
  dict_get uid (profiles st) = Some p ->
  kw_age_ok kw && kw_role_ok kw = false ->
  exists resp st' st2,
    update_profile uid kw st = (Ok resp, st')
    /\ status_code resp = 400
    /\ disk st' = disk st
    /\ ProfileStorage_init (storage_file st') st' = (Ok tt, st2)
    /\ profiles st2 = profiles st.
Proof.
  intros Hiso Hwf Hsync Hget Hbad.
  assert (Hre : forall q,
            ProfileStorage_init (storage_file (with_profile uid q st))
              (with_profile uid q st)
            = (Ok tt,
               mkState (storage_file st) (profiles st)
                 (readings (profiles st) + clock st) (disk st) (stdout st))).
  { intros q. exact (reload_synced st _ Hiso Hwf Hsync). }
  unfold update_profile, except_ValueError_Exception, try_except.
  unfold bind at 1.
  destruct (kw_age_ok kw) eqn:Ea; simpl in Hbad.
  - destruct (update_profile_role_fails st uid kw p Hget Ea Hbad) as (s & _ & Hs).
    rewrite Hs. run. eexists. eexists. eexists.
    split; [reflexivity|]. split; [reflexivity|]. split; [reflexivity|].
    split; [apply (Hre (apply_age kw (apply_name kw p)))|reflexivity].
  - rewrite (update_profile_age_fails st uid kw p Hget Ea). run.
    eexists. eexists. eexists.
    split; [reflexivity|]. split; [reflexivity|]. split; [reflexivity|].
    split; [apply (Hre (apply_name kw p))|reflexivity].
Qed.

(** *** The storage in memory *)

Lemma role_stored_member (role_arg : pyval) :
  role_typed role_arg = true -> role_accepted role_arg = true ->
  is_member (role_stored role_arg) = true.
Proof.
  destruct role_arg as [[| | |s| |]|r]; simpl; try discriminate; auto.
  now destruct (UserRole_of_value s).
Qed.

Lemma same_but_disk_saved (items : dict json) (st : State) :
  same_but_disk (saved items st) st.
Proof. repeat split. Qed.

Lemma same_but_disk_refl (st : State) : same_but_disk st st.
Proof. repeat split. Qed.

(** X9: the two storages are interchangeable.  From a well-formed state,
    [create_profile] (for a role given as a text or a member),
    [delete_profile] and [add_activity_to_profile] (for an integer duration
    and integer calories) of the storage in memory return what those of the
    durable storage return, raise what they raise, and leave the same
    profiles and clock; the states differ in the files only.  [get_profile]
    and [get_all_profiles] are the same computations. *)
Theorem in_memory_agrees_with_durable (st : State) :
  wf_storage st = true ->
  (forall uid nm age_arg role_arg,
     role_typed role_arg = true ->
     fst (InMemoryProfileStorage_create_profile uid nm age_arg role_arg st)
     = fst (ProfileStorage_create_profile uid nm age_arg role_arg st)
     /\ same_but_disk
          (snd (ProfileStorage_create_profile uid nm age_arg role_arg st))
          (snd (InMemoryProfileStorage_create_profile uid nm age_arg role_arg st))
     /\ disk (snd (InMemoryProfileStorage_create_profile uid nm age_arg role_arg st))
        = disk st)
  /\ (forall uid,
        fst (InMemoryProfileStorage_delete_profile uid st)
        = fst (ProfileStorage_delete_profile uid st)
        /\ same_but_disk (snd (ProfileStorage_delete_profile uid st))
             (snd (InMemoryProfileStorage_delete_profile uid st))
        /\ disk (snd (InMemoryProfileStorage_delete_profile uid st)) = disk st)
  /\ (forall uid aty d c nts,
        is_int d = true -> is_int c = true ->
        fst (InMemoryProfileStorage_add_activity_to_profile uid aty d c nts st)
        = fst (ProfileStorage_add_activity_to_profile uid aty d c nts st)
        /\ same_but_disk
             (snd (ProfileStorage_add_activity_to_profile uid aty d c nts st))
             (snd (InMemoryProfileStorage_add_activity_to_profile uid aty d c nts st))
        /\ disk (snd (InMemoryProfileStorage_add_activity_to_profile
                        uid aty d c nts st)) = disk st)
  /\ (forall uid,
        InMemoryProfileStorage_get_profile uid st = ProfileStorage_get_profile uid st)
  /\ InMemoryProfileStorage_get_all_profiles st = ProfileStorage_get_all_profiles st.
Proof.
  intros Hwf. split; [|split; [|split; [|split]]].
  - intros uid nm age_arg role_arg Hty.
    unfold InMemoryProfileStorage_create_profile, ProfileStorage_create_profile.
    unfold bind, get_state. cbn beta iota.
    destruct (dict_mem uid (profiles st)) eqn:Hmem;
      [repeat split|].
    destruct (UserProfile_init_spec (JStr uid) (JStr nm) age_arg role_arg st)
      as [Hok Hko].
    destruct (age_ok age_arg && role_accepted role_arg) eqn:E.
    + rewrite (Hok eq_refl). apply andb_prop in E. destruct E as [Ea Er].
      set (p := mkUserProfile (JStr uid) (JStr nm) (as_json age_arg)
                  (role_stored role_arg) [] (time_at (clock st))).
      assert (Hv : valid_profile p = true).
      { unfold valid_profile. simpl.
        now rewrite (age_ok_as_json _ Ea), (role_stored_member _ Hty Er). }
      pose proof (wf_with_new_profile st uid p Hwf Hmem Hv) as Hwf'.
      destruct (save_all_valid _ Hwf') as (items & _ & _ & Hsave).
      unfold with_new_profile in Hsave.
      run. rewrite (dict_set_fresh uid p (profiles st) Hmem).
      rewrite Hsave. repeat split.
    + destruct (Hko eq_refl) as [msg Hmsg]. rewrite Hmsg. repeat split.
  - intros uid. unfold InMemoryProfileStorage_delete_profile.
    destruct (dict_mem uid (profiles st)) eqn:Hmem.
    + destruct (delete_profile_found st uid Hwf Hmem) as (items & _ & Hs).
      rewrite Hs. run. rewrite Hmem. repeat split.
    + rewrite (delete_profile_missing st uid Hmem). run. rewrite Hmem.
      repeat split.
  - intros uid aty d c nts Hd Hc.
    unfold InMemoryProfileStorage_add_activity_to_profile.
    destruct (dict_get uid (profiles st)) as [p|] eqn:Hget.
    + destruct (add_activity_to_profile_found st uid p aty d c nts Hwf Hget Hd Hc)
        as (items & _ & Hs).
      rewrite Hs. unfold UserProfile_add_activity, ActivityEntry_init. run.
      rewrite Hget. repeat split.
    + rewrite (add_activity_to_profile_missing st uid aty d c nts Hget). run.
      rewrite Hget. repeat split.
  - reflexivity.
  - reflexivity.
Qed.

(** *** Decoding records that lack entries *)

(** X10: what decoding supplies for missing entries.  An activity record
    without [timestamp] gets the time of the clock, and without [notes] the
    empty text; the entries it lacks among type, duration and calories
    become [None].  A profile record with a valid age and the text of a
    role, without [created_at] and [activity_history], gives a profile
    created at the time of the clock with no activity; entries other than
    the six that are read, such as [stats], play no part. *)
Theorem from_dict_defaults (d : dict json) (st : State) :
  (dict_get "timestamp" d = None ->
     ActivityEntry_from_dict (JObj d) st
     = (Ok (mkActivityEntry (py_get d "activity_type") (py_get d "duration_minutes")
              (py_get d "calories_burned") (time_at (clock st))
              (match dict_get "notes" d with
               | Some v => v
               | None => JStr EmptyString
               end)),
        advance 1 st))
  /\ (forall r : UserRole,
        age_ok (PJson (py_get d "age")) = true ->
        dict_get "role" d = Some (JStr (UserRole_value r)) ->
        dict_get "created_at" d = None ->
        dict_get "activity_history" d = None ->
        UserProfile_from_dict (JObj d) st
        = (Ok (mkUserProfile (py_get d "user_id") (py_get d "name")
                 (py_get d "age") (PEnum r) [] (time_at (clock st))),
           advance 1 st))
  /\ (forall (key : string) (v : json) (st0 : State),
        key <> "user_id" -> key <> "name" -> key <> "age" -> key <> "role" ->
        key <> "created_at" -> key <> "activity_history" ->
        UserProfile_from_dict (JObj (dict_set key v d)) st0
        = UserProfile_from_dict (JObj d) st0).
Proof.
  split; [|split].
  - intros Ht. unfold ActivityEntry_from_dict, ActivityEntry_init,
      py_get_default. run. now rewrite Ht.
  - intros r Ha Hr Hc Hh.
    assert (Hpr : py_get d "role" = JStr (UserRole_value r))
      by (unfold py_get; now rewrite Hr).
    unfold UserProfile_from_dict, UserProfile_init.
    rewrite Ha, Hpr, Hc, Hh. cbn [negb]. unfold bind at 3.
    rewrite UserRole_of_value_value. reflexivity.
  - intros key v st0 H1 H2 H3 H4 H5 H6.
    unfold UserProfile_from_dict, py_get.
    rewrite !dict_get_set_neq by congruence. reflexivity.
Qed.

(** *** The payload of [get_profile] *)

(** X11: the payload of [get_profile] is the encoding of the stored
    profile.  In a well-formed storage [get_profile] on a stored user_id
    answers 200 with a payload that [UserProfile.from_dict] decodes to the
    stored profile itself; it is the record that [save_all] writes for the
    profile. *)
Theorem get_profile_payload_decodes (st : State) (uid : string) (p : UserProfile) :
  iso_round_trip ->
  wf_storage st = true ->
  dict_get uid (profiles st) = Some p ->
  exists payload,
    get_profile uid st
    = (Ok (APIResponse_success payload (Msg "Profile retrieved successfully") 200),
       st)
    /\ UserProfile_to_dict p = Ok payload
    /\ forall st0,
         UserProfile_from_dict payload st0
         = (Ok p, advance (S (List.length (activity_history p))) st0).
Proof.
  intros Hiso Hwf Hget.
  pose proof (wf_stored_valid st uid p Hwf Hget) as Hv.
  destruct (to_dict_valid p Hv) as (r & ds & cs & _ & _ & _ & Hto).
  eexists. split; [|split; [exact Hto|]].
  - unfold get_profile, except_Exception, try_except, ProfileStorage_get_profile.
    run. rewrite Hget. run. rewrite serialize_is_to_dict, Hto. reflexivity.
  - intros st0. now apply UserProfile_from_to_dict.
Qed.

(** *** The totals of a profile *)

(** X12: the views agree on the totals of a profile.  For a profile of a
    well-formed storage, the [stats] of the payload of [get_profile], the
    item of the list view and the answer of [get_user_statistics] show the
    same number of activities, which is the length of the serialized
    history, the same sum of calories and the same sum of durations. *)
Theorem totals_agree (st : State) (uid : string) (p : UserProfile) :
  wf_storage st = true ->
  dict_get uid (profiles st) = Some p ->
  exists (payload item : json) (sresp : Response) (t c : Z),
    UserProfileSerializer_serialize p = Ok payload
    /\ list_view_item p = Ok item
    /\ get_user_statistics uid st = (Ok sresp, st)
    /\ json_field payload "activity_history"
       = JList (ActivitySerializer_serialize_many (activity_history p))
    /\ json_field (json_field payload "stats") "total_activities"
       = JInt (Z.of_nat (List.length (activity_history p)))
    /\ json_field item "total_activities"
       = JInt (Z.of_nat (List.length (activity_history p)))
    /\ response_field sresp "total_activities"
       = JInt (Z.of_nat (List.length (activity_history p)))
    /\ json_field (json_field payload "stats") "total_calories_burned" = JInt c
    /\ json_field item "total_calories_burned" = JInt c
    /\ response_field sresp "total_calories_burned" = JInt c
    /\ json_field (json_field payload "stats") "total_activity_time_minutes" = JInt t
    /\ response_field sresp "total_activity_time_minutes" = JInt t.
Proof.
  intros Hwf Hget. pose proof (wf_stored_valid st uid p Hwf Hget) as Hv.
  destruct (to_dict_valid p Hv) as (r & ds & cs & Hr & Hds & Hcs & Hto).
  eexists. eexists. eexists. exists (total ds), (total cs).
  split; [rewrite serialize_is_to_dict; exact Hto|].
  split.
  { unfold list_view_item, get_total_calories_burned. rewrite Hr. simpl.
    rewrite (py_sum_ints _ _ Hcs). reflexivity. }
  split.
  { unfold get_user_statistics, except_Exception, try_except,
      ProfileStorage_get_profile, get_total_activity_time,
      get_total_calories_burned. run. rewrite Hget. run. rewrite Hr. simpl.
    rewrite (py_sum_ints _ _ Hds), (py_sum_ints _ _ Hcs). reflexivity. }
  repeat split.
Qed.

(** *** Updating twice *)

Lemma apply_kwargs_twice (kw : kwargs) (p : UserProfile) :
  apply_role kw (apply_age kw (apply_name kw
    (apply_role kw (apply_age kw (apply_name kw p)))))
  = apply_role kw (apply_age kw (apply_name kw p)).
Proof.
  unfold apply_role, apply_age, apply_name.
  destruct kw as [[n|] [a|] [r|]]; reflexivity.
Qed.

Lemma saved_saved (items : dict json) (st : State) :
  saved items (saved items st) = saved items st.
Proof. unfold saved. simpl. now rewrite dict_set_set. Qed.

(** X13: an update that succeeds is idempotent.  In a well-formed storage,
    for fields that pass their tests and a role given as a text or a
    member, the update of a stored profile answers 200, and the same update
    made again gives the same answer and leaves the state, memory and file,
    as the first left it. *)
Theorem update_profile_idempotent (st : State) (uid : string) (kw : kwargs)
    (p : UserProfile) :
  wf_storage st = true ->
  kw_role_typed kw = true ->
  kw_age_ok kw && kw_role_ok kw = true ->
  dict_get uid (profiles st) = Some p ->
  exists resp st1,
    update_profile uid kw st = (Ok resp, st1)
    /\ status_code resp = 200
    /\ update_profile uid kw st1 = (Ok resp, st1).
Proof.
  intros Hwf Hty Hok Hget.
  apply andb_prop in Hok. destruct Hok as [Ha Hr].
  set (p' := apply_role kw (apply_age kw (apply_name kw p))).
  assert (Hv : valid_profile p' = true).
  { apply valid_updated; auto. now apply (wf_stored_valid st uid). }
  assert (Hwf' : wf_storage (with_profile uid p' st) = true)
    by now apply (wf_with_profile st uid p).
  destruct (save_all_valid _ Hwf') as (items & Hitems & _ & Hsave).
  pose proof (update_profile_stores st uid kw p items Hget Ha Hr Hsave) as Hs.
  fold p' in Hs.
  set (st1 := saved items (with_profile uid p' st)) in *.
  assert (Hget1 : dict_get uid (profiles st1) = Some p')
    by (simpl; apply dict_get_set_eq).
  assert (Hsame : with_profile uid p' st1 = st1) by now apply with_profile_same.
  assert (Hsave1 : save_all st1 = (Ok tt, st1)).
  { destruct (save_all_valid st1 Hwf') as (items1 & Hitems1 & _ & Hsave1).
    change (profiles st1) with (profiles (with_profile uid p' st)) in Hitems1.
    rewrite Hitems in Hitems1. injection Hitems1 as <-.
    rewrite Hsave1. unfold st1. now rewrite saved_saved. }
  assert (Hs1 : ProfileStorage_update_profile uid kw st1 = (Ok (Some p'), st1)).
  { pose proof (update_profile_stores st1 uid kw p' items Hget1 Ha Hr) as H.
    assert (Htw : apply_role kw (apply_age kw (apply_name kw p')) = p')
      by (unfold p'; apply apply_kwargs_twice).
    assert (Hss : saved items st1 = st1)
      by (unfold st1; apply saved_saved).
    rewrite Htw, Hsame, Hss in H. apply H. exact Hsave1. }
  destruct (to_dict_valid p' Hv) as (r & ds & cs & _ & _ & _ & Hto).
  eexists. exists st1. split; [|split].
  - unfold update_profile, except_ValueError_Exception, try_except.
    unfold bind at 1. rewrite Hs. run. rewrite serialize_is_to_dict, Hto.
    reflexivity.
  - reflexivity.
  - unfold update_profile, except_ValueError_Exception, try_except.
    unfold bind at 1. rewrite Hs1. run. rewrite serialize_is_to_dict, Hto.
    reflexivity.
Qed.

(** *** Filtering by role *)

Lemma role_filter_partition (ps : list UserProfile) :
  forallb valid_profile ps = true ->
  (List.length (filter (has_role STUDENT) ps)
   + List.length (filter (has_role GYM_TEACHER) ps))%nat
  = List.length ps.
Proof.
  induction ps as [|p ps IH]; simpl; [reflexivity|].
  intros H. apply andb_prop in H. destruct H as [Hp Hps].
  specialize (IH Hps).
  destruct (to_dict_valid p Hp) as (r & _ & _ & Hr & _).
  assert (Hs : forall r0, has_role r0 p = UserRole_eqb r0 r)
    by (intros r0; unfold has_role; now rewrite Hr).
  rewrite !Hs. destruct r; simpl; lia.
Qed.

Lemma list_profiles_by_role (st : State) (r : UserRole) (all : list json) :
  wf_storage st = true ->
  UserProfileSerializer_serialize_list_view (dict_values (profiles st)) = Ok all ->
  list_profiles (PJson (JStr (UserRole_value r))) st
  = (Ok (APIResponse_success (JList (filter (item_has_role r) all))
           (MsgRetrieved
              (List.length (filter (has_role r) (dict_values (profiles st)))))
           200), st).
Proof.
  intros Hwf Hall.
  destruct (list_view_valid _ r (wf_values_valid st Hwf))
    as (all' & Hall' & _ & Hfil & Hview).
  rewrite Hall in Hall'. injection Hall' as <-.
  unfold list_profiles, except_Exception, try_except,
    ProfileStorage_get_profiles_by_role.
  assert (Ht : truthy (PJson (JStr (UserRole_value r))) = true) by now destruct r.
  assert (Hn : in_role_names (PJson (JStr (UserRole_value r))) = true)
    by now destruct r.
  rewrite Ht, Hn. run. rewrite Hfil. simpl. now rewrite Hview.
Qed.

(** X14: the two roles split the list.  In a well-formed storage the
    profiles that [list_profiles] retrieves for [student] and those it
    retrieves for [gym_teacher] are as many, together, as the profiles it
    retrieves without a role. *)
Theorem list_profiles_roles_partition (st : State) :
  wf_storage st = true ->
  exists (rs rt ra : Response) (ns nt : nat),
    list_profiles (PJson (JStr "student")) st = (Ok rs, st)
    /\ list_profiles (PJson (JStr "gym_teacher")) st = (Ok rt, st)
    /\ list_profiles (PJson JNull) st = (Ok ra, st)
    /\ message rs = MsgRetrieved ns
    /\ message rt = MsgRetrieved nt
    /\ message ra = MsgRetrieved (ns + nt)
    /\ List.length (dict_values (profiles st)) = (ns + nt)%nat.
Proof.
  intros Hwf. pose proof (wf_values_valid st Hwf) as Hv.
  destruct (list_view_valid _ STUDENT Hv) as (all & Hall & _ & _ & _).
  eexists. eexists. eexists. eexists. eexists.
  split; [exact (list_profiles_by_role st STUDENT all Hwf Hall)|].
  split; [exact (list_profiles_by_role st GYM_TEACHER all Hwf Hall)|].
  split.
  { unfold list_profiles, except_Exception, try_except,
      ProfileStorage_get_all_profiles. run. rewrite Hall. reflexivity. }
  split; [reflexivity|]. split; [reflexivity|].
  simpl. rewrite (role_filter_partition _ Hv). split; reflexivity.
Qed.

Lemma filter_by_role_unknown (role_arg : pyval) (ps : list UserProfile) :
  in_role_names role_arg = false ->
  forallb valid_profile ps = true ->
  filter_by_role role_arg ps = Ok [].
Proof.
  intros Hn. induction ps as [|p ps IH]; simpl; [reflexivity|].
  intros H. apply andb_prop in H. destruct H as [Hp Hps].
  destruct (to_dict_valid p Hp) as (r & _ & _ & Hr & _).
  rewrite Hr, (IH Hps). cbn [role_value rbind].
  assert (Hne : str_eq_py (UserRole_value r) role_arg = false).
  { destruct role_arg as [[| | |s| |]|r0]; try reflexivity.
    cbn [in_role_names] in Hn. apply orb_false_elim in Hn. destruct Hn as [H1 H2].
    cbn [str_eq_py]. rewrite String.eqb_sym.
    destruct r; cbn [UserRole_value]; assumption. }
  now rewrite Hne.
Qed.

Lemma filter_by_role_raises (role_arg : pyval) (ps : list UserProfile) :
  existsb (fun p => negb (is_member (role p))) ps = true ->
  filter_by_role role_arg ps = Raise AttributeError.
Proof.
  induction ps as [|p ps IH]; simpl; [discriminate|].
  destruct (role p) as [j|r] eqn:Hr; simpl; [reflexivity|].
  intros H. now rewrite (IH H).
Qed.

(** X15: [get_profiles_by_role] of the storage on other arguments.  In a
    well-formed storage, an argument that is not one of the two texts of a
    role, a member of [UserRole] among them, matches no profile: the result
    is the empty list, not an error.  When a stored profile has a role that
    is no member, the call raises [AttributeError] whatever the
    argument. *)
Theorem get_profiles_by_role_edge (st : State) (role_arg : pyval) :
  (wf_storage st = true -> in_role_names role_arg = false ->
     ProfileStorage_get_profiles_by_role role_arg st = (Ok [], st))
  /\ (existsb (fun p => negb (is_member (role p))) (dict_values (profiles st))
      = true ->
      ProfileStorage_get_profiles_by_role role_arg st = (Raise AttributeError, st)).
Proof.
  split.
  - intros Hwf Hn. unfold ProfileStorage_get_profiles_by_role. run.
    now rewrite (filter_by_role_unknown _ _ Hn (wf_values_valid st Hwf)).
  - intros H. unfold ProfileStorage_get_profiles_by_role. run.
    now rewrite (filter_by_role_raises _ _ H).
Qed.

(** *** A storage that cannot be saved *)

Lemma to_dict_raises_no_ValueError (p : UserProfile) (e : exn) :
  UserProfile_to_dict p = Raise e -> is_ValueError e = false.
Proof.
  unfold UserProfile_to_dict, get_total_activity_time, get_total_calories_burned,
    py_sum.
  destruct (role_value (role p)); [|now intros [= <-]].
  assert (Hs : forall l acc e0, py_sum_from acc l = Raise e0 -> e0 = TypeError).
  { induction l as [|x l IH]; intros acc e0; simpl; [discriminate|].
    destruct (json_int x); [apply IH|now intros [= <-]]. }
  destruct (py_sum_from 0 (map duration_minutes (activity_history p))) eqn:E1;
    simpl.
  - destruct (py_sum_from 0 (map calories_burned (activity_history p))) eqn:E2;
      simpl; [discriminate|].
    intros [= <-]. now rewrite (Hs _ _ _ E2).
  - intros [= <-]. now rewrite (Hs _ _ _ E1).
Qed.

Lemma profiles_to_dicts_raises (ps qs : dict UserProfile) :
  existsb (fun kv => negb (is_member (role (snd kv)))) ps = true ->
  exists e, profiles_to_dicts (ps ++ qs) = Raise e /\ is_ValueError e = false.
Proof.
  induction ps as [|[k p] ps IH]; simpl; [discriminate|].
  destruct (UserProfile_to_dict p) as [d|e] eqn:Hto.
  - assert (Hm : is_member (role p) = true).
    { unfold UserProfile_to_dict in Hto. destruct (role p); [discriminate|reflexivity]. }
    rewrite Hm. simpl. intros H. destruct (IH H) as (e & He & Hv).
    rewrite He. simpl. now exists e.
  - intros _. exists e. split; [reflexivity|].
    now apply (to_dict_raises_no_ValueError p).
Qed.

(** X16: a profile created while the storage cannot be saved.  When a
    stored profile has a role that is no member of [UserRole], as a profile
    loaded from a record without [role] has, [create_profile] with valid
    arguments and a fresh user_id answers 500: the new profile is in the
    dict in memory all the same, the file is as before, and the same call
    made again answers 400 for a duplicate. *)
Theorem create_profile_when_unsavable (st : State) (uid nm : string)
    (age_arg : pyval) (r : UserRole) :
  existsb (fun kv => negb (is_member (role (snd kv)))) (profiles st) = true ->
  str_truthy uid = true -> str_truthy nm = true ->
  age_ok age_arg = true ->
  dict_mem uid (profiles st) = false ->
  exists resp resp' st',
    create_profile uid nm age_arg (PJson (JStr (UserRole_value r))) st
    = (Ok resp, st')
    /\ status_code resp = 500
    /\ dict_get uid (profiles st')
       = Some (mkUserProfile (JStr uid) (JStr nm) (as_json age_arg) (PEnum r) []
                 (time_at (clock st)))
    /\ disk st' = disk st
    /\ create_profile uid nm age_arg (PJson (JStr (UserRole_value r))) st'
       = (Ok resp', st')
    /\ status_code resp' = 400.
Proof.
  intros Hbad Hu Hn Ha Hmem.
  set (p := mkUserProfile (JStr uid) (JStr nm) (as_json age_arg) (PEnum r) []
              (time_at (clock st))).
  destruct (profiles_to_dicts_raises (profiles st) [(uid, p)] Hbad)
    as (e & He & Hv).
  assert (Hr : in_role_names (PJson (JStr (UserRole_value r))) = true)
    by now destruct r.
  assert (Hg : dict_get uid (profiles st ++ [(uid, p)]) = Some p).
  { rewrite <- (dict_set_fresh uid p (profiles st) Hmem). apply dict_get_set_eq. }
  eexists. eexists. exists (with_new_profile uid p st).
  split; [|split; [|split; [|split; [|split]]]].
  - unfold create_profile, except_ValueError_Exception, try_except.
    rewrite Hu, Hn, Ha, Hr. cbn [negb orb].
    unfold ProfileStorage_create_profile, UserProfile_init, save_all. run.
    rewrite Hmem, Ha. run. rewrite UserRole_of_value_value. run.
    rewrite (dict_set_fresh uid _ (profiles st) Hmem). fold p.
    rewrite He. simpl. rewrite Hv. reflexivity.
  - reflexivity.
  - exact Hg.
  - reflexivity.
  - unfold create_profile, except_ValueError_Exception, try_except.
    rewrite Hu, Hn, Ha, Hr. cbn [negb orb].
    unfold ProfileStorage_create_profile. run.
    unfold dict_mem. rewrite Hg. reflexivity.
  - reflexivity.
Qed.

(** *** Records that do not decode *)

(** X17: how decoding fails.  Data that is not an object raises
    [AttributeError], the clock not read.  An activity record whose
    [timestamp] is a text that is not in ISO format raises the [ValueError]
    of the library, and one whose [timestamp] is not a text raises
    [TypeError], both after the entry was built.  A profile record whose
    age is in order and whose role is the text of a role raises, after the
    profile was built, the [ValueError] of the library when its
    [created_at] is a text that is not in ISO format and [TypeError] when
    it is not a text; when [created_at] is absent or in ISO format, it
    raises [TypeError] when its [activity_history] is [None], a truth value
    or a number, [AttributeError] when the first item of it is not an
    object, and gives a profile without activity when it has no item. *)
Theorem from_dict_errors (d : dict json) (st : State) :
  (forall data, (forall d0, data <> JObj d0) ->
     ActivityEntry_from_dict data st = (Raise AttributeError, st)
     /\ UserProfile_from_dict data st = (Raise AttributeError, st))
  /\ (forall s, dict_get "timestamp" d = Some (JStr s) ->
        fromisoformat s = None ->
        ActivityEntry_from_dict (JObj d) st
        = (Raise (IsoformatValueError s), advance 1 st))
  /\ (forall v, dict_get "timestamp" d = Some v ->
        (forall s, v <> JStr s) ->
        ActivityEntry_from_dict (JObj d) st = (Raise TypeError, advance 1 st))
  /\ (forall r : UserRole,
        age_ok (PJson (py_get d "age")) = true ->
        dict_get "role" d = Some (JStr (UserRole_value r)) ->
        (forall s, dict_get "created_at" d = Some (JStr s) ->
           fromisoformat s = None ->
           UserProfile_from_dict (JObj d) st
           = (Raise (IsoformatValueError s), advance 1 st))
        /\ (forall v, dict_get "created_at" d = Some v ->
              (forall s, v <> JStr s) ->
              UserProfile_from_dict (JObj d) st = (Raise TypeError, advance 1 st))
        /\ (forall (t : datetime) (v : json),
              decoded_created_at d st = Some t ->
              dict_get "activity_history" d = Some v ->
              (py_iter v = Raise TypeError ->
                 UserProfile_from_dict (JObj d) st = (Raise TypeError, advance 1 st))
              /\ (forall x rest, py_iter v = Ok (x :: rest) ->
                    (forall d0, x <> JObj d0) ->
                    UserProfile_from_dict (JObj d) st
                    = (Raise AttributeError, advance 1 st))
              /\ (py_iter v = Ok [] ->
                    UserProfile_from_dict (JObj d) st
                    = (Ok (mkUserProfile (py_get d "user_id") (py_get d "name")
                             (py_get d "age") (PEnum r) [] t),
                       advance 1 st)))).
Proof.
  split; [|split; [|split]].
  - intros data Hd. destruct data; try (split; reflexivity).
    now contradiction (Hd d0).
  - intros s Ht Hs. unfold ActivityEntry_from_dict, ActivityEntry_init,
      datetime_fromisoformat. run. rewrite Ht. run. now rewrite Hs.
  - intros v Ht Hv. unfold ActivityEntry_from_dict, ActivityEntry_init,
      datetime_fromisoformat. run. rewrite Ht.
    destruct v; try reflexivity. now contradiction (Hv s).
  - intros r Ha Hr.
    assert (Hpr : py_get d "role" = JStr (UserRole_value r))
      by (unfold py_get; now rewrite Hr).
    assert (Hinit : UserProfile_init (py_get d "user_id") (py_get d "name")
                      (PJson (py_get d "age")) (PJson (py_get d "role")) st
                    = (Ok (mkUserProfile (py_get d "user_id") (py_get d "name")
                             (py_get d "age") (PEnum r) [] (time_at (clock st))),
                       advance 1 st)).
    { unfold UserProfile_init. rewrite Ha, Hpr. cbn [negb]. unfold bind at 1.
      rewrite UserRole_of_value_value. reflexivity. }
    split; [|split].
    + intros s Hc Hs. unfold UserProfile_from_dict. unfold bind at 1.
      rewrite Hinit. unfold bind at 1. rewrite Hc.
      unfold datetime_fromisoformat. rewrite Hs. reflexivity.
    + intros v Hc Hv. unfold UserProfile_from_dict. unfold bind at 1.
      rewrite Hinit. unfold bind at 1. rewrite Hc.
      destruct v; try reflexivity. now contradiction (Hv s).
    + intros t v Ht Hh.
      assert (Hrun : UserProfile_from_dict (JObj d) st
                     = match py_iter v with
                       | Ok items =>
                           restore_history items
                             (mkUserProfile (py_get d "user_id") (py_get d "name")
                                (py_get d "age") (PEnum r) [] t)
                             (advance 1 st)
                       | Raise e => (Raise e, advance 1 st)
                       end).
      { unfold UserProfile_from_dict. unfold bind at 1. rewrite Hinit.
        unfold bind at 1. unfold decoded_created_at in Ht. rewrite Hh.
        destruct (dict_get "created_at" d) as [[| | |s| |]|]; try discriminate.
        - unfold datetime_fromisoformat. rewrite Ht. run.
          now destruct (py_iter v).
        - injection Ht as <-. run. now destruct (py_iter v). }
      rewrite Hrun. split; [|split].
      * now intros ->.
      * intros x rest -> Hx. cbn [restore_history]. unfold bind at 1.
        destruct x; try reflexivity. now contradiction (Hx d0).
      * now intros ->.
Qed.

(** *** A role that is neither a text nor a member *)

Lemma existsb_dict_set {V : Type} (Q : V -> bool) (k : string) (v : V) (d : dict V) :
  Q v = true -> existsb (fun kv => Q (snd kv)) (dict_set k v d) = true.
Proof.
  intros Hv. induction d as [|[k0 v0] d IH]; simpl.
  - now rewrite Hv.
  - destruct (String.eqb k0 k); simpl; [now rewrite Hv|].
    rewrite IH. apply orb_true_r.
Qed.

Lemma existsb_dict_set_kept {V : Type} (Q : V -> bool) (k : string) (v v0 : V)
    (d : dict V) :
  dict_get k d = Some v0 -> Q v = Q v0 ->
  existsb (fun kv => Q (snd kv)) (dict_set k v d)
  = existsb (fun kv => Q (snd kv)) d.
Proof.
  intros Hget Hq. induction d as [|[k1 v1] d IH]; simpl in *; [discriminate|].
  destruct (String.eqb k1 k); simpl.
  - injection Hget as ->. now rewrite Hq.
  - now rewrite IH.
Qed.

Lemma save_all_unchecked_role (st : State) :
  existsb (fun kv => role_unchecked (snd kv)) (profiles st) = true ->
  exists e, save_all st = (Raise e, st) /\ is_ValueError e = false.
Proof.
  intros H. destruct (profiles_to_dicts_raises (profiles st) [] H) as (e & He & Hv).
  rewrite app_nil_r in He. exists e. split; [|exact Hv].
  unfold save_all. run. now rewrite He.
Qed.

Lemma valid_no_unchecked_role (ps : dict UserProfile) :
  forallb (fun kv => valid_profile (snd kv)) ps = true ->
  existsb (fun kv => role_unchecked (snd kv)) ps = false.
Proof.
  induction ps as [|[k p] ps IH]; simpl; [reflexivity|].
  intros H. apply andb_prop in H. destruct H as [Hp Hps].
  rewrite (IH Hps). destruct (to_dict_valid p Hp) as (r & _ & _ & Hr & _).
  unfold role_unchecked. now rewrite Hr.
Qed.

(** C4: a storage that holds a profile whose role is no member of
    [UserRole] cannot be saved: [save_all] raises an exception that is no
    [ValueError] and writes nothing.  When the file holds the records of a
    well-formed collection, the one of the last save that succeeded, a
    storage then constructed on the file holds that collection, which is
    not the collection in memory. *)
Theorem save_all_fails_unchecked_role (st st_old : State) :
  iso_round_trip ->
  existsb (fun kv => role_unchecked (snd kv)) (profiles st) = true ->
  wf_storage st_old = true ->
  synced st_old ->
  storage_file st = storage_file st_old ->
  disk st = disk st_old ->
  exists e st2,
    save_all st = (Raise e, st)
    /\ is_ValueError e = false
    /\ ProfileStorage_init (storage_file st) st = (Ok tt, st2)
    /\ profiles st2 = profiles st_old
    /\ profiles st2 <> profiles st.
Proof.
  intros Hiso Hbad Hwf (items & Hitems & Hfile) Hpath Hdisk.
  destruct (save_all_unchecked_role st Hbad) as (e & Hsave & He).
  destruct (wf_storage_inv st_old Hwf) as [Hu Hv].
  pose proof (synced_decodes st_old items Hiso Hwf Hitems) as Hdec.
  rewrite <- Hpath, <- Hdisk in Hfile.
  exists e. eexists. split; [exact Hsave|]. split; [exact He|].
  split; [exact (load_all_decodes items (profiles st_old) st Hdec Hu Hfile)|].
  split; [reflexivity|]. simpl. intros Heq.
  rewrite <- Heq in Hbad. now rewrite (valid_no_unchecked_role _ Hv) in Hbad.
Qed.

(** C6: [update_profile] with a role that is neither a text nor a member,
    [None] for one.  The role passes the test that construction makes, is
    assigned to the stored profile, and [save_all] then raises: the view
    answers 500, the stored profile has the role, and the file is as
    before. *)
Theorem update_profile_role_unvalidated (st : State) (uid : string)
    (p : UserProfile) (j : json) :
  dict_get uid (profiles st) = Some p ->
  (forall s, j <> JStr s) ->
  exists resp e,
    update_profile uid (mkKwargs None None (Some (PJson j))) st
    = (Ok resp, with_profile uid (set_role (PJson j) p) st)
    /\ status_code resp = 500
    /\ message resp = MsgInternal e
    /\ is_ValueError e = false
    /\ role_accepted (PJson j) = true
    /\ dict_get uid (profiles (with_profile uid (set_role (PJson j) p) st))
       = Some (set_role (PJson j) p)
    /\ disk (with_profile uid (set_role (PJson j) p) st) = disk st
    /\ wf_storage (with_profile uid (set_role (PJson j) p) st) = false.
Proof.
  intros Hget Hj.
  assert (Hbad : existsb (fun kv => role_unchecked (snd kv))
                   (profiles (with_profile uid (set_role (PJson j) p) st)) = true)
    by (simpl; now apply existsb_dict_set).
  destruct (save_all_unchecked_role _ Hbad) as (e & Hsave & He).
  assert (Hs : ProfileStorage_update_profile uid
                 (mkKwargs None None (Some (PJson j))) st
               = (Raise e, with_profile uid (set_role (PJson j) p) st)).
  { unfold ProfileStorage_update_profile. unfold bind at 1. unfold get_state.
    cbn beta iota. rewrite Hget. cbn [kw_name kw_age kw_role].
    unfold with_profile in Hsave.
    destruct j as [| | |s| |]; try (now contradiction (Hj s));
      run; rewrite Hsave; reflexivity. }
  exists (APIResponse_error (MsgInternal e) 500), e.
  split.
  { unfold update_profile, except_ValueError_Exception, try_except.
    unfold bind at 1. rewrite Hs. now rewrite He. }
  split; [reflexivity|]. split; [reflexivity|]. split; [exact He|].
  split; [destruct j; try reflexivity; now contradiction (Hj s)|].
  split; [simpl; apply dict_get_set_eq|]. split; [reflexivity|].
  unfold wf_storage.
  destruct (forallb (fun kv => valid_profile (snd kv))
              (profiles (with_profile uid (set_role (PJson j) p) st))) eqn:Hv.
  - now rewrite (valid_no_unchecked_role _ Hv) in Hbad.
  - apply andb_false_r.
Qed.

(** C7: [add_activity] in a storage that holds a profile whose role is no
    member of [UserRole].  With a type that is not empty, a positive
    integer duration and non-negative integer calories, on a stored
    user_id, the activity is appended to the stored profile and [save_all]
    then raises: the view answers 500, the activity is in memory, and the
    file is as before. *)
Theorem add_activity_when_unsavable (st : State) (uid aty : string) (d c : pyval)
    (nts : string) (p : UserProfile) :
  existsb (fun kv => role_unchecked (snd kv)) (profiles st) = true ->
  dict_get uid (profiles st) = Some p ->
  aty <> EmptyString -> positive_integer d -> non_negative_integer c ->
  exists resp e,
    add_activity uid aty d c nts st
    = (Ok resp,
       with_profile uid
         (append_activity
            (mkActivityEntry (JStr aty) (as_json d) (as_json c)
               (time_at (clock st)) (JStr nts)) p)
         (advance 1 st))
    /\ status_code resp = 500
    /\ message resp = MsgInternal e
    /\ is_ValueError e = false
    /\ disk (with_profile uid
               (append_activity
                  (mkActivityEntry (JStr aty) (as_json d) (as_json c)
                     (time_at (clock st)) (JStr nts)) p)
               (advance 1 st)) = disk st.
Proof.
  intros Hbad Hget Ha Hd Hc.
  apply duration_ok_iff in Hd. apply calories_ok_iff in Hc.
  set (p' := append_activity
               (mkActivityEntry (JStr aty) (as_json d) (as_json c)
                  (time_at (clock st)) (JStr nts)) p).
  assert (Hbad' : existsb (fun kv => role_unchecked (snd kv))
                    (profiles (with_profile uid p' (advance 1 st))) = true).
  { simpl. rewrite (existsb_dict_set_kept role_unchecked uid p' p); auto. }
  destruct (save_all_unchecked_role _ Hbad') as (e & Hsave & He).
  exists (APIResponse_error (MsgInternal e) 500), e.
  split; [|repeat split; exact He].
  unfold add_activity, except_ValueError_Exception, try_except.
  destruct aty as [|ch aty]; [congruence|]. cbn [str_truthy negb].
  rewrite Hd, Hc. cbn [negb].
  unfold ProfileStorage_add_activity_to_profile, UserProfile_add_activity,
    ActivityEntry_init. run. rewrite Hget. run.
  unfold with_profile, advance in Hsave. simpl in Hsave. fold p'.
  rewrite Hsave. now rewrite He.
Qed.

(** C9: constructing the storage on a file that is JSON and is not an
    object of records.  When the document is not an object, [data.items()]
    raises [AttributeError]; when it is an object whose first record is not
    an object, [profile_data.get] does.  [load_all] catches neither: the
    constructor raises, nothing is printed and no storage object is
    made. *)
Theorem ProfileStorage_init_wrong_shape (st : State) (path : string) (j : json) :
  dict_get path (disk st) = Some (Json j) ->
  ((forall d, j <> JObj d) ->
     ProfileStorage_init path st
     = (Raise AttributeError, mkState path [] (clock st) (disk st) (stdout st)))
  /\ (forall uid v rest,
        j = JObj ((uid, v) :: rest) -> (forall d, v <> JObj d) ->
        ProfileStorage_init path st
        = (Raise AttributeError, mkState path [] (clock st) (disk st) (stdout st))).
Proof.
  intros Hfile. split.
  - intros Hj. unfold ProfileStorage_init, load_all, try_except, json_load,
      py_items. run. rewrite Hfile.
    destruct j; try reflexivity. now contradiction (Hj d).
  - intros uid v rest -> Hv. unfold ProfileStorage_init, load_all, try_except,
      json_load, py_items. run. rewrite Hfile. run.
    destruct v; try reflexivity. now contradiction (Hv d).
Qed.

End MoreProperties.

(** ** The further theorems at work on the sample platform *)

Section MoreSamples.

#[local] Existing Instance sample_lib.

(** X1: an empty name, and the creation of [test_file_storage]. *)
Lemma create_profile_view_spec_witness :
  (exists resp,
     create_profile "teacher_101" EmptyString (PJson (JInt 40))
       (PJson (JStr "gym_teacher")) sample_state = (Ok resp, sample_state)
     /\ status_code resp = 400)
  /\ (wf_storage sample_state = true
      /\ exists resp st',
           create_profile "teacher_101" "Dr. Lisa Chen" (PJson (JInt 40))
             (PJson (JStr "gym_teacher")) sample_state = (Ok resp, st')
           /\ status_code resp = 201
           /\ profiles st'
              = profiles sample_state
                ++ [("teacher_101",
                     mkUserProfile (JStr "teacher_101") (JStr "Dr. Lisa Chen")
                       (JInt 40) (PEnum GYM_TEACHER) [] 5%nat)]
           /\ synced st').
Proof.
  split.
  - exact (proj1 (create_profile_view_spec sample_state "teacher_101" EmptyString
                    (PJson (JInt 40)) (PJson (JStr "gym_teacher"))) eq_refl).
  - split; [reflexivity|].
    destruct (proj2 (create_profile_view_spec sample_state "teacher_101"
                       "Dr. Lisa Chen" (PJson (JInt 40))
                       (PJson (JStr "gym_teacher"))) eq_refl eq_refl)
      as (r & resp & st' & payload & Hr & H1 & H2 & _ & _ & H3 & _ & H4 & _).
    injection Hr as Hr. destruct r; [discriminate|].
    exists resp, st'. repeat split; assumption.
Defined.

(** X2: an unknown user, and the deletion of [test_in_memory_storage] made
    on the durable storage. *)
Lemma delete_profile_spec_witness :
  (dict_mem "ghost" (profiles sample_state) = false
   /\ delete_profile "ghost" sample_state
      = (Ok (APIResponse_error (Msg (msg_not_found "ghost")) 404), sample_state))
  /\ (dict_mem "teacher_001" (profiles sample_state) = true
      /\ exists st',
           delete_profile "teacher_001" sample_state
           = (Ok (APIResponse_success JNull (Msg "Profile deleted successfully")
                    200), st')
           /\ dict_values (profiles st') = [alice; emma]
           /\ get_profile "teacher_001" st'
              = (Ok (APIResponse_error (Msg (msg_not_found "teacher_001")) 404),
                 st')).
Proof.
  split.
  - split; [reflexivity|].
    exact (proj2 (proj1 (delete_profile_spec sample_state "ghost") eq_refl)).
  - split; [reflexivity|].
    destruct (proj2 (delete_profile_spec sample_state "teacher_001") eq_refl eq_refl)
      as (st' & _ & H1 & H2 & _ & _ & _ & _ & _ & H3).
    exists st'. split; [exact H1|]. split; [now rewrite H2|exact H3].
Defined.

(** X5: the sample state after a save, restarted over a dict holding
    something else. *)
Lemma restart_restores_profiles_witness :
  wf_storage (snd (save_all sample_state)) = true
  /\ synced (snd (save_all sample_state))
  /\ exists st2,
       ProfileStorage_init "profiles.json"
         (mkState "profiles.json" [("student_002", debtor)] 5
            (disk (snd (save_all sample_state))) [])
       = (Ok tt, st2)
       /\ profiles st2 = profiles sample_state.
Proof.
  assert (Hs : synced (snd (save_all sample_state)))
    by (eexists; split; reflexivity).
  split; [reflexivity|]. split; [exact Hs|].
  destruct (restart_restores_profiles (snd (save_all sample_state))
              [("student_002", debtor)] sample_iso_round_trip eq_refl Hs)
    as (st2 & H1 & H2 & _).
  exists st2. split; [exact H1|exact H2].
Defined.

(** X6: the activity of [test_api_views]. *)
Lemma add_activity_keeps_storage_witness :
  wf_storage sample_state = true
  /\ exists resp st',
       add_activity "student_001" "running" (PJson (JInt 30)) (PJson (JInt 300))
         "Morning run" sample_state = (Ok resp, st')
       /\ status_code resp = 201
       /\ wf_storage st' = true
       /\ synced st'.
Proof.
  split; [reflexivity|]. eexists. eexists.
  split; [reflexivity|]. split; [reflexivity|].
  destruct (add_activity_keeps_storage sample_state _ "student_001" "running"
              (PJson (JInt 30)) (PJson (JInt 300)) "Morning run" _ eq_refl eq_refl)
    as (H1 & _ & H2).
  split; [exact H1|exact (H2 eq_refl)].
Defined.

(** X7: the update of a name together with an age of 200. *)
Lemma update_profile_keeps_valid_witness :
  wf_storage sample_state = true
  /\ exists resp st',
       update_profile "student_001"
         (mkKwargs (Some (JStr "Bob")) (Some (PJson (JInt 200))) None)
         sample_state = (Ok resp, st')
       /\ status_code resp = 400
       /\ wf_storage st' = true.
Proof.
  split; [reflexivity|]. eexists. eexists.
  split; [reflexivity|]. split; [reflexivity|].
  exact (proj1 (update_profile_keeps_valid sample_state _ "student_001"
                  (mkKwargs (Some (JStr "Bob")) (Some (PJson (JInt 200))) None)
                  _ eq_refl eq_refl eq_refl)).
Defined.

(** X8: the same update on the saved sample state, then a restart. *)
Lemma failed_update_reverts_on_restart_witness :
  synced (snd (save_all sample_state))
  /\ exists resp st' st2,
       update_profile "student_001"
         (mkKwargs (Some (JStr "Bob")) (Some (PJson (JInt 200))) None)
         (snd (save_all sample_state)) = (Ok resp, st')
       /\ status_code resp = 400
       /\ ProfileStorage_init (storage_file st') st' = (Ok tt, st2)
       /\ profiles st2 = profiles sample_state.
Proof.
  assert (Hs : synced (snd (save_all sample_state)))
    by (eexists; split; reflexivity).
  split; [exact Hs|].
  destruct (failed_update_reverts_on_restart (snd (save_all sample_state))
              "student_001"
              (mkKwargs (Some (JStr "Bob")) (Some (PJson (JInt 200))) None)
              alice sample_iso_round_trip eq_refl Hs eq_refl eq_refl)
    as (resp & st' & st2 & H1 & H2 & _ & H3 & H4).
  exists resp, st', st2. repeat split; assumption.
Defined.

(** X9: the creation of [test_in_memory_storage] on both storages. *)
Lemma in_memory_agrees_with_durable_witness :
  wf_storage sample_state = true
  /\ fst (InMemoryProfileStorage_create_profile "user001" "John Doe"
            (PJson (JInt 17)) (PJson (JStr "student")) sample_state)
     = fst (ProfileStorage_create_profile "user001" "John Doe"
              (PJson (JInt 17)) (PJson (JStr "student")) sample_state)
  /\ fst (InMemoryProfileStorage_delete_profile "teacher_001" sample_state)
     = fst (ProfileStorage_delete_profile "teacher_001" sample_state).
Proof.
  split; [reflexivity|].
  destruct (in_memory_agrees_with_durable sample_state eq_refl)
    as (H1 & H2 & _).
  split.
  - exact (proj1 (H1 "user001" "John Doe" (PJson (JInt 17))
                    (PJson (JStr "student")) eq_refl)).
  - exact (proj1 (H2 "teacher_001")).
Defined.

(** X10: a record with an age and a role only. *)
Lemma from_dict_defaults_witness :
  ActivityEntry_from_dict (JObj [("activity_type", JStr "running")]) sample_state
  = (Ok (mkActivityEntry (JStr "running") JNull JNull 5%nat (JStr EmptyString)),
     advance 1 sample_state)
  /\ UserProfile_from_dict (JObj [("age", JInt 16); ("role", JStr "student")])
       sample_state
     = (Ok (mkUserProfile JNull JNull (JInt 16) (PEnum STUDENT) [] 5%nat),
        advance 1 sample_state).
Proof.
  split.
  - exact (proj1 (from_dict_defaults [("activity_type", JStr "running")]
                    sample_state) eq_refl).
  - exact (proj1 (proj2 (from_dict_defaults
                           [("age", JInt 16); ("role", JStr "student")]
                           sample_state))
             STUDENT eq_refl eq_refl eq_refl eq_refl).
Defined.

(** X11 and X12: the profile with two activities. *)
Lemma get_profile_payload_decodes_witness :
  wf_storage sample_state = true
  /\ dict_get "student_001" (profiles sample_state) = Some alice
  /\ exists payload,
       fst (get_profile "student_001" sample_state)
       = Ok (APIResponse_success payload (Msg "Profile retrieved successfully") 200)
       /\ UserProfile_from_dict payload debtor_state
          = (Ok alice, advance 3 debtor_state).
Proof.
  split; [reflexivity|]. split; [reflexivity|].
  destruct (get_profile_payload_decodes sample_state "student_001" alice
              sample_iso_round_trip eq_refl eq_refl) as (payload & H1 & _ & H2).
  exists payload. split; [now rewrite H1|exact (H2 debtor_state)].
Defined.

Lemma totals_agree_witness :
  wf_storage sample_state = true
  /\ exists payload item sresp,
       UserProfileSerializer_serialize alice = Ok payload
       /\ list_view_item alice = Ok item
       /\ get_user_statistics "student_001" sample_state = (Ok sresp, sample_state)
       /\ json_field (json_field payload "stats") "total_calories_burned" = JInt 650
       /\ json_field item "total_calories_burned" = JInt 650
       /\ response_field sresp "total_calories_burned" = JInt 650.
Proof.
  split; [reflexivity|].
  destruct (totals_agree sample_state "student_001" alice eq_refl eq_refl)
    as (payload & item & sresp & t & c & H1 & H2 & H3 & _ & _ & _ & _ & H4 & H5
        & H6 & _).
  exists payload, item, sresp.
  assert (Hc : c = 650).
  { pose proof H2 as Hi. vm_compute in Hi. injection Hi as Hi.
    rewrite <- Hi in H5. vm_compute in H5. now injection H5 as <-. }
  subst c. repeat split; assumption.
Defined.

(** X13: the update of [test_api_views], made twice. *)
Lemma update_profile_idempotent_witness :
  wf_storage sample_state = true
  /\ exists resp st1,
       update_profile "student_001" (mkKwargs None (Some (PJson (JInt 17))) None)
         sample_state = (Ok resp, st1)
       /\ status_code resp = 200
       /\ update_profile "student_001"
            (mkKwargs None (Some (PJson (JInt 17))) None) st1 = (Ok resp, st1).
Proof.
  split; [reflexivity|].
  exact (update_profile_idempotent sample_state "student_001"
           (mkKwargs None (Some (PJson (JInt 17))) None) alice
           eq_refl eq_refl eq_refl eq_refl).
Defined.

(** X14: two students and one teacher. *)
Lemma list_profiles_roles_partition_witness :
  wf_storage sample_state = true
  /\ exists rs rt ra ns nt,
       list_profiles (PJson (JStr "student")) sample_state = (Ok rs, sample_state)
       /\ list_profiles (PJson (JStr "gym_teacher")) sample_state
          = (Ok rt, sample_state)
       /\ list_profiles (PJson JNull) sample_state = (Ok ra, sample_state)
       /\ message rs = MsgRetrieved ns
       /\ message rt = MsgRetrieved nt
       /\ message ra = MsgRetrieved (ns + nt)
       /\ 3%nat = (ns + nt)%nat.
Proof.
  split; [reflexivity|].
  exact (list_profiles_roles_partition sample_state eq_refl).
Defined.

(** X15: a member of [UserRole] as the argument; a stored role [None]. *)
Lemma get_profiles_by_role_edge_witness :
  (wf_storage sample_state = true
   /\ ProfileStorage_get_profiles_by_role (PEnum STUDENT) sample_state
      = (Ok [], sample_state))
  /\ ProfileStorage_get_profiles_by_role (PJson (JStr "student"))
       (mkState "profiles.json"
          [("u1", mkUserProfile (JStr "u1") (JStr "Ann") (JInt 16) (PJson JNull)
                    [] 0%nat)] 1 [] [])
     = (Raise AttributeError,
        mkState "profiles.json"
          [("u1", mkUserProfile (JStr "u1") (JStr "Ann") (JInt 16) (PJson JNull)
                    [] 0%nat)] 1 [] []).
Proof.
  split.
  - split; [reflexivity|].
    exact (proj1 (get_profiles_by_role_edge sample_state (PEnum STUDENT))
             eq_refl eq_refl).
  - exact (proj2 (get_profiles_by_role_edge (DT := sample_lib)
                    (mkState "profiles.json"
                       [("u1", mkUserProfile (DT := sample_lib) (JStr "u1") (JStr "Ann") (JInt 16)
                                 (PJson JNull) [] 0%nat)] 1 [] [])
                    (PJson (JStr "student"))) eq_refl).
Defined.

(** X16: a storage loaded from a record without role. *)
Lemma create_profile_when_unsavable_witness :
  exists resp resp' st',
    create_profile "u2" "Ben" (PJson (JInt 17)) (PJson (JStr "student"))
      (mkState "profiles.json"
         [("u1", mkUserProfile (JStr "u1") (JStr "Ann") (JInt 16) (PJson JNull)
                   [] 0%nat)] 1 [] [])
    = (Ok resp, st')
    /\ status_code resp = 500
    /\ dict_get "u2" (profiles st')
       = Some (mkUserProfile (JStr "u2") (JStr "Ben") (JInt 17) (PEnum STUDENT) []
                 1%nat)
    /\ create_profile "u2" "Ben" (PJson (JInt 17)) (PJson (JStr "student")) st'
       = (Ok resp', st')
    /\ status_code resp' = 400.
Proof.
  destruct (create_profile_when_unsavable (DT := sample_lib)
              (mkState "profiles.json"
                 [("u1", mkUserProfile (DT := sample_lib) (JStr "u1") (JStr "Ann") (JInt 16)
                           (PJson JNull) [] 0%nat)] 1 [] [])
              "u2" "Ben" (PJson (JInt 17)) STUDENT
              eq_refl eq_refl eq_refl eq_refl eq_refl)
    as (resp & resp' & st' & H1 & H2 & H3 & _ & H4 & H5).
  exists resp, resp', st'. repeat split; assumption.
Defined.

(** X17: a list where an object is expected; a number and a word as a
    timestamp; a record as [save_all] writes it, with a history that is
    [None], and one with a word as its creation time. *)
Lemma from_dict_errors_witness :
  UserProfile_from_dict (JList []) sample_state
  = (Raise AttributeError, sample_state)
  /\ ActivityEntry_from_dict
       (JObj [("activity_type", JStr "running"); ("timestamp", JInt 5)])
       sample_state
     = (Raise TypeError, advance 1 sample_state)
  /\ ActivityEntry_from_dict
       (JObj [("activity_type", JStr "running"); ("timestamp", JStr "now")])
       sample_state
     = (Raise (IsoformatValueError "now"), advance 1 sample_state)
  /\ UserProfile_from_dict
       (JObj [("user_id", JStr "u1"); ("name", JStr "Ann"); ("age", JInt 16);
              ("role", JStr "student"); ("created_at", JStr "7");
              ("activity_history", JNull)])
       sample_state
     = (Raise TypeError, advance 1 sample_state)
  /\ UserProfile_from_dict
       (JObj [("user_id", JStr "u1"); ("name", JStr "Ann"); ("age", JInt 16);
              ("role", JStr "student"); ("created_at", JStr "garbage");
              ("activity_history", JNull)])
       sample_state
     = (Raise (IsoformatValueError "garbage"), advance 1 sample_state).
Proof.
  split; [|split; [|split; [|split]]].
  - refine (proj2 (proj1 (from_dict_errors [] sample_state) (JList []) _)).
    intros d0. discriminate.
  - refine (proj1 (proj2 (proj2 (from_dict_errors
              [("activity_type", JStr "running"); ("timestamp", JInt 5)]
              sample_state))) (JInt 5) eq_refl _).
    intros s. discriminate.
  - exact (proj1 (proj2 (from_dict_errors
              [("activity_type", JStr "running"); ("timestamp", JStr "now")]
              sample_state)) "now" eq_refl eq_refl).
  - destruct (proj2 (proj2 (proj2 (from_dict_errors
                [("user_id", JStr "u1"); ("name", JStr "Ann"); ("age", JInt 16);
                 ("role", JStr "student"); ("created_at", JStr "7");
                 ("activity_history", JNull)] sample_state)))
                STUDENT eq_refl eq_refl) as (_ & _ & H).
    exact (proj1 (H 7%nat JNull eq_refl eq_refl) eq_refl).
  - destruct (proj2 (proj2 (proj2 (from_dict_errors
                [("user_id", JStr "u1"); ("name", JStr "Ann"); ("age", JInt 16);
                 ("role", JStr "student"); ("created_at", JStr "garbage");
                 ("activity_history", JNull)] sample_state)))
                STUDENT eq_refl eq_refl) as (H & _).
    exact (H "garbage" eq_refl eq_refl).
Defined.

(** *** A role that is neither a text nor a member, on the sample state *)

(** The sample state after [update_profile("student_001", role=None)] on
    the saved sample state. *)
Definition unsavable_state : State :=
  snd (update_profile "student_001" (mkKwargs None None (Some (PJson JNull)))
         (snd (save_all sample_state))).

(** C6: [update_profile("student_001", role=None)] on the saved sample
    state answers 500 with the [AttributeError] of [to_dict]; the stored
    profile has the role [None], and the file still has the role
    student. *)
Lemma update_profile_role_unvalidated_witness :
  dict_get "student_001" (profiles (snd (save_all sample_state))) = Some alice
  /\ (exists resp e,
        update_profile "student_001" (mkKwargs None None (Some (PJson JNull)))
          (snd (save_all sample_state))
        = (Ok resp, unsavable_state)
        /\ status_code resp = 500
        /\ message resp = MsgInternal e
        /\ is_ValueError e = false
        /\ role_accepted (PJson JNull) = true
        /\ option_map role (dict_get "student_001" (profiles unsavable_state))
           = Some (PJson JNull)
        /\ disk unsavable_state = disk (snd (save_all sample_state))
        /\ wf_storage unsavable_state = false)
  /\ fst (update_profile "student_001" (mkKwargs None None (Some (PJson JNull)))
            (snd (save_all sample_state)))
     = Ok (APIResponse_error (MsgInternal AttributeError) 500).
Proof.
  split; [reflexivity|]. split; [|reflexivity].
  destruct (update_profile_role_unvalidated (snd (save_all sample_state))
              "student_001" alice JNull eq_refl)
    as (resp & e & H1 & H2 & H3 & H4 & H5 & H6 & H7 & H8).
  { intros s. discriminate. }
  exists resp, e. split; [exact H1|]. split; [exact H2|]. split; [exact H3|].
  split; [exact H4|]. split; [exact H5|]. split; [reflexivity|].
  split; [exact H7|exact H8].
Defined.

(** C7: after that update, a valid activity for the teacher is answered
    with 500; the activity is in the teacher's stored history. *)
Lemma add_activity_when_unsavable_witness :
  existsb (fun kv => role_unchecked (snd kv)) (profiles unsavable_state) = true
  /\ dict_get "teacher_001" (profiles unsavable_state) = Some paul
  /\ (exists resp e st',
        add_activity "teacher_001" "running" (PJson (JInt 30)) (PJson (JInt 300))
          "Morning run" unsavable_state = (Ok resp, st')
        /\ status_code resp = 500
        /\ message resp = MsgInternal e
        /\ is_ValueError e = false
        /\ disk st' = disk unsavable_state
        /\ option_map (fun p => List.length (activity_history p))
             (dict_get "teacher_001" (profiles st')) = Some 1%nat)
  /\ fst (add_activity "teacher_001" "running" (PJson (JInt 30))
            (PJson (JInt 300)) "Morning run" unsavable_state)
     = Ok (APIResponse_error (MsgInternal AttributeError) 500).
Proof.
  split; [reflexivity|]. split; [reflexivity|]. split; [|reflexivity].
  destruct (add_activity_when_unsavable unsavable_state "teacher_001" "running"
              (PJson (JInt 30)) (PJson (JInt 300)) "Morning run" paul
              eq_refl eq_refl)
    as (resp & e & H1 & H2 & H3 & H4 & H5).
  { discriminate. }
  { exists 30. split; [reflexivity|lia]. }
  { exists 300. split; [reflexivity|lia]. }
  exists resp, e. eexists. split; [exact H1|]. split; [exact H2|].
  split; [exact H3|]. split; [exact H4|]. split; [exact H5|reflexivity].
Defined.

(** C4: after that update [save_all] raises, and a storage constructed on
    the file holds the sample profiles, Alice a student among them. *)
Lemma save_all_fails_unchecked_role_witness :
  existsb (fun kv => role_unchecked (snd kv)) (profiles unsavable_state) = true
  /\ wf_storage (snd (save_all sample_state)) = true
  /\ synced (snd (save_all sample_state))
  /\ (exists e st2,
        save_all unsavable_state = (Raise e, unsavable_state)
        /\ is_ValueError e = false
        /\ ProfileStorage_init "profiles.json" unsavable_state = (Ok tt, st2)
        /\ profiles st2 = profiles sample_state
        /\ profiles st2 <> profiles unsavable_state)
  /\ fst (save_all unsavable_state) = Raise AttributeError.
Proof.
  assert (Hs : synced (snd (save_all sample_state)))
    by (eexists; split; reflexivity).
  split; [reflexivity|]. split; [reflexivity|]. split; [exact Hs|].
  split; [|reflexivity].
  destruct (save_all_fails_unchecked_role unsavable_state
              (snd (save_all sample_state)) sample_iso_round_trip
              eq_refl eq_refl Hs eq_refl eq_refl)
    as (e & st2 & H1 & H2 & H3 & H4 & H5).
  exists e, st2. split; [exact H1|]. split; [exact H2|]. split; [exact H3|].
  split; [exact H4|exact H5].
Defined.

(** C9: a file that holds [[]], and a file that holds [{"u1": 5}]. *)
Lemma ProfileStorage_init_wrong_shape_witness :
  dict_get "profiles.json" (disk (state_with_file (Json (JList []))))
  = Some (Json (JList []))
  /\ ProfileStorage_init "profiles.json" (state_with_file (Json (JList [])))
     = (Raise AttributeError, state_with_file (Json (JList [])))
  /\ ProfileStorage_init "profiles.json"
       (state_with_file (Json (JObj [ ("u1", JInt 5) ])))
     = (Raise AttributeError, state_with_file (Json (JObj [ ("u1", JInt 5) ]))).
Proof.
  split; [reflexivity|]. split.
  - refine (proj1 (ProfileStorage_init_wrong_shape
                     (state_with_file (Json (JList []))) "profiles.json"
                     (JList []) eq_refl) _).
    intros d. discriminate.
  - refine (proj2 (ProfileStorage_init_wrong_shape
                     (state_with_file (Json (JObj [ ("u1", JInt 5) ])))
                     "profiles.json" (JObj [ ("u1", JInt 5) ]) eq_refl)
              "u1" (JInt 5) [] eq_refl _).
    intros d. discriminate.
Defined.

End MoreSamples.
